(** * Streaming progress classifier of the agent engines

    A shallow embedding of the TypeScript sources
    [cli/src/engines/base.ts] and [cli/src/engines/opencode.ts]
    (step detection, todo tracking, diff preview, result aggregation)
    together with the properties stated about them.

    Strings are Rocq strings whose characters stand for the UTF-16 code
    units below 256; JavaScript values are the JSON values extended with
    [undefined]; a thrown exception is an explicit [Throw] completion, so
    that [try]/[catch] and "does not raise" are statements about terms;
    the field [currentTodos] of an engine is threaded as state.  The
    numbers and the JSON parser of the host are parameters ([Host]),
    and [Reference.host] is an instance the functions run on.

    Process creation and stream reading are outside: [execute] and
    [executeStreaming] start from what the process delivered, the
    output text or lines and the exit code. *)

From Stdlib Require Import String Ascii List ZArith Bool Lia DecimalString.
From Stdlib Require Import Permutation.
Import ListNotations.
Local Open Scope list_scope.
Local Open Scope string_scope.

(* ================================================================= *)
(** ** JavaScript strings *)

Module JSString.

Definition newline : string := String "010" "".

(** White space removed by [String.prototype.trim], for code units
    below 256: TAB, LF, VT, FF, CR, SPACE and NBSP. *)
Definition isWhiteSpace (c : ascii) : bool :=
  let n := nat_of_ascii c in
  (((9 <=? n) && (n <=? 13)) || (n =? 32) || (n =? 160))%nat.

Fixpoint trimStart (s : string) : string :=
  match s with
  | "" => ""
  | String c s' => if isWhiteSpace c then trimStart s' else s
  end.

Fixpoint trimEnd (s : string) : string :=
  match s with
  | "" => ""
  | String c s' =>
      match trimEnd s' with
      | "" => if isWhiteSpace c then "" else String c ""
      | r => String c r
      end
  end.

Definition trim (s : string) : string := trimEnd (trimStart s).

Definition startsWith (p s : string) : bool := prefix p s.

(** [s.includes(sub)] *)
Fixpoint includes (sub s : string) : bool :=
  prefix sub s ||
  match s with
  | "" => false
  | String _ s' => includes sub s'
  end.

(** Lower-casing of one code unit below 256: A-Z and the Latin-1
    capitals (all of 0xC0-0xDE but the multiplication sign). *)
Definition lowerChar (c : ascii) : ascii :=
  let n := nat_of_ascii c in
  if (((65 <=? n) && (n <=? 90))
      || ((192 <=? n) && (n <=? 222) && negb (n =? 215)))%nat
  then ascii_of_nat (n + 32) else c.

Fixpoint toLowerCase (s : string) : string :=
  match s with
  | "" => ""
  | String c s' => String (lowerChar c) (toLowerCase s')
  end.

(** [s.split("\n")]: never the empty list, [""] for the empty string. *)
Fixpoint splitLines (s : string) : list string :=
  match s with
  | "" => [""]
  | String c s' =>
      match splitLines s' with
      | [] => [String c ""]
      | l :: ls => if Ascii.eqb c "010" then "" :: l :: ls
                   else String c l :: ls
      end
  end.

(** [lines.join(sep)] *)
Definition join (sep : string) (ls : list string) : string := String.concat sep ls.

(** [Boolean(s)] for a string: non-empty. *)
Definition nonEmpty (s : string) : bool :=
  match s with "" => false | _ => true end.

(** A relative index of [slice], clamped as the language does: a
    negative index counts from the end. *)
Definition clampIndex (len : nat) (i : Z) : nat :=
  if (i <? 0)%Z then Z.to_nat (Z.max (Z.of_nat len + i) 0)
  else Nat.min (Z.to_nat i) len.

(** [s.slice(b, e)] *)
Definition slice (s : string) (b e : Z) : string :=
  let from := clampIndex (String.length s) b in
  let to := clampIndex (String.length s) e in
  substring from (to - from) s.

(** [l.slice(b, e)] and [l.slice(b)] on arrays. *)
Definition sliceList {A : Type} (l : list A) (b : Z) (e : option Z) : list A :=
  let from := clampIndex (List.length l) b in
  let to := match e with
            | Some e => clampIndex (List.length l) e
            | None => List.length l
            end in
  firstn (to - from) (skipn from l).

(** A number rendered by a template literal; the numbers rendered here
    are integers (exit codes). *)
Definition showZ (z : Z) : string := NilZero.string_of_int (Z.to_int z).

End JSString.
Import JSString.

(* ================================================================= *)
(** ** JavaScript values and completions *)

(** What [JSON.parse] can return, and [undefined] for a missing
    property.  The number type is left to the host. *)
#[warnings="-register-all"]
Inductive value (number : Type) : Type :=
| VUndefined
| VNull
| VBool (b : bool)
| VNum (n : number)
| VStr (s : string)
| VArr (items : list (value number))
| VObj (props : list (string * value number)).

Arguments VUndefined {number}.
Arguments VNull {number}.
Arguments VBool {number} b.
Arguments VNum {number} n.
Arguments VStr {number} s.
Arguments VArr {number} items.
Arguments VObj {number} props.

(** The part of the JavaScript host the program relies on and that is not
    program text: numbers and the JSON parser.  [JSON_parse s = None]
    stands for a [SyntaxError]. *)
Record Host : Type := {
  number : Type;
  number_truthy : number -> bool;
  number_toString : number -> string;
  number_zero : number;
  JSON_parse : string -> option (value number)
}.

Inductive exn : Type := SyntaxError | TypeError.

(** The outcome of evaluating an expression or a function body. *)
Inductive completion (A : Type) : Type :=
| Normal (a : A)
| Throw (e : exn).

Arguments Normal {A} a.
Arguments Throw {A} e.

Definition bind {A B : Type} (c : completion A) (k : A -> completion B)
  : completion B :=
  match c with
  | Normal a => k a
  | Throw e => Throw e
  end.

(** [try { c } catch { h }] *)
Definition tryCatch {A : Type} (c : completion A) (h : completion A)
  : completion A :=
  match c with
  | Normal a => Normal a
  | Throw _ => h
  end.

Declare Scope js_scope.
Delimit Scope js_scope with js.
Notation "x <- c ;; k" := (bind c (fun x => k))
  (at level 61, c at next level, right associativity) : js_scope.
Local Open Scope js_scope.

Section Semantics.

Variable H : Host.
Local Abbreviation val := (value (number H)).

(** [ToBoolean] *)
Definition truthy (v : val) : bool :=
  match v with
  | VUndefined | VNull => false
  | VBool b => b
  | VNum n => number_truthy H n
  | VStr s => nonEmpty s
  | VArr _ | VObj _ => true
  end.

Fixpoint lookup (k : string) (props : list (string * val)) : val :=
  match props with
  | [] => VUndefined
  | (k', v) :: rest => if String.eqb k k' then v else lookup k rest
  end.

(** [v.k] for the property names the program reads, none of which is
    [length], an index or a member of a built-in prototype: reading
    from [null] or [undefined] throws, an object gives its own
    property, every other value gives [undefined]. *)
Definition get (v : val) (k : string) : completion val :=
  match v with
  | VUndefined | VNull => Throw TypeError
  | VObj props => Normal (lookup k props)
  | _ => Normal VUndefined
  end.

(** [v?.k] *)
Definition getOpt (v : val) (k : string) : completion val :=
  match v with
  | VUndefined | VNull => Normal VUndefined
  | _ => get v k
  end.

(** [a || b], with [b] evaluated only when [a] is falsy. *)
Definition orElse (a : val) (b : completion val) : completion val :=
  if truthy a then Normal a else b.

(** [v === "lit"] *)
Definition isStr (v : val) (lit : string) : bool :=
  match v with
  | VStr s => String.eqb s lit
  | _ => false
  end.

(** [Array.isArray(v)] *)
Definition isArray (v : val) : bool :=
  match v with VArr _ => true | _ => false end.

(** The receiver of a string method call such as [v.toLowerCase()]:
    on any value but a string the member is missing (or, in a parsed
    object, not a function) and the call throws. *)
Definition strOf (v : val) : completion string :=
  match v with
  | VStr s => Normal s
  | _ => Throw TypeError
  end.

Definition lowerOf (v : val) : completion string :=
  s <- strOf v ;; Normal (toLowerCase s).

(** [v?.toLowerCase()] *)
Definition lowerOpt (v : val) : completion val :=
  match v with
  | VUndefined | VNull => Normal VUndefined
  | _ => s <- lowerOf v ;; Normal (VStr s)
  end.

Definition hasOwn (k : string) (props : list (string * val)) : bool :=
  existsb (fun p => String.eqb k (fst p)) props.

(** [String(v)], the abstract operation ToString.  An array joins the
    conversions of its elements with commas, [null] and [undefined]
    elements giving the empty string.  A parsed object converts to
    ["[object Object]"] through the inherited [toString], unless it has
    an own property of that name: a parsed value is never callable, so
    the own property hides the inherited method, the conversion falls
    back on [valueOf], which gives no primitive value either (an own
    one is not callable, the inherited one returns the object), and a
    [TypeError] is thrown. *)
Fixpoint toStr (v : val) : completion string :=
  match v with
  | VUndefined => Normal "undefined"
  | VNull => Normal "null"
  | VBool true => Normal "true"
  | VBool false => Normal "false"
  | VNum n => Normal (number_toString H n)
  | VStr s => Normal s
  | VArr items =>
      ss <- (fix elems (l : list val) : completion (list string) :=
         match l with
         | [] => Normal []
         | e :: l' =>
             s <- match e with
                  | VUndefined | VNull => Normal ""
                  | _ => toStr e
                  end ;;
             ss <- elems l' ;;
             Normal (s :: ss)
         end) items ;;
      Normal (join "," ss)
  | VObj props =>
      if hasOwn "toString" props then Throw TypeError
      else Normal "[object Object]"
  end.

(** [arr.join(sep)] on an array of values. *)
Fixpoint joinValues (sep : string) (l : list val) : completion string :=
  match l with
  | [] => Normal ""
  | e :: l' =>
      s <- match e with
           | VUndefined | VNull => Normal ""
           | _ => toStr e
           end ;;
      match l' with
      | [] => Normal s
      | _ => rest <- joinValues sep l' ;; Normal (s ++ sep ++ rest)
      end
  end.

End Semantics.

Arguments truthy {H} v.
Arguments lookup {H} k props.
Arguments get {H} v k.
Arguments getOpt {H} v k.
Arguments orElse {H} a b.
Arguments isStr {H} v lit.
Arguments isArray {H} v.
Arguments strOf {H} v.
Arguments lowerOf {H} v.
Arguments lowerOpt {H} v.
Arguments toStr {H} v.
Arguments joinValues {H} sep l.

(* ================================================================= *)
(** ** Shared record types ([engines/types.ts]) *)

Module Types.

(** [status] is whatever truthy value the payload carried: the cast in
    the source is not checked at run time. *)
Record TodoItem (number : Type) : Type := {
  id : string;
  content : string;
  status : value number
}.

(** [startLine] is never set by the code below and is left out. *)
Record DiffInfo : Type := {
  filePath : string;
  oldLines : option (list string);
  newLines : option (list string)
}.

Record StepInfo (number : Type) : Type := {
  step : string;
  toolOutput : option string;
  diff : option DiffInfo;
  todos : option (list (TodoItem number))
}.

Record AIResult (number : Type) : Type := {
  success : bool;
  response : string;
  inputTokens : value number;
  outputTokens : value number;
  cost : option string;
  error : option (value number)
}.

Arguments id {number} t.
Arguments content {number} t.
Arguments status {number} t.
Arguments step {number} s.
Arguments toolOutput {number} s.
Arguments diff {number} s.
Arguments todos {number} s.
Arguments success {number} a.
Arguments response {number} a.
Arguments inputTokens {number} a.
Arguments outputTokens {number} a.
Arguments cost {number} a.
Arguments error {number} a.

End Types.

(* ================================================================= *)
(** ** [engines/base.ts] *)

Module Base.

(** [isTestFile] *)
Definition isTestFile (filePath : string) : bool :=
  let lower := toLowerCase filePath in
  includes ".test." lower
  || includes ".spec." lower
  || includes "__tests__" lower
  || includes "_test.go" lower.

(** [truncate] *)
Definition truncate (str : string) (maxLen : Z) : string :=
  if (Z.of_nat (String.length str) <=? maxLen)%Z then str
  else slice str 0 (maxLen - 3) ++ "...".

(** [formatFilePath] *)
Definition formatFilePath (filePath : string) : string :=
  truncate filePath 60.

(** [formatCommand] *)
Definition formatCommand (command : string) : string :=
  "Running: " ++ truncate command 50.

(** [formatCommandError] *)
Definition formatCommandError (exitCode : Z) (output : string) : string :=
  let trimmed := trim output in
  if negb (nonEmpty trimmed) then
    "Command failed with exit code " ++ showZ exitCode
  else
    let lines := filter nonEmpty (splitLines trimmed) in
    let snippet := join newline (sliceList lines (-12) None) in
    "Command failed with exit code " ++ showZ exitCode
      ++ ". Output:" ++ newline ++ snippet.

(** The tuple read off one parsed line (lines 608-627 of
    [detectStepFromOutput]).  [rawCommand] is the value of
    [claudeTool?.command || parsed.command || ""], which the source
    recomputes in each branch that echoes the command. *)
Record ToolCall (number : Type) : Type := {
  toolName : string;
  filePath : string;
  command : string;
  description : string;
  rawCommand : value number
}.
Arguments toolName {number} t.
Arguments filePath {number} t.
Arguments command {number} t.
Arguments description {number} t.
Arguments rawCommand {number} t.

(** The result record of [extractToolFromClaudeFormat]. *)
Record ClaudeTool : Type := {
  ct_toolName : string;
  ct_filePath : string;
  ct_command : string
}.

Section WithHost.

Variable H : Host.
Local Abbreviation val := (value (number H)).
Local Abbreviation StepInfo := (Types.StepInfo (number H)).

(** [JSON.parse(s)] *)
Definition parse (s : string) : completion val :=
  match JSON_parse H s with
  | Some v => Normal v
  | None => Throw SyntaxError
  end.

(** The body of the [try] in [checkForErrors]: [Some m] when the line
    is an error event with message [m]. *)
Definition errorEvent (line : string) : completion (option val) :=
  parsed <- parse line ;;
  ty <- get parsed "type" ;;
  if isStr ty "error" then
    err <- get parsed "error" ;;
    m1 <- getOpt err "message" ;;
    m <- orElse m1 (m2 <- get parsed "message" ;;
                    orElse m2 (Normal (VStr "Unknown error"))) ;;
    Normal (Some m)
  else Normal None.

Fixpoint checkLines (lines : list string) : option val :=
  match lines with
  | [] => None
  | line :: rest =>
      match tryCatch (errorEvent line) (Normal None) with
      | Normal (Some m) => Some m
      | _ => checkLines rest
      end
  end.

(** [checkForErrors]: [None] is [null]. *)
Definition checkForErrors (output : string) : option val :=
  checkLines (filter nonEmpty (splitLines output)).

(** The loop of [extractToolFromClaudeFormat] over [message.content]. *)
Fixpoint findToolUse (content : list val) : completion (option ClaudeTool) :=
  match content with
  | [] => Normal None
  | item :: rest =>
      ty <- get item "type" ;;
      name <- (if isStr ty "tool_use" then get item "name"
               else Normal VUndefined) ;;
      if isStr ty "tool_use" && truthy name then
        toolName <- lowerOf name ;;
        i <- get item "input" ;;
        input <- orElse i (Normal (VObj [])) ;;
        fp1 <- get input "file_path" ;;
        fp <- orElse fp1 (fp2 <- get input "path" ;;
                          orElse fp2 (Normal (VStr ""))) ;;
        filePath <- lowerOf fp ;;
        c1 <- get input "command" ;;
        c <- orElse c1 (Normal (VStr "")) ;;
        command <- lowerOf c ;;
        Normal (Some {| ct_toolName := toolName;
                        ct_filePath := filePath;
                        ct_command := command |})
      else findToolUse rest
  end.

(** [extractToolFromClaudeFormat] *)
Definition extractToolFromClaudeFormat (parsed : val)
  : completion (option ClaudeTool) :=
  ty <- get parsed "type" ;;
  if negb (isStr ty "assistant") then Normal None else
  message <- get parsed "message" ;;
  content <- getOpt message "content" ;;
  if negb (truthy content) then Normal None else
  match content with
  | VArr items => findToolUse items
  | _ => Normal None
  end.

(** [v?.toLowerCase() || rest], where [rest] is a string: the left
    operand is [undefined], or a lower-cased string; both [undefined]
    and [""] are falsy and give [rest]. *)
Definition lowerOr (v : val) (rest : completion string) : completion string :=
  l <- lowerOpt v ;;
  match l with
  | VStr s => if nonEmpty s then Normal s else rest
  | _ => rest
  end.

(** Lines 606-627 of [detectStepFromOutput]: the fields of the tool
    invocation, from the nested shape when there is one and from the
    flat shape otherwise. *)
Definition normalize (parsed : val) : completion (ToolCall (number H)) :=
  claudeTool <- extractToolFromClaudeFormat parsed ;;
  pc <- get parsed "command" ;;
  flatRaw <- orElse pc (Normal (VStr "")) ;;
  match claudeTool with
  | Some ct =>
      Normal {| toolName := ct_toolName ct;
                filePath := ct_filePath ct;
                command := ct_command ct;
                description := "";
                rawCommand := if nonEmpty (ct_command ct)
                              then VStr (ct_command ct) else flatRaw |}
  | None =>
      t <- get parsed "tool" ;;
      toolName <- lowerOr t
        (n <- get parsed "name" ;;
         lowerOr n (tn <- get parsed "tool_name" ;;
                    lowerOr tn (Normal ""))) ;;
      command <- lowerOr pc (Normal "") ;;
      f1 <- get parsed "file_path" ;;
      f <- orElse f1 (f2 <- get parsed "filePath" ;;
                      orElse f2 (f3 <- get parsed "path" ;;
                                 orElse f3 (Normal (VStr "")))) ;;
      filePath <- lowerOf f ;;
      d1 <- get parsed "description" ;;
      d <- orElse d1 (Normal (VStr "")) ;;
      description <- lowerOf d ;;
      Normal {| toolName := toolName;
                filePath := filePath;
                command := command;
                description := description;
                rawCommand := flatRaw |}
  end.

Definition info (step : string) (toolOutput : option string) : StepInfo :=
  {| Types.step := step;
     Types.toolOutput := toolOutput;
     Types.diff := None;
     Types.todos := None |}.

(** [rawCommand ? formatCommand(rawCommand) : undefined].  Where the
    source evaluates it, [rawCommand] is a non-empty string (lemma
    [normalize_rawCommand]); a truthy value of another type has no
    [slice] to call. *)
Definition echo (rawCommand : val) : completion (option string) :=
  match rawCommand with
  | VStr s => Normal (if nonEmpty s then Some (formatCommand s) else None)
  | v => if truthy v then Throw TypeError else Normal None
  end.

Definition pathOutput (filePath : string) : option string :=
  if nonEmpty filePath then Some (formatFilePath filePath) else None.

(** Lines 629-703 of [detectStepFromOutput]: the decision on the
    extracted fields. *)
Definition classify (t : ToolCall (number H)) : completion (option StepInfo) :=
  let toolName := toolName t in
  let filePath := filePath t in
  let command := command t in
  let description := description t in
  if negb (nonEmpty toolName) && negb (nonEmpty command) then Normal None else
  let isReadOperation :=
    String.eqb toolName "read" || String.eqb toolName "glob"
    || String.eqb toolName "grep" in
  let isWriteOperation :=
    String.eqb toolName "write" || String.eqb toolName "edit" in
  let isBashOperation := String.eqb toolName "bash" in
  let afterBash :=
    if isWriteOperation && isTestFile filePath then
      Normal (Some (info "Writing tests" (pathOutput filePath)))
    else if isWriteOperation then
      Normal (Some (info "Implementing" (pathOutput filePath)))
    else Normal None in
  if isReadOperation then
    Normal (Some (info "Reading code" (pathOutput filePath)))
  else if isBashOperation || nonEmpty command then
    if includes "git commit" command || includes "git commit" description then
      Normal (Some (info "Committing" None))
    else if includes "git add" command || includes "git add" description then
      Normal (Some (info "Staging" None))
    else if includes "lint" command || includes "eslint" command
            || includes "biome" command || includes "prettier" command then
      toolOutput <- echo (rawCommand t) ;;
      Normal (Some (info "Linting" toolOutput))
    else if includes "vitest" command || includes "jest" command
            || includes "bun test" command || includes "npm test" command
            || includes "pytest" command || includes "go test" command then
      toolOutput <- echo (rawCommand t) ;;
      Normal (Some (info "Testing" toolOutput))
    else if isBashOperation && nonEmpty command then
      toolOutput <- echo (rawCommand t) ;;
      Normal (Some (info "Running command" toolOutput))
    else afterBash
  else afterBash.

(** [detectStepFromOutput]: [Normal None] is the returned [null]. *)
Definition detectStepFromOutput (line : string) : completion (option StepInfo) :=
  let trimmed := trim line in
  if negb (startsWith "{" trimmed) then Normal None else
  tryCatch
    (parsed <- parse trimmed ;;
     t <- normalize parsed ;;
     classify t)
    (Normal None).

End WithHost.

End Base.

(* ================================================================= *)
(** ** Computations on mutable state that may throw *)

(** A method body reading and assigning fields: the state is threaded
    through, and an exception leaves the state as it was when thrown. *)
Definition stateful (S A : Type) : Type := S -> completion A * S.

Definition ret {S A : Type} (a : A) : stateful S A := fun s => (Normal a, s).

Definition bindS {S A B : Type} (c : stateful S A) (k : A -> stateful S B)
  : stateful S B :=
  fun s =>
    match c s with
    | (Normal a, s') => k a s'
    | (Throw e, s') => (Throw e, s')
    end.

(** A computation that touches no field. *)
Definition lift {S A : Type} (c : completion A) : stateful S A :=
  fun s => (c, s).

Definition read {S : Type} : stateful S S := fun s => (Normal s, s).

Definition assign {S : Type} (s' : S) : stateful S unit :=
  fun _ => (Normal tt, s').

(** [try { c } catch { h }] *)
Definition tryCatchS {S A : Type} (c h : stateful S A) : stateful S A :=
  fun s =>
    match c s with
    | (Normal a, s') => (Normal a, s')
    | (Throw _, s') => h s'
    end.

Notation "x <~ c ;; k" := (bindS c (fun x => k))
  (at level 61, c at next level, right associativity) : js_scope.

(* ================================================================= *)
(** ** [engines/opencode.ts] *)

Module OpenCode.

(** [truncate] *)
Definition truncate (str : string) (maxLen : Z) : string :=
  if (Z.of_nat (String.length str) <=? maxLen)%Z then str
  else slice str 0 (maxLen - 3) ++ "...".

(** [truncatePath] *)
Definition truncatePath (filePath : string) : string :=
  truncate filePath 60.

(** [isTestFile] *)
Definition isTestFile (filePath : string) : bool :=
  let lower := toLowerCase filePath in
  includes ".test." lower || includes ".spec." lower
  || includes "__tests__" lower.

Definition previewLines (content : string) (maxLines : Z) : option (list string) :=
  if nonEmpty content then
    Some (map (fun l => truncate l 70)
              (sliceList (splitLines content) 0 (Some maxLines)))
  else None.

(** [createDiff], on its declared argument types; [None] is
    [undefined]. *)
Definition createDiff (filePath oldContent newContent : string) (maxLines : Z)
  : option Types.DiffInfo :=
  if negb (nonEmpty newContent) && negb (nonEmpty oldContent) then None
  else Some {| Types.filePath := filePath;
               Types.oldLines := previewLines oldContent maxLines;
               Types.newLines := previewLines newContent maxLines |}.

(** The default of the [maxLines] parameter. *)
Definition defaultMaxLines : Z := 4.

(** [extractCodeSnippet]; its [maxLines] defaults to 3. *)
Definition extractCodeSnippet (code : string) (maxLines : Z) : list string :=
  if negb (nonEmpty code) then []
  else
    let lines := filter (fun l => nonEmpty (trim l)) (splitLines code) in
    map (fun line => truncate (trim line) 60)
        (sliceList lines 0 (Some maxLines)).

(** The constants of lines 909-913 of [detectStepFromLine]. *)
Record Fields (number : Type) : Type := {
  rawFilePath : string;
  filePath : string;
  command : string;
  oldContent : value number;
  newContent : value number
}.
Arguments rawFilePath {number} f.
Arguments filePath {number} f.
Arguments command {number} f.
Arguments oldContent {number} f.
Arguments newContent {number} f.

(** The variables [inputTokens], [outputTokens] and [cost] of
    [parseOutput], assigned inside its first loop. *)
Record Usage (number : Type) : Type := {
  usedInput : value number;
  usedOutput : value number;
  usedCost : option string
}.
Arguments usedInput {number} u.
Arguments usedOutput {number} u.
Arguments usedCost {number} u.

(** The record returned by [parseOutput]. *)
Record ParsedOutput (number : Type) : Type := {
  p_response : string;
  p_inputTokens : value number;
  p_outputTokens : value number;
  p_cost : option string
}.
Arguments p_response {number} p.
Arguments p_inputTokens {number} p.
Arguments p_outputTokens {number} p.
Arguments p_cost {number} p.

Section WithHost.

Variable H : Host.
Local Abbreviation val := (value (number H)).
Local Abbreviation TodoItem := (Types.TodoItem (number H)).
Local Abbreviation StepInfo := (Types.StepInfo (number H)).
Local Abbreviation AIResult := (Types.AIResult (number H)).
Local Abbreviation Fields := (OpenCode.Fields (number H)).
Local Abbreviation Usage := (OpenCode.Usage (number H)).
Local Abbreviation ParsedOutput := (OpenCode.ParsedOutput (number H)).

(** The field [currentTodos] is the whole mutable state of an
    engine instance. *)
Definition engine (A : Type) : Type := stateful (list TodoItem) A.

(** The callback of [input.todos.map]. *)
Definition mapTodo (t : val) : completion TodoItem :=
  i <- get t "id" ;;
  i' <- orElse i (Normal (VStr "")) ;;
  id <- toStr i' ;;
  c <- get t "content" ;;
  c' <- orElse c (Normal (VStr "")) ;;
  content <- toStr c' ;;
  s <- get t "status" ;;
  status <- orElse s (Normal (VStr "pending")) ;;
  Normal {| Types.id := id; Types.content := content; Types.status := status |}.

Fixpoint mapTodos (ts : list val) : completion (list TodoItem) :=
  match ts with
  | [] => Normal []
  | t :: rest =>
      item <- mapTodo t ;;
      items <- mapTodos rest ;;
      Normal (item :: items)
  end.

(** [this.currentTodos.length > 0 ? this.currentTodos : undefined] *)
Definition trackedTodos : engine (option (list TodoItem)) :=
  cur <~ read ;;
  ret (match cur with [] => None | _ => Some cur end).

Definition event (step : string) (toolOutput : option string)
    (diff : option Types.DiffInfo) : engine (option StepInfo) :=
  todos <~ trackedTodos ;;
  ret (Some {| Types.step := step;
               Types.toolOutput := toolOutput;
               Types.diff := diff;
               Types.todos := todos |}).

(** [command ? `Running: ${this.truncate(command, 50)}` : undefined] *)
Definition echo (command : string) : option string :=
  if nonEmpty command then Some ("Running: " ++ truncate command 50)
  else None.

(** Lines 946-950 of [detectStepFromLine], reached when no branch
    of the tool-call block has returned. *)
Definition stepStart (parsed : val) : engine (option StepInfo) :=
  ty <~ lift (get parsed "type") ;;
  if isStr ty "step_start" then event "Thinking" None None
  else ret None.

(** Lines 898-907: [Some e] when the todo-write branch returns [e]. *)
Definition todoWrite (toolName : string) (input : val)
  : engine (option (option StepInfo)) :=
  if String.eqb toolName "todowrite" || String.eqb toolName "mcp_todowrite" then
    todos <~ lift (get input "todos") ;;
    match todos with
    | VArr ts =>
        items <~ lift (mapTodos ts) ;;
        _ <~ assign items ;;
        cur <~ read ;;
        ret (Some (Some {| Types.step := "Planning";
                           Types.toolOutput := None;
                           Types.diff := None;
                           Types.todos := Some cur |}))
    | _ => ret None
    end
  else ret None.

(** The string arguments of the call [this.createDiff(rawFilePath,
    oldContent, newContent)]: a truthy content that is not a string
    has no [split] to call. *)
Definition callCreateDiff (rawFilePath : string) (oldContent newContent : val)
  : completion (option Types.DiffInfo) :=
  match oldContent, newContent with
  | VStr o, VStr n => Normal (createDiff rawFilePath o n defaultMaxLines)
  | _, _ => Throw TypeError
  end.

(** Lines 909-913: the fields read from [input] for every tool. *)
Definition fields (input : val) : completion Fields :=
  f1 <- get input "file_path" ;;
  raw <- orElse f1 (f2 <- get input "path" ;;
                    orElse f2 (Normal (VStr ""))) ;;
  rawFilePath <- strOf raw ;;
  c1 <- get input "command" ;;
  c <- orElse c1 (Normal (VStr "")) ;;
  command <- lowerOf c ;;
  o1 <- get input "old_string" ;;
  oldContent <- orElse o1 (o2 <- get input "oldString" ;;
                           orElse o2 (Normal (VStr ""))) ;;
  n1 <- get input "content" ;;
  newContent <- orElse n1 (n2 <- get input "new_string" ;;
                           orElse n2 (n3 <- get input "newString" ;;
                                      orElse n3 (Normal (VStr "")))) ;;
  Normal {| rawFilePath := rawFilePath;
            filePath := toLowerCase rawFilePath;
            command := command;
            oldContent := oldContent;
            newContent := newContent |}.

(** Lines 915-943: the branches on the tool name. *)
Definition toolStep (parsed : val) (toolName : string) (input : val)
  : engine (option StepInfo) :=
  f <~ lift (fields input) ;;
  if String.eqb toolName "read" || String.eqb toolName "glob"
     || String.eqb toolName "grep" then
    event "Reading code"
          (if nonEmpty (filePath f) then Some (truncatePath (filePath f))
           else None)
          None
  else if String.eqb toolName "write" || String.eqb toolName "edit" then
    let isTest := isTestFile (filePath f) in
    diff <~ lift (callCreateDiff (rawFilePath f) (oldContent f)
                                 (newContent f)) ;;
    event (if isTest then "Writing tests" else "Implementing") None diff
  else if String.eqb toolName "bash" then
    if includes "git commit" (command f) then event "Committing" None None
    else if includes "git add" (command f) then event "Staging" None None
    else if includes "lint" (command f) || includes "eslint" (command f)
            || includes "biome" (command f) then
      event "Linting" (echo (command f)) None
    else if includes "test" (command f) || includes "vitest" (command f)
            || includes "jest" (command f) then
      event "Testing" (echo (command f)) None
    else event "Running command" (echo (command f)) None
  else stepStart parsed.

(** Lines 894-896: the lower-cased tool name and the input of a
    line that is a tool call with a name. *)
Definition toolCall (parsed : val) : completion (option (string * val)) :=
  ty <- get parsed "type" ;;
  if isStr ty "tool_call" then
    part <- get parsed "part" ;;
    name <- getOpt part "name" ;;
    if truthy name then
      toolName <- lowerOf name ;;
      i <- get part "input" ;;
      input <- orElse i (Normal (VObj [])) ;;
      Normal (Some (toolName, input))
    else Normal None
  else Normal None.

(** The body of the [try] in [detectStepFromLine]. *)
Definition detectBody (trimmed : string) : engine (option StepInfo) :=
  parsed <~ lift (Base.parse H trimmed) ;;
  call <~ lift (toolCall parsed) ;;
  match call with
  | Some (toolName, input) =>
      planned <~ todoWrite toolName input ;;
      match planned with
      | Some e => ret e
      | None => toolStep parsed toolName input
      end
  | None => stepStart parsed
  end.

(** [detectStepFromLine]: [Normal None] is the returned [null]. *)
Definition detectStepFromLine (line : string) : engine (option StepInfo) :=
  let trimmed := trim line in
  if negb (startsWith "{" trimmed) then ret None
  else tryCatchS (detectBody trimmed) (ret None).

(** The body of the [try] in the first loop of [parseOutput]. *)
Definition stepFinish (line : string) : stateful Usage unit :=
  parsed <~ lift (Base.parse H line) ;;
  ty <~ lift (get parsed "type") ;;
  if isStr ty "step_finish" then
    part <~ lift (get parsed "part") ;;
    tokens <~ lift (getOpt part "tokens") ;;
    i <~ lift (getOpt tokens "input") ;;
    i' <~ lift (orElse i (Normal (VNum (number_zero H)))) ;;
    u <~ read ;;
    _ <~ assign {| usedInput := i'; usedOutput := usedOutput u;
                   usedCost := usedCost u |} ;;
    o <~ lift (getOpt tokens "output") ;;
    o' <~ lift (orElse o (Normal (VNum (number_zero H)))) ;;
    u <~ read ;;
    _ <~ assign {| usedInput := usedInput u; usedOutput := o';
                   usedCost := usedCost u |} ;;
    c <~ lift (getOpt part "cost") ;;
    if truthy c then
      c' <~ lift (toStr c) ;;
      u <~ read ;;
      assign {| usedInput := usedInput u; usedOutput := usedOutput u;
                usedCost := Some c' |}
    else ret tt
  else ret tt.

Fixpoint usageLoop (lines : list string) : stateful Usage unit :=
  match lines with
  | [] => ret tt
  | line :: rest =>
      _ <~ tryCatchS (stepFinish line) (ret tt) ;;
      usageLoop rest
  end.

(** The body of the [try] in the second loop of [parseOutput]:
    [Some t] when [t] is pushed on [textParts]. *)
Definition textPart (line : string) : completion (option val) :=
  parsed <- Base.parse H line ;;
  ty <- get parsed "type" ;;
  if isStr ty "text" then
    part <- get parsed "part" ;;
    t <- getOpt part "text" ;;
    Normal (if truthy t then Some t else None)
  else Normal None.

Fixpoint textParts (lines : list string) : list val :=
  match lines with
  | [] => []
  | line :: rest =>
      match tryCatch (textPart line) (Normal None) with
      | Normal (Some t) => t :: textParts rest
      | _ => textParts rest
      end
  end.

(** [parseOutput].  The final [textParts.join("")] is outside every
    [try]. *)
Definition parseOutput (output : string) : completion ParsedOutput :=
  let lines := filter nonEmpty (splitLines output) in
  let u := snd (usageLoop lines
                  {| usedInput := VNum (number_zero H);
                     usedOutput := VNum (number_zero H);
                     usedCost := None |}) in
  joined <- joinValues "" (textParts lines) ;;
  let response := if nonEmpty joined then joined else "Task completed" in
  Normal {| p_response := response;
            p_inputTokens := usedInput u;
            p_outputTokens := usedOutput u;
            p_cost := usedCost u |}.

(** Lines 779-811 of [execute], which are lines 853-883 of
    [executeStreaming] too: the result built from the whole output
    and the exit code. *)
Definition aggregate (output : string) (exitCode : Z) : completion AIResult :=
  let failed :=
    match Base.checkForErrors H output with
    | Some error => if truthy error then Some error else None
    | None => None
    end in
  match failed with
  | Some error =>
      Normal {| Types.success := false;
                Types.response := "";
                Types.inputTokens := VNum (number_zero H);
                Types.outputTokens := VNum (number_zero H);
                Types.cost := None;
                Types.error := Some error |}
  | None =>
      p <- parseOutput output ;;
      if negb (exitCode =? 0)%Z then
        Normal {| Types.success := false;
                  Types.response := p_response p;
                  Types.inputTokens := p_inputTokens p;
                  Types.outputTokens := p_outputTokens p;
                  Types.cost := None;
                  Types.error :=
                    Some (VStr (Base.formatCommandError exitCode output)) |}
      else
        Normal {| Types.success := true;
                  Types.response := p_response p;
                  Types.inputTokens := p_inputTokens p;
                  Types.outputTokens := p_outputTokens p;
                  Types.cost := p_cost p;
                  Types.error := None |}
  end.

(** [execute], from what [execCommand] resolved to. *)
Definition execute (stdout stderr : string) (exitCode : Z)
  : completion AIResult :=
  aggregate (stdout ++ stderr) exitCode.

(** The [onLine] callback of [executeStreaming] over the lines
    delivered by [execCommandStreaming]: the events handed to
    [onProgress], in order. *)
Fixpoint progress (lines : list string) : engine (list StepInfo) :=
  match lines with
  | [] => ret []
  | line :: rest =>
      stepInfo <~ detectStepFromLine line ;;
      events <~ progress rest ;;
      ret (match stepInfo with
           | Some e => e :: events
           | None => events
           end)
  end.

(** [executeStreaming], from the delivered lines and the exit code. *)
Definition executeStreaming (outputLines : list string) (exitCode : Z)
  : engine (list StepInfo * AIResult) :=
  events <~ progress outputLines ;;
  result <~ lift (aggregate (join newline outputLines) exitCode) ;;
  ret (events, result).

End WithHost.

End OpenCode.

(* ================================================================= *)
(** ** A reference host *)

(** An executable instance of [Host], on which the functions above can
    be run: numbers are the integers that a double represents exactly,
    and the parser accepts the JSON grammar with integer literals and
    [\u] escapes below 256. *)
Module Reference.

Local Abbreviation val := (value Z).

Definition isJsonSpace (c : ascii) : bool :=
  let n := nat_of_ascii c in
  ((n =? 32) || (n =? 9) || (n =? 10) || (n =? 13))%nat.

Fixpoint skipWs (s : string) : string :=
  match s with
  | "" => ""
  | String c s' => if isJsonSpace c then skipWs s' else s
  end.

Definition digit (c : ascii) : option Z :=
  let n := nat_of_ascii c in
  if ((48 <=? n) && (n <=? 57))%nat then Some (Z.of_nat (n - 48)) else None.

Definition hexDigit (c : ascii) : option nat :=
  let n := nat_of_ascii c in
  if ((48 <=? n) && (n <=? 57))%nat then Some (n - 48)
  else if ((65 <=? n) && (n <=? 70))%nat then Some (n - 55)
  else if ((97 <=? n) && (n <=? 102))%nat then Some (n - 87)
  else None.

Fixpoint parseDigits (s : string) (acc : Z) : Z * string :=
  match s with
  | "" => (acc, "")
  | String c r =>
      match digit c with
      | Some d => parseDigits r (10 * acc + d)
      | None => (acc, s)
      end
  end.

Definition maxSafeInteger : Z := 9007199254740991.

(** An integer literal; a fraction or an exponent is refused. *)
Definition parseNumber (s : string) : option (Z * string) :=
  let '(negative, s1) :=
    match s with
    | String c r => if Ascii.eqb c "-" then (true, r) else (false, s)
    | "" => (false, s)
    end in
  match s1 with
  | "" => None
  | String c r =>
      match digit c with
      | None => None
      | Some d =>
          let '(n, rest) := if (d =? 0)%Z then (0%Z, r) else parseDigits s1 0 in
          let stop :=
            match rest with
            | "" => true
            | String c' _ =>
                match digit c' with
                | Some _ => false
                | None => negb (Ascii.eqb c' "." || Ascii.eqb c' "e"
                                || Ascii.eqb c' "E")
                end
            end in
          if stop && (n <=? maxSafeInteger)%Z
          then Some (if negative then (- n)%Z else n, rest)
          else None
      end
  end.

Definition simpleEscape (c : ascii) : option ascii :=
  let n := nat_of_ascii c in
  if (n =? 34)%nat then Some "034"%char
  else if (n =? 92)%nat then Some "092"%char
  else if (n =? 47)%nat then Some "/"%char
  else if Ascii.eqb c "b" then Some "008"%char
  else if Ascii.eqb c "f" then Some "012"%char
  else if Ascii.eqb c "n" then Some "010"%char
  else if Ascii.eqb c "r" then Some "013"%char
  else if Ascii.eqb c "t" then Some "009"%char
  else None.

Definition hex4 (a b c d : ascii) : option nat :=
  match hexDigit a, hexDigit b, hexDigit c, hexDigit d with
  | Some x, Some y, Some z, Some w => Some (((x * 16 + y) * 16 + z) * 16 + w)
  | _, _, _, _ => None
  end.

Definition consTo (c : ascii) (r : option (string * string))
  : option (string * string) :=
  match r with
  | Some (str, rest) => Some (String c str, rest)
  | None => None
  end.

(** The characters of a string literal after its opening quote. *)
Fixpoint parseChars (s : string) : option (string * string) :=
  match s with
  | "" => None
  | String c r =>
      if (nat_of_ascii c =? 34)%nat then Some ("", r)
      else if (nat_of_ascii c =? 92)%nat then
        match r with
        | "" => None
        | String e r' =>
            match simpleEscape e with
            | Some ch => consTo ch (parseChars r')
            | None =>
                if Ascii.eqb e "u" then
                  match r' with
                  | String h1 (String h2 (String h3 (String h4 r''))) =>
                      match hex4 h1 h2 h3 h4 with
                      | Some n =>
                          if (n <? 256)%nat
                          then consTo (ascii_of_nat n) (parseChars r'')
                          else None
                      | None => None
                      end
                  | _ => None
                  end
                else None
            end
        end
      else if (nat_of_ascii c <? 32)%nat then None
      else consTo c (parseChars r)
  end.

(** A later member replaces an earlier one of the same name. *)
Fixpoint setProp (k : string) (v : val) (props : list (string * val))
  : list (string * val) :=
  match props with
  | [] => [(k, v)]
  | (k', v') :: rest =>
      if String.eqb k k' then (k, v) :: rest
      else (k', v') :: setProp k v rest
  end.

Definition literal (word : string) (v : val) (s : string)
  : option (val * string) :=
  if prefix word s
  then Some (v, substring (String.length word)
                          (String.length s - String.length word) s)
  else None.

Fixpoint parseValue (fuel : nat) (s : string) : option (val * string) :=
  match fuel with
  | O => None
  | S fuel' =>
      match skipWs s with
      | "" => None
      | String c r =>
          if Ascii.eqb c "{" then
            match skipWs r with
            | String c' r' =>
                if Ascii.eqb c' "}" then Some (VObj [], r')
                else
                  match parseMembers fuel' r [] with
                  | Some (props, rest) => Some (VObj props, rest)
                  | None => None
                  end
            | "" => None
            end
          else if Ascii.eqb c "[" then
            match skipWs r with
            | String c' r' =>
                if Ascii.eqb c' "]" then Some (VArr [], r')
                else
                  match parseElements fuel' r [] with
                  | Some (items, rest) => Some (VArr items, rest)
                  | None => None
                  end
            | "" => None
            end
          else if (nat_of_ascii c =? 34)%nat then
            match parseChars r with
            | Some (str, rest) => Some (VStr str, rest)
            | None => None
            end
          else if Ascii.eqb c "t" then literal "true" (VBool true) (String c r)
          else if Ascii.eqb c "f" then literal "false" (VBool false) (String c r)
          else if Ascii.eqb c "n" then literal "null" VNull (String c r)
          else
            match parseNumber (String c r) with
            | Some (n, rest) => Some (VNum n, rest)
            | None => None
            end
      end
  end

with parseElements (fuel : nat) (s : string) (acc : list val)
  : option (list val * string) :=
  match fuel with
  | O => None
  | S fuel' =>
      match parseValue fuel' s with
      | None => None
      | Some (v, rest) =>
          match skipWs rest with
          | "" => None
          | String c r =>
              if Ascii.eqb c "," then parseElements fuel' r (acc ++ [v])%list
              else if Ascii.eqb c "]" then Some ((acc ++ [v])%list, r)
              else None
          end
      end
  end

with parseMembers (fuel : nat) (s : string) (acc : list (string * val))
  : option (list (string * val) * string) :=
  match fuel with
  | O => None
  | S fuel' =>
      match skipWs s with
      | "" => None
      | String q r =>
          if negb (nat_of_ascii q =? 34)%nat then None else
          match parseChars r with
          | None => None
          | Some (k, rest) =>
              match skipWs rest with
              | "" => None
              | String colon rest' =>
                  if negb (Ascii.eqb colon ":") then None else
                  match parseValue fuel' rest' with
                  | None => None
                  | Some (v, rest'') =>
                      match skipWs rest'' with
                      | "" => None
                      | String c r' =>
                          if Ascii.eqb c ","
                          then parseMembers fuel' r' (setProp k v acc)
                          else if Ascii.eqb c "}"
                          then Some (setProp k v acc, r')
                          else None
                      end
                  end
              end
          end
      end
  end.

Definition json_parse (s : string) : option val :=
  match parseValue (2 * String.length s + 2) s with
  | Some (v, rest) =>
      match skipWs rest with
      | "" => Some v
      | _ => None
      end
  | None => None
  end.

Definition host : Host :=
  {| number := Z;
     number_truthy := fun z => negb (z =? 0)%Z;
     number_toString := showZ;
     number_zero := 0%Z;
     JSON_parse := json_parse |}.

(** Input lines are written with apostrophes where the text has
    double quotes. *)
Definition quoteChar (c : ascii) : ascii :=
  if (nat_of_ascii c =? 39)%nat then "034"%char else c.

Fixpoint json (s : string) : string :=
  match s with
  | "" => ""
  | String c s' => String (quoteChar c) (json s')
  end.

End Reference.

(* ================================================================= *)
(** ** [engines/base.ts]: reading the output *)

Module Output.

(** [line.trim()] as a condition. *)
Definition nonBlank (line : string) : bool := nonEmpty (trim line).

(** The loop of [readStream] over the chunks read, each already
    decoded to text, and the flush after it; the result lists the
    arguments of the calls of [onLine], in order.  [lines.pop()] takes
    the last piece of the split, which is never absent. *)
Fixpoint readLoop (chunks : list string) (buffer : string) : list string :=
  match chunks with
  | [] => if nonBlank buffer then [buffer] else []
  | value :: rest =>
      let buffer1 := buffer ++ value in
      let lines := splitLines buffer1 in
      let buffer2 := last lines "" in
      app (filter nonBlank (removelast lines)) (readLoop rest buffer2)
  end.

(** [readStream] *)
Definition readStream (chunks : list string) : list string :=
  readLoop chunks "".




(** The variables [response], [inputTokens] and [outputTokens] of
    [parseStreamJsonResult]. *)
Record StreamResult (number : Type) : Type := {
  response : value number;
  inputTokens : value number;
  outputTokens : value number
}.
Arguments response {number} _.
Arguments inputTokens {number} _.
Arguments outputTokens {number} _.

Section WithHost.

Variable H : Host.
Local Abbreviation val := (value (number H)).
Local Abbreviation StreamResult := (Output.StreamResult (number H)).

(** The body of the [try] in the loop of [parseStreamJsonResult]. *)
Definition resultEvent (line : string) : stateful StreamResult unit :=
  parsed <~ lift (Base.parse H line) ;;
  ty <~ lift (get parsed "type") ;;
  if isStr ty "result" then
    r <~ lift (get parsed "result") ;;
    r' <~ lift (orElse r (Normal (VStr "Task completed"))) ;;
    st <~ read ;;
    _ <~ assign {| response := r'; inputTokens := inputTokens st;
                   outputTokens := outputTokens st |} ;;
    u <~ lift (get parsed "usage") ;;
    i <~ lift (getOpt u "input_tokens") ;;
    i' <~ lift (orElse i (Normal (VNum (number_zero H)))) ;;
    st <~ read ;;
    _ <~ assign {| response := response st; inputTokens := i';
                   outputTokens := outputTokens st |} ;;
    o <~ lift (getOpt u "output_tokens") ;;
    o' <~ lift (orElse o (Normal (VNum (number_zero H)))) ;;
    st <~ read ;;
    assign {| response := response st; inputTokens := inputTokens st;
              outputTokens := o' |}
  else ret tt.

Fixpoint resultLoop (lines : list string) : stateful StreamResult unit :=
  match lines with
  | [] => ret tt
  | line :: rest =>
      _ <~ tryCatchS (resultEvent line) (ret tt) ;;
      resultLoop rest
  end.

(** [parseStreamJsonResult] *)
Definition parseStreamJsonResult (output : string) : StreamResult :=
  let lines := filter nonEmpty (splitLines output) in
  let st := snd (resultLoop lines
                   {| response := VStr "";
                      inputTokens := VNum (number_zero H);
                      outputTokens := VNum (number_zero H) |}) in
  {| response := if truthy (response st) then response st
                 else VStr "Task completed";
     inputTokens := inputTokens st;
     outputTokens := outputTokens st |}.

End WithHost.

End Output.

(* ================================================================= *)
(** ** [ui/spinner.ts]: the bookkeeping of [ProgressSpinner] *)

(** The fields of a [ProgressSpinner] and the methods that compute on
    them.  The terminal spinner, the timer and the rendering of
    [formatText] are left out; every reading of [Date.now()] is an
    argument. *)
Module Spinner.

Module OperationTiming.
Record t : Type := {
  name : string;
  startTime : Z;
  endTime : option Z
}.
End OperationTiming.

(** [!timing.endTime]: the field is absent, or zero. *)
Definition unset (endTime : option Z) : bool :=
  match endTime with
  | None => true
  | Some z => (z =? 0)%Z
  end.

(** [timing.endTime || now] *)
Definition endOr (endTime : option Z) (now : Z) : Z :=
  match endTime with
  | Some e => if (e =? 0)%Z then now else e
  | None => now
  end.

Record ProgressSpinner (number : Type) : Type := {
  startTime : Z;
  currentStep : string;
  task : string;
  settings : string;
  stepHistory : list OperationTiming.t;
  stepStartTime : Z;
  toolOutput : option string;
  codeSnippet : option (list string);
  diff : option Types.DiffInfo;
  todos : list (Types.TodoItem number)
}.
Arguments startTime {number} p.
Arguments currentStep {number} p.
Arguments task {number} p.
Arguments settings {number} p.
Arguments stepHistory {number} p.
Arguments stepStartTime {number} p.
Arguments toolOutput {number} p.
Arguments codeSnippet {number} p.
Arguments diff {number} p.
Arguments todos {number} p.

(** The task label of the constructor. *)
Definition taskLabel (task : string) : string :=
  if (40 <? Z.of_nat (String.length task))%Z
  then slice task 0 37 ++ "..."
  else task.

(** The settings label of the constructor; [None] is an absent
    argument. *)
Definition settingsLabel (settings : option (list string)) : string :=
  match settings with
  | Some (x :: l) => "[" ++ join ", " (x :: l) ++ "]"
  | _ => ""
  end.

Section WithNumber.

Variable number : Type.
Local Abbreviation ProgressSpinner := (Spinner.ProgressSpinner number).

(** The constructor; [now1] and [now2] are its two readings of the
    clock, for [startTime] and for [stepStartTime]. *)
Definition create (task : string) (settings : option (list string))
    (now1 now2 : Z) : ProgressSpinner :=
  {| startTime := now1;
     currentStep := "Thinking";
     task := taskLabel task;
     settings := settingsLabel settings;
     stepHistory := [{| OperationTiming.name := "Thinking";
                        OperationTiming.startTime := now2;
                        OperationTiming.endTime := None |}];
     stepStartTime := now2;
     toolOutput := None;
     codeSnippet := None;
     diff := None;
     todos := [] |}.

(** The first part of [updateStep]: the last entry of the history gets
    its end time, unless it has one. *)
Fixpoint closeLast (history : list OperationTiming.t) (now : Z)
  : list OperationTiming.t :=
  match history with
  | [] => []
  | [lastStep] =>
      [if unset (OperationTiming.endTime lastStep)
       then {| OperationTiming.name := OperationTiming.name lastStep;
               OperationTiming.startTime := OperationTiming.startTime lastStep;
               OperationTiming.endTime := Some now |}
       else lastStep]
  | step :: rest => step :: closeLast rest now
  end.

(** [updateStep], at the clock reading [now]. *)
Definition updateStep (p : ProgressSpinner) (step : string) (now : Z)
  : ProgressSpinner :=
  {| startTime := startTime p;
     currentStep := step;
     task := task p;
     settings := settings p;
     stepHistory :=
       app (closeLast (stepHistory p) now)
           [{| OperationTiming.name := step;
               OperationTiming.startTime := now;
               OperationTiming.endTime := None |}];
     stepStartTime := now;
     toolOutput := toolOutput p;
     codeSnippet := codeSnippet p;
     diff := diff p;
     todos := todos p |}.

(** [updateToolOutput]; [None] is [null] or an absent argument. *)
Definition updateToolOutput (p : ProgressSpinner) (output : option string)
    (codeSnippet : option (list string)) (diff : option Types.DiffInfo)
    (todos : option (list (Types.TodoItem number))) : ProgressSpinner :=
  {| startTime := startTime p;
     currentStep := currentStep p;
     task := task p;
     settings := settings p;
     stepHistory := stepHistory p;
     stepStartTime := stepStartTime p;
     toolOutput := output;
     codeSnippet := codeSnippet;
     diff := diff;
     todos := match todos with
              | Some l => l
              | None => Spinner.todos p
              end |}.

(** [getElapsedMs] *)
Definition getElapsedMs (p : ProgressSpinner) (now : Z) : Z :=
  (now - startTime p)%Z.

(** [getStepTimings] *)
Definition getStepTimings (p : ProgressSpinner) (now : Z) : list (string * Z) :=
  map (fun step =>
         (OperationTiming.name step,
          (endOr (OperationTiming.endTime step) now
           - OperationTiming.startTime step)%Z))
      (stepHistory p).

End WithNumber.

End Spinner.

(* ================================================================= *)
(** ** Vocabulary of the properties *)

(** The closed enumeration of canonical steps. *)
Definition canonicalSteps : list string :=
  ["Thinking"; "Reading code"; "Implementing"; "Writing tests";
   "Running command"; "Linting"; "Testing"; "Committing"; "Staging";
   "Planning"].

(** A classifier result: [null], or a record with a canonical step. *)
Definition validResult {number : Type} (r : option (Types.StepInfo number)) : Prop :=
  match r with
  | None => True
  | Some i => In (Types.step i) canonicalSteps
  end.

Definition stepOf {number : Type} (r : option (Types.StepInfo number))
  : option string :=
  option_map Types.step r.

Definition lintMarkers : list string := ["lint"; "eslint"; "biome"; "prettier"].

Definition testMarkers : list string :=
  ["vitest"; "jest"; "bun test"; "npm test"; "pytest"; "go test"].

Definition containsAny (markers : list string) (s : string) : bool :=
  existsb (fun m => includes m s) markers.

(** A line of the output that parses to a value whose [type] is
    ["error"]. *)
Definition isErrorEvent (H : Host) (line : string) : bool :=
  match JSON_parse H line with
  | Some parsed =>
      match get parsed "type" with
      | Normal ty => isStr ty "error"
      | Throw _ => false
      end
  | None => false
  end.

Definition noErrorEvent (H : Host) (output : string) : Prop :=
  forall line, In line (filter nonEmpty (splitLines output)) ->
               isErrorEvent H line = false.

(** The last [n] entries of a list. *)
Definition lastn {A : Type} (n : nat) (l : list A) : list A :=
  skipn (List.length l - n) l.

(** The entry shown for a line at a given width: the line itself when
    it fits, and otherwise its first [width - 3] characters followed
    by three dots, [width] characters in all. *)
Definition shownAs (width : nat) (line entry : string) : Prop :=
  (String.length line <= width -> entry = line)
  /\ (width < String.length line ->
      entry = substring 0 (width - 3) line ++ "..."
      /\ String.length entry = width).

(** One side of a diff preview of [content]: absent for an empty
    content, and otherwise one entry for each of the first [maxLines]
    lines of [content] (for every line when there are fewer), in
    order, each shown at the width of 70 characters. *)
Definition boundedPreview (maxLines : Z) (content : string)
    (side : option (list string)) : Prop :=
  match side with
  | None => content = ""
  | Some ls =>
      content <> ""
      /\ (Z.of_nat (List.length ls) <= maxLines)%Z
      /\ Forall2 (shownAs 70)
           (firstn (Z.to_nat maxLines) (splitLines content)) ls
      /\ Forall (fun l => String.length l <= 70) ls
  end.

(** The line, once trimmed, is an object text that [JSON.parse] turns
    into [parsed]: the lines a classifier looks into. *)
Definition parsesTo (H : Host) (line : string) (parsed : value (number H)) : Prop :=
  startsWith "{" (trim line) = true /\ JSON_parse H (trim line) = Some parsed.

(** The tracked list as events carry it: absent when empty. *)
Definition carried {number : Type} (tracked : list (Types.TodoItem number))
  : option (list (Types.TodoItem number)) :=
  match tracked with
  | [] => None
  | _ => Some tracked
  end.

(** A tracked item mapped from the payload entry [t]: [id] and
    [content] are the entry's, converted to strings, and the empty
    string when missing; [status] is the entry's, and ["pending"] when
    missing (missing, or falsy in any other way). *)
Definition mappedFrom (H : Host) (t : value (number H))
    (item : Types.TodoItem (number H)) : Prop :=
  exists i c st,
    get t "id" = Normal i /\ get t "content" = Normal c
    /\ get t "status" = Normal st
    /\ (if truthy i then toStr i = Normal (Types.id item)
        else Types.id item = "")
    /\ (if truthy c then toStr c = Normal (Types.content item)
        else Types.content item = "")
    /\ Types.status item = (if truthy st then st else VStr "pending").

(** The Planning event that carries the list [items]. *)
Definition planning {number : Type} (items : list (Types.TodoItem number))
  : Types.StepInfo number :=
  {| Types.step := "Planning";
     Types.toolOutput := None;
     Types.diff := None;
     Types.todos := Some items |}.

(** The tool call of the read scenario:
    [{type:"tool_call", part:{name:"read", input:{file_path:"/a/b/Foo.ts"}}}]. *)
Definition readFooCall {number : Type} : value number :=
  VObj [("type", VStr "tool_call");
        ("part", VObj [("name", VStr "read");
                       ("input", VObj [("file_path", VStr "/a/b/Foo.ts")])])].

Definition gitMarkers : list string := ["git commit"; "git add"].

(** The read family of tool names, decided before the command is
    looked at. *)
Definition readFamily (toolName : string) : bool :=
  String.eqb toolName "read" || String.eqb toolName "glob"
  || String.eqb toolName "grep".

(** A bash-like invocation for [detectStepFromOutput]: the tool is
    bash, or a command is present with a tool outside the read family. *)
Definition bashLike {number : Type} (t : Base.ToolCall number) : Prop :=
  readFamily (Base.toolName t) = false
  /\ (Base.toolName t = "bash" \/ Base.command t <> "").

Definition outputOf {number : Type} (r : option (Types.StepInfo number))
  : option string :=
  match r with
  | Some e => Types.toolOutput e
  | None => None
  end.

(** A value of a primitive type: neither an array nor an object. *)
Definition primitive {number : Type} (v : value number) : Prop :=
  match v with
  | VArr _ | VObj _ => False
  | _ => True
  end.

(* ================================================================= *)
(** ** Vocabulary of the further properties *)

(** A text without line feed: splitting leaves it whole. *)
Definition unbroken (s : string) : Prop := splitLines s = [s].

(** The chunks of a stream put end to end. *)
Definition wholeText (chunks : list string) : string :=
  fold_right append "" chunks.




(** The non-empty lines of an output, as the parsers of the output
    walk through them. *)
Definition outputLines (output : string) : list string :=
  filter nonEmpty (splitLines output).

(** The value of [v?.k], which never throws. *)
Definition optField {H : Host} (v : value (number H)) (k : string)
  : value (number H) :=
  match v with
  | VObj props => lookup k props
  | _ => VUndefined
  end.

(** The value of [v || d]. *)
Definition orDefault {H : Host} (v d : value (number H)) : value (number H) :=
  if truthy v then v else d.

(** The value of [v1 || v2 || ... || d]. *)
Definition orDefaults {H : Host} (vs : list (value (number H)))
    (d : value (number H)) : value (number H) :=
  fold_right orDefault d vs.

(** The value [v] is a string, and [s] is its lower case. *)
Definition isLowerOf {H : Host} (v : value (number H)) (s : string) : Prop :=
  exists raw, v = VStr raw /\ s = toLowerCase raw.

(** A field that holds a string, or is [null] or missing. *)
Definition textOrAbsent {number : Type} (v : value number) : Prop :=
  match v with
  | VUndefined | VNull | VStr _ => True
  | _ => False
  end.

(** The literal [0]. *)
Definition zero {H : Host} : value (number H) := VNum (number_zero H).

(** A line of the output that parses to a value whose [type] is [ty]. *)
Definition isEvent (H : Host) (ty line : string) : bool :=
  match JSON_parse H line with
  | Some parsed =>
      match get parsed "type" with
      | Normal t => isStr t ty
      | Throw _ => false
      end
  | None => false
  end.

(** An item of [message.content] that the search for a tool use steps
    over: a value other than [null] that is no tool use with a name. *)
Definition passedOver {H : Host} (item : value (number H)) : Prop :=
  exists ty, get item "type" = Normal ty
             /\ (isStr ty "tool_use" = false
                 \/ truthy (optField item "name") = false).

(** A string that lower-casing leaves as it is. *)
Definition lowerCase (s : string) : Prop := toLowerCase s = s.

(** The sum of the durations of a timing breakdown. *)
Definition totalMs (timings : list (string * Z)) : Z :=
  fold_right (fun t acc => (snd t + acc)%Z) 0%Z timings.

(** A run of [updateStep] calls, each with its step name and its
    reading of the clock. *)
Definition updateSteps {number : Type} (p : Spinner.ProgressSpinner number)
    (updates : list (string * Z)) : Spinner.ProgressSpinner number :=
  fold_left (fun q u => Spinner.updateStep number q (fst u) (snd u)) updates p.

(** What a call of [detectStepFromLine] may do to the tracked list
    [before], given what it returns. *)
Definition tracks (H : Host) (before : list (Types.TodoItem (number H)))
    (r : option (Types.StepInfo (number H)))
    (after : list (Types.TodoItem (number H))) : Prop :=
  match r with
  | None => after = before
  | Some e =>
      e = planning after
      \/ (Types.step e <> "Planning" /\ after = before
          /\ Types.todos e = carried before)
  end.

(** The history of a spinner whose step [name] started at [start],
    after the [updates]: every entry ends when the next one starts,
    and the last one is open. *)
Fixpoint stepChain (name : string) (start : Z) (updates : list (string * Z))
  : list Spinner.OperationTiming.t :=
  match updates with
  | [] => [{| Spinner.OperationTiming.name := name;
              Spinner.OperationTiming.startTime := start;
              Spinner.OperationTiming.endTime := None |}]
  | (step, now) :: rest =>
      {| Spinner.OperationTiming.name := name;
         Spinner.OperationTiming.startTime := start;
         Spinner.OperationTiming.endTime := Some now |}
      :: stepChain step now rest
  end.

(* ================================================================= *)
(** ** Facts on strings *)

Lemma append_nil_r (s : string) : s ++ "" = s.
Proof. induction s as [|c s IH]; simpl; [reflexivity | now rewrite IH]. Qed.

Lemma append_assoc (a b c : string) : (a ++ b) ++ c = a ++ (b ++ c).
Proof. induction a as [|x a IH]; simpl; [reflexivity | now rewrite IH]. Qed.

Lemma length_append (a b : string) :
  String.length (a ++ b) = String.length a + String.length b.
Proof. induction a as [|x a IH]; simpl; [reflexivity | now rewrite IH]. Qed.

Lemma prefix_iff (p s : string) :
  prefix p s = true <-> exists r, s = p ++ r.
Proof.
  revert s; induction p as [|a p IH]; intros s.
  - destruct s; simpl; split; intros; try reflexivity; eauto.
  - destruct s as [|b s]; cbn [prefix append].
    + split; [discriminate | intros [r Hr]; discriminate].
    + destruct (ascii_dec a b) as [->|Hne].
      * split.
        -- intros [r Hr]%IH. exists r. now rewrite Hr.
        -- intros [r Hr]. apply IH. exists r. now injection Hr.
      * split; [discriminate | intros [r Hr]; injection Hr; congruence].
Qed.

Lemma includes_iff (sub s : string) :
  includes sub s = true <-> exists a b, s = a ++ sub ++ b.
Proof.
  induction s as [|c s IH]; cbn [includes].
  - rewrite orb_false_r. split.
    + intros [r Hr]%prefix_iff. exists "", r. exact Hr.
    + intros [a [b Hab]]. apply prefix_iff.
      destruct a; [now exists b | discriminate].
  - rewrite orb_true_iff. split.
    + intros [[r Hr]%prefix_iff | [a [b Hab]]%IH].
      * exists "", r. exact Hr.
      * exists (String c a), b. simpl. now rewrite Hab.
    + intros [a [b Hab]]. destruct a as [|x a].
      * left. apply prefix_iff. now exists b.
      * right. apply IH. simpl in Hab. injection Hab as _ Hs. now exists a, b.
Qed.

Lemma includes_append (sub a b : string) :
  includes sub (a ++ sub ++ b) = true.
Proof. apply includes_iff. now exists a, b. Qed.

Lemma includes_suffix (sub a : string) : includes sub (a ++ sub) = true.
Proof. apply includes_iff. exists a, "". now rewrite append_nil_r. Qed.

Lemma includes_trans (a b c : string) :
  includes a b = true -> includes b c = true -> includes a c = true.
Proof.
  rewrite !includes_iff. intros [x [y ->]] [u [v ->]].
  exists (u ++ x), (y ++ v). now rewrite !append_assoc.
Qed.

Lemma toLowerCase_append (a b : string) :
  toLowerCase (a ++ b) = toLowerCase a ++ toLowerCase b.
Proof. induction a as [|x a IH]; simpl; [reflexivity | now rewrite IH]. Qed.

(** A marker already in lower case survives the lower-casing of the
    text around it. *)
Lemma includes_toLowerCase (sub s : string) :
  toLowerCase sub = sub -> includes sub s = true ->
  includes sub (toLowerCase s) = true.
Proof.
  intros Hsub [a [b ->]]%includes_iff.
  rewrite !toLowerCase_append, Hsub. apply includes_append.
Qed.

Lemma nonEmpty_false (s : string) : nonEmpty s = false <-> s = "".
Proof. destruct s; simpl; split; congruence. Qed.

Lemma nonEmpty_true (s : string) : nonEmpty s = true <-> s <> "".
Proof. destruct s; simpl; split; congruence. Qed.

Lemma length_substring0 (n : nat) (s : string) :
  String.length (substring 0 n s) = Nat.min n (String.length s).
Proof.
  revert s; induction n as [|n IH]; intros [|c s]; simpl; try reflexivity.
  now rewrite IH.
Qed.

Lemma substring0_prefix (n : nat) (s : string) :
  exists r, s = substring 0 n s ++ r.
Proof.
  revert s; induction n as [|n IH]; intros [|c s]; simpl.
  - now exists "".
  - now exists (String c s).
  - now exists "".
  - destruct (IH s) as [r Hr]. exists r. now rewrite <- Hr.
Qed.

Lemma clampIndex_le (len : nat) (i : Z) : clampIndex len i <= len.
Proof. unfold clampIndex. destruct (i <? 0)%Z eqn:E; lia. Qed.

Lemma clampIndex_nonneg (len : nat) (i : Z) :
  (0 <= i)%Z -> clampIndex len i = Nat.min (Z.to_nat i) len.
Proof.
  intros Hi. unfold clampIndex.
  destruct (i <? 0)%Z eqn:E; [apply Z.ltb_lt in E; lia | reflexivity].
Qed.

Lemma slice0_length (s : string) (e : Z) :
  (0 <= e)%Z -> String.length (slice s 0 e) <= Z.to_nat e.
Proof.
  intros He. unfold slice. rewrite (clampIndex_nonneg _ 0) by lia.
  rewrite (clampIndex_nonneg _ e) by lia. simpl.
  rewrite Nat.sub_0_r, length_substring0. lia.
Qed.

Lemma sliceList_firstn {A : Type} (l : list A) (e : Z) :
  (0 <= e)%Z -> sliceList l 0 (Some e) = firstn (Z.to_nat e) l.
Proof.
  intros He. unfold sliceList. rewrite (clampIndex_nonneg _ 0) by lia.
  rewrite (clampIndex_nonneg _ e) by lia. simpl. rewrite Nat.sub_0_r.
  destruct (Nat.le_ge_cases (Z.to_nat e) (List.length l)) as [Hle|Hge].
  - now rewrite Nat.min_l.
  - rewrite Nat.min_r by exact Hge. now rewrite !firstn_all2 by lia.
Qed.

Lemma sliceList_lastn {A : Type} (l : list A) (n : nat) :
  0 < n -> sliceList l (- Z.of_nat n) None = lastn n l.
Proof.
  intros Hn. unfold sliceList, lastn, clampIndex.
  destruct (- Z.of_nat n <? 0)%Z eqn:E; [| apply Z.ltb_ge in E; lia].
  replace (Z.to_nat (Z.max (Z.of_nat (List.length l) + - Z.of_nat n) 0))
    with (List.length l - n) by lia.
  apply firstn_all2. rewrite length_skipn. lia.
Qed.

(** Splitting at line feeds loses nothing: joining the pieces with
    line feeds gives the text back. *)
Lemma splitLines_nonempty (s : string) : splitLines s <> [].
Proof.
  induction s as [|c s IH]; simpl; [discriminate |].
  destruct (splitLines s); [contradiction |].
  destruct (Ascii.eqb c "010"); discriminate.
Qed.

Lemma join_cons2 (sep x y : string) (l : list string) :
  join sep (x :: y :: l) = x ++ sep ++ join sep (y :: l).
Proof. reflexivity. Qed.

Lemma join_splitLines (s : string) : join newline (splitLines s) = s.
Proof.
  induction s as [|c s IH]; [reflexivity |]. cbn [splitLines].
  pose proof (splitLines_nonempty s) as Hne.
  destruct (splitLines s) as [|l ls]; [contradiction |].
  destruct (Ascii.eqb_spec c "010") as [->|Hc].
  - rewrite join_cons2, IH. reflexivity.
  - destruct ls as [|y ls].
    + cbn in *. now rewrite IH.
    + rewrite join_cons2 in *. cbn [append]. now rewrite IH.
Qed.

(* ================================================================= *)
(** ** The diff preview *)

Lemma truncate_length (s : string) (maxLen : Z) :
  (3 <= maxLen)%Z ->
  (Z.of_nat (String.length (OpenCode.truncate s maxLen)) <= maxLen)%Z.
Proof.
  intros Hm. unfold OpenCode.truncate.
  destruct (Z.of_nat (String.length s) <=? maxLen)%Z eqn:E.
  - now apply Z.leb_le.
  - rewrite length_append. pose proof (slice0_length s (maxLen - 3)) as Hs.
    simpl. lia.
Qed.

(** What [truncate] keeps: the string itself, or a prefix of it
    followed by three dots. *)
Lemma truncate_shape (s : string) (maxLen : Z) :
  (3 <= maxLen)%Z ->
  OpenCode.truncate s maxLen = s
  \/ exists p r, s = p ++ r /\ OpenCode.truncate s maxLen = p ++ "...".
Proof.
  intros Hm. unfold OpenCode.truncate.
  destruct (Z.of_nat (String.length s) <=? maxLen)%Z; [now left | right].
  unfold slice. rewrite (clampIndex_nonneg _ 0), (clampIndex_nonneg _ (maxLen - 3)) by lia.
  simpl. rewrite Nat.sub_0_r.
  destruct (substring0_prefix (Nat.min (Z.to_nat (maxLen - 3)) (String.length s)) s)
    as [r Hr].
  eauto.
Qed.

(** What [truncate] shows of a line, said without it. *)
Lemma truncate_shownAs (s : string) (width : nat) :
  3 <= width -> shownAs width s (OpenCode.truncate s (Z.of_nat width)).
Proof.
  intros Hw. unfold shownAs, OpenCode.truncate.
  destruct (Z.leb_spec (Z.of_nat (String.length s)) (Z.of_nat width)) as [Hle|Hgt].
  - split; [reflexivity | lia].
  - split; [lia |]. intros _. unfold slice.
    rewrite (clampIndex_nonneg _ 0), (clampIndex_nonneg _ (Z.of_nat width - 3))
      by lia.
    replace (Z.to_nat (Z.of_nat width - 3)) with (width - 3) by lia.
    cbn [Z.to_nat Nat.min]. rewrite Nat.sub_0_r.
    rewrite (Nat.min_l (width - 3)) by lia.
    split; [reflexivity |].
    rewrite length_append, length_substring0. cbn [String.length]. lia.
Qed.

Lemma map_shownAs (lines : list string) :
  Forall2 (shownAs 70) lines (map (fun l => OpenCode.truncate l 70) lines).
Proof.
  induction lines as [|l lines IH]; constructor; [| exact IH].
  apply (truncate_shownAs l 70). lia.
Qed.

Lemma previewLines_bounded (content : string) (maxLines : Z) :
  (0 <= maxLines)%Z ->
  boundedPreview maxLines content (OpenCode.previewLines content maxLines).
Proof.
  intros Hm. unfold OpenCode.previewLines.
  destruct (nonEmpty content) eqn:E.
  - rewrite sliceList_firstn by exact Hm. cbn [boundedPreview].
    split; [now apply nonEmpty_true |].
    split; [| split; [apply map_shownAs |]].
    + rewrite length_map, length_firstn. lia.
    + apply Forall_forall. intros l [x [<- _]]%in_map_iff.
      pose proof (truncate_length x 70). lia.
  - now apply nonEmpty_false.
Qed.

(** C7. [createDiff] returns [undefined] exactly when the old and the
    new content are both empty.  Otherwise each side of the returned
    record holds at most [maxLines] entries (4 by default), one for
    each of the first lines of that content, in order: the line itself
    when it has at most 70 characters, and otherwise its first 67
    characters followed by three dots.  No entry is longer than the
    width of 70 characters. *)
Theorem createDiff_bounded_preview
    (filePath oldContent newContent : string) (maxLines : Z) :
  (0 <= maxLines)%Z ->
  (OpenCode.createDiff filePath oldContent newContent maxLines = None
   <-> oldContent = "" /\ newContent = "")
  /\ (forall d,
        OpenCode.createDiff filePath oldContent newContent maxLines = Some d ->
        Types.filePath d = filePath
        /\ boundedPreview maxLines oldContent (Types.oldLines d)
        /\ boundedPreview maxLines newContent (Types.newLines d)).
Proof.
  intros Hm. unfold OpenCode.createDiff. split.
  - destruct (nonEmpty newContent) eqn:En, (nonEmpty oldContent) eqn:Eo;
      cbn [negb andb]; split;
      try discriminate; try reflexivity;
      try (intros [-> ->]; discriminate).
    intros _. now split; apply nonEmpty_false.
  - intros d Hd.
    destruct (negb (nonEmpty newContent) && negb (nonEmpty oldContent));
      [discriminate |].
    injection Hd as <-. cbn.
    split; [reflexivity |]. split; now apply previewLines_bounded.
Qed.

(** The default bound, on a new content of six lines, the first of
    them 84 characters long. *)
Lemma createDiff_bounded_preview_witness :
  let long :=
    "export function detectStepFromOutput(line: string): StepInfo | null { return null; }" in
  let newContent := join newline [long; "2"; "3"; "4"; "5"; "6"] in
  (0 <= OpenCode.defaultMaxLines)%Z
  /\ exists d,
       OpenCode.createDiff "src/a.ts" "old" newContent OpenCode.defaultMaxLines
       = Some d
       /\ boundedPreview OpenCode.defaultMaxLines "old" (Types.oldLines d)
       /\ boundedPreview OpenCode.defaultMaxLines newContent (Types.newLines d)
       /\ Types.oldLines d = Some ["old"]
       /\ Types.newLines d
          = Some ["export function detectStepFromOutput(line: string): StepInfo | null...";
                  "2"; "3"; "4"].
Proof.
  intros long newContent.
  assert (Hm : (0 <= OpenCode.defaultMaxLines)%Z)
    by (unfold OpenCode.defaultMaxLines; lia).
  split; [exact Hm |].
  destruct (createDiff_bounded_preview "src/a.ts" "old" newContent
              OpenCode.defaultMaxLines Hm) as [_ Hd].
  eexists. split; [reflexivity |].
  destruct (Hd _ eq_refl) as [_ [Ho Hn]].
  split; [exact Ho |]. split; [exact Hn |]. split; reflexivity.
Defined.

(* ================================================================= *)
(** ** The classifiers never raise *)

Ltac break_hyp_match :=
  match goal with
  | Hm : context [if ?b then _ else _] |- _ => destruct b eqn:?
  | Hm : context [match ?x with _ => _ end] |- _ => destruct x eqn:?
  end.

Ltac break_goal_match :=
  match goal with
  | |- context [if ?b then _ else _] => destruct b eqn:?
  | |- context [match ?x with _ => _ end] => destruct x eqn:?
  end.

Section Classifiers.

Variable H : Host.
Local Abbreviation val := (value (number H)).
Local Abbreviation StepInfo := (Types.StepInfo (number H)).
Local Abbreviation TodoItem := (Types.TodoItem (number H)).

Lemma tryCatch_normal {A : Type} (c : completion A) (a : A) :
  exists r, tryCatch c (Normal a) = Normal r /\ (c = Normal r \/ r = a).
Proof. destruct c as [x|e]; simpl; eauto. Qed.

Lemma classify_valid (t : Base.ToolCall (number H)) (r : option StepInfo) :
  Base.classify H t = Normal r -> validResult r.
Proof.
  unfold Base.classify, bind. intros Hc.
  repeat (break_hyp_match; try discriminate);
    injection Hc as <-; cbn; tauto.
Qed.

Lemma detectStepFromOutput_valid (line : string) :
  exists r, Base.detectStepFromOutput H line = Normal r /\ validResult r.
Proof.
  unfold Base.detectStepFromOutput.
  destruct (negb (startsWith "{" (trim line))); [exists None; now split |].
  match goal with
  | |- context [tryCatch ?c _] =>
      destruct (tryCatch_normal c None) as [r [-> [Hr | Hr]]]
  end; exists r; (split; [reflexivity |]); [| now rewrite Hr].
  unfold bind in Hr.
  destruct (Base.parse H (trim line)); [| discriminate].
  destruct (Base.normalize H a); [| discriminate].
  now apply classify_valid in Hr.
Qed.

(** Every event is built by [event] or by the todo-write branch. *)
Lemma event_eq (step : string) (toolOutput : option string)
    (diff : option Types.DiffInfo) (s : list TodoItem) :
  OpenCode.event H step toolOutput diff s
  = (Normal (Some {| Types.step := step;
                     Types.toolOutput := toolOutput;
                     Types.diff := diff;
                     Types.todos := match s with [] => None | _ => Some s end |}),
     s).
Proof. reflexivity. Qed.

Lemma stepStart_eq (parsed : val) (s : list TodoItem) :
  OpenCode.stepStart H parsed s
  = match get parsed "type" with
    | Normal ty =>
        if isStr ty "step_start" then OpenCode.event H "Thinking" None None s
        else (Normal None, s)
    | Throw e => (Throw e, s)
    end.
Proof.
  unfold OpenCode.stepStart, bindS, lift.
  destruct (get parsed "type") as [ty|e]; [| reflexivity].
  destruct (isStr ty "step_start"); reflexivity.
Qed.

Lemma stepStart_valid (parsed : val) (s s' : list TodoItem) (r : option StepInfo) :
  OpenCode.stepStart H parsed s = (Normal r, s') -> validResult r /\ s' = s.
Proof.
  rewrite stepStart_eq, event_eq. intros Hr.
  repeat (break_hyp_match; try discriminate);
    injection Hr as <- <-; cbn; tauto.
Qed.

(** The tool branches leave the tracked list alone, also when they
    throw. *)
Lemma toolStep_state (parsed : val) (toolName : string) (input : val)
    (s : list TodoItem) :
  snd (OpenCode.toolStep H parsed toolName input s) = s.
Proof.
  unfold OpenCode.toolStep, bindS, lift.
  destruct (OpenCode.fields H input); [| reflexivity].
  repeat (break_goal_match; try reflexivity);
    rewrite ?event_eq, ?stepStart_eq in *; try reflexivity.
  all: repeat (break_goal_match; try reflexivity).
Qed.

Lemma toolStep_valid (parsed : val) (toolName : string) (input : val)
    (s s' : list TodoItem) (r : option StepInfo) :
  OpenCode.toolStep H parsed toolName input s = (Normal r, s') ->
  validResult r.
Proof.
  unfold OpenCode.toolStep, bindS, lift. intros Hr.
  destruct (OpenCode.fields H input); [| discriminate].
  repeat (break_hyp_match; try discriminate);
    try (apply stepStart_valid in Hr; tauto);
    rewrite ?event_eq in *;
    match goal with
    | Hx : (_, _) = (_, _) |- _ => injection Hx as <- <-
    end; cbn; tauto.
Qed.

Lemma todoWrite_valid (toolName : string) (input : val)
    (s s' : list TodoItem) (r : option StepInfo) :
  OpenCode.todoWrite H toolName input s = (Normal (Some r), s') ->
  validResult r.
Proof.
  unfold OpenCode.todoWrite, bindS, lift, assign, read, ret. intros Hr.
  repeat (break_hyp_match; try discriminate);
    injection Hr as <- <-; cbn; tauto.
Qed.

Lemma detectBody_valid (trimmed : string) (s s' : list TodoItem)
    (r : option StepInfo) :
  OpenCode.detectBody H trimmed s = (Normal r, s') -> validResult r.
Proof.
  unfold OpenCode.detectBody, bindS, lift, ret. intros Hr.
  destruct (Base.parse H trimmed) as [parsed|]; [| discriminate].
  destruct (OpenCode.toolCall H parsed) as [[[toolName input]|]|];
    [| now apply stepStart_valid in Hr | discriminate].
  destruct (OpenCode.todoWrite H toolName input s) as [[[planned|]|] s1] eqn:Ht;
    [| now apply toolStep_valid in Hr | discriminate].
  injection Hr as <- <-. now apply todoWrite_valid in Ht.
Qed.

Lemma detectStepFromLine_valid (line : string) (s : list TodoItem) :
  exists r s', OpenCode.detectStepFromLine H line s = (Normal r, s')
               /\ validResult r.
Proof.
  unfold OpenCode.detectStepFromLine.
  destruct (negb (startsWith "{" (trim line)));
    [exists None, s; now split |].
  unfold tryCatchS.
  destruct (OpenCode.detectBody H (trim line) s) as [[r|e] s'] eqn:Hb.
  - exists r, s'. split; [reflexivity | now apply detectBody_valid in Hb].
  - exists None, s'. now split.
Qed.

End Classifiers.

(** C1. On every input line, whatever it holds, [detectStepFromOutput]
    and [detectStepFromLine] complete normally, none of them raises an
    exception, and the value returned is [null] or a step record whose
    step is one of the canonical names. *)
Theorem classifiers_never_raise (H : Host) :
  (forall line : string,
      exists r, Base.detectStepFromOutput H line = Normal r /\ validResult r)
  /\ (forall (line : string) (tracked : list (Types.TodoItem (number H))),
        exists r tracked',
          OpenCode.detectStepFromLine H line tracked = (Normal r, tracked')
          /\ validResult r).
Proof.
  split.
  - apply detectStepFromOutput_valid.
  - apply detectStepFromLine_valid.
Qed.

(* ================================================================= *)
(** ** The todo tracker *)

Section TodoTracker.

Variable H : Host.
Local Abbreviation val := (value (number H)).
Local Abbreviation StepInfo := (Types.StepInfo (number H)).
Local Abbreviation TodoItem := (Types.TodoItem (number H)).

(** A recognised line runs the body of the [try] on its parsed value. *)
Lemma detectStepFromLine_call (line : string) (parsed : val)
    (toolName : string) (input : val) (s : list TodoItem) :
  parsesTo H line parsed ->
  OpenCode.toolCall H parsed = Normal (Some (toolName, input)) ->
  OpenCode.detectStepFromLine H line s
  = tryCatchS
      (planned <~ OpenCode.todoWrite H toolName input ;;
       match planned with
       | Some e => ret e
       | None => OpenCode.toolStep H parsed toolName input
       end)
      (ret None) s.
Proof.
  intros [Hs Hp] Hc.
  unfold OpenCode.detectStepFromLine, OpenCode.detectBody, Base.parse.
  rewrite Hs, Hp. cbn [negb]. unfold tryCatchS, bindS at 1 2, lift.
  now rewrite Hc.
Qed.

Lemma detectStepFromLine_other (line : string) (parsed : val)
    (s : list TodoItem) :
  parsesTo H line parsed ->
  OpenCode.toolCall H parsed = Normal None ->
  OpenCode.detectStepFromLine H line s
  = tryCatchS (OpenCode.stepStart H parsed) (ret None) s.
Proof.
  intros [Hs Hp] Hc.
  unfold OpenCode.detectStepFromLine, OpenCode.detectBody, Base.parse.
  rewrite Hs, Hp. cbn [negb]. unfold tryCatchS, bindS, lift.
  now rewrite Hc.
Qed.

Lemma isStr_eq (v : val) (lit : string) : isStr v lit = true <-> v = VStr lit.
Proof.
  destruct v; simpl; split; try discriminate.
  - intros ->%String.eqb_eq. reflexivity.
  - intros [= ->]. apply String.eqb_refl.
Qed.

(** A tool call has type ["tool_call"], so it is no step start. *)
Lemma toolCall_type (parsed : val) (call : string * val) :
  OpenCode.toolCall H parsed = Normal (Some call) ->
  get parsed "type" = Normal (VStr "tool_call").
Proof.
  unfold OpenCode.toolCall, bind.
  destruct (get parsed "type") as [ty|]; [| discriminate].
  destruct (isStr ty "tool_call") eqn:E; [| discriminate].
  apply isStr_eq in E. now subst.
Qed.

Lemma stepStart_toolCall (parsed : val) (call : string * val)
    (s : list TodoItem) :
  OpenCode.toolCall H parsed = Normal (Some call) ->
  OpenCode.stepStart H parsed s = (Normal None, s).
Proof.
  intros Hc. rewrite stepStart_eq, (toolCall_type _ _ Hc). reflexivity.
Qed.

Lemma mapTodo_mapped (t : val) (item : TodoItem) :
  OpenCode.mapTodo H t = Normal item -> mappedFrom H t item.
Proof.
  unfold OpenCode.mapTodo, mappedFrom, bind, orElse. intros Hm.
  destruct (get t "id") as [i|]; [| discriminate].
  destruct (get t "content") as [c|];
    [| destruct (truthy i); [destruct (toStr i) |]; discriminate].
  destruct (get t "status") as [st|].
  2:{ destruct (truthy i); [destruct (toStr i); [| discriminate] |];
      cbn in Hm; (destruct (truthy c); [destruct (toStr c) |]); discriminate. }
  exists i, c, st. repeat (split; [reflexivity |]).
  destruct (truthy i) eqn:Ei; [destruct (toStr i) as [si|]; [| discriminate] |];
    cbn in Hm;
    (destruct (truthy c) eqn:Ec; [destruct (toStr c) as [sc|]; [| discriminate] |]);
    cbn in Hm; destruct (truthy st); injection Hm as <-; cbn; auto.
Qed.

Lemma mapTodos_mapped (ts : list val) (items : list TodoItem) :
  OpenCode.mapTodos H ts = Normal items -> Forall2 (mappedFrom H) ts items.
Proof.
  revert items; induction ts as [|t ts IH]; intros items; cbn.
  - intros [= <-]. constructor.
  - unfold bind. destruct (OpenCode.mapTodo H t) as [item|] eqn:Et; [| discriminate].
    destruct (OpenCode.mapTodos H ts) as [rest|]; [| discriminate].
    intros [= <-]. constructor; [now apply mapTodo_mapped | now apply IH].
Qed.

Lemma todoWrite_array (toolName : string) (input : val) (ts : list val)
    (s : list TodoItem) :
  toolName = "todowrite" \/ toolName = "mcp_todowrite" ->
  get input "todos" = Normal (VArr ts) ->
  OpenCode.todoWrite H toolName input s
  = match OpenCode.mapTodos H ts with
    | Normal items => (Normal (Some (Some (planning items))), items)
    | Throw e => (Throw e, s)
    end.
Proof.
  intros Hn Ht. unfold OpenCode.todoWrite, bindS, lift.
  replace (String.eqb toolName "todowrite" || String.eqb toolName "mcp_todowrite")
    with true by (destruct Hn as [-> | ->]; reflexivity).
  rewrite Ht. destruct (OpenCode.mapTodos H ts); reflexivity.
Qed.

Lemma todoWrite_other (toolName : string) (input v : val) (s : list TodoItem) :
  get input "todos" = Normal v -> isArray v = false ->
  OpenCode.todoWrite H toolName input s = (Normal None, s).
Proof.
  intros Ht Hv. unfold OpenCode.todoWrite, bindS, lift.
  destruct (String.eqb toolName "todowrite" || String.eqb toolName "mcp_todowrite");
    [| reflexivity].
  rewrite Ht. destruct v; try reflexivity; discriminate.
Qed.

Lemma toolStep_todo_name (parsed : val) (toolName : string) (input : val)
    (s : list TodoItem) :
  toolName = "todowrite" \/ toolName = "mcp_todowrite" ->
  OpenCode.toolStep H parsed toolName input s
  = match OpenCode.fields H input with
    | Normal _ => OpenCode.stepStart H parsed s
    | Throw e => (Throw e, s)
    end.
Proof.
  intros Hn. unfold OpenCode.toolStep, bindS, lift.
  destruct (OpenCode.fields H input); [| reflexivity].
  destruct Hn as [-> | ->]; reflexivity.
Qed.

End TodoTracker.

(** C6. A todo-write invocation whose [todos] field is absent or is
    not a list is ignored: the call returns [null] and the tracked list
    is the one tracked before. *)
Theorem malformed_todo_write_ignored (H : Host) (line : string)
    (parsed : value (number H)) (toolName : string)
    (input todos : value (number H))
    (tracked : list (Types.TodoItem (number H))) :
  parsesTo H line parsed ->
  OpenCode.toolCall H parsed = Normal (Some (toolName, input)) ->
  toolName = "todowrite" \/ toolName = "mcp_todowrite" ->
  get input "todos" = Normal todos ->
  isArray todos = false ->
  OpenCode.detectStepFromLine H line tracked = (Normal None, tracked).
Proof.
  intros Hp Hc Hn Ht Ha.
  rewrite (detectStepFromLine_call H line parsed toolName input tracked Hp Hc).
  unfold tryCatchS, bindS.
  rewrite (todoWrite_other H toolName input todos tracked Ht Ha).
  rewrite (toolStep_todo_name H parsed toolName input tracked Hn).
  destruct (OpenCode.fields H input); [| reflexivity].
  now rewrite (stepStart_toolCall H parsed (toolName, input) tracked Hc).
Qed.

(** A todo write whose [todos] is a string leaves one tracked item as
    it was. *)
Lemma malformed_todo_write_ignored_witness :
  let line :=
    Reference.json
      "{'type':'tool_call','part':{'name':'TodoWrite','input':{'todos':'later'}}}" in
  let tracked :=
    [{| Types.id := "1"; Types.content := "plan";
        Types.status := VStr "pending" |}] in
  OpenCode.detectStepFromLine Reference.host line tracked
  = (Normal None, tracked).
Proof.
  intros line tracked.
  eapply (malformed_todo_write_ignored Reference.host line _ "todowrite" _
            (VStr "later") tracked).
  - split; vm_compute; reflexivity.
  - vm_compute; reflexivity.
  - left; reflexivity.
  - vm_compute; reflexivity.
  - reflexivity.
Defined.

(** C5, as amended.  A todo-write invocation whose input has a
    list-shaped [todos] field, every entry of which the mapping
    converts without raising, replaces the tracked list wholesale by
    the mapped list, whatever was tracked before; missing [id] and
    [content] become the empty string and a missing [status] becomes
    ["pending"]; the call returns a Planning event that carries
    exactly the new list; and the same payload applied a second time
    gives the same tracked list again. *)
Theorem todo_write_replaces_list (H : Host) (line : string)
    (parsed : value (number H)) (toolName : string) (input : value (number H))
    (ts : list (value (number H)))
    (items tracked : list (Types.TodoItem (number H))) :
  parsesTo H line parsed ->
  OpenCode.toolCall H parsed = Normal (Some (toolName, input)) ->
  toolName = "todowrite" \/ toolName = "mcp_todowrite" ->
  get input "todos" = Normal (VArr ts) ->
  OpenCode.mapTodos H ts = Normal items ->
  OpenCode.detectStepFromLine H line tracked
  = (Normal (Some (planning items)), items)
  /\ Forall2 (mappedFrom H) ts items
  /\ snd (OpenCode.detectStepFromLine H line
            (snd (OpenCode.detectStepFromLine H line tracked)))
     = snd (OpenCode.detectStepFromLine H line tracked).
Proof.
  intros Hp Hc Hn Ht Hm.
  assert (Hrun : forall s,
             OpenCode.detectStepFromLine H line s
             = (Normal (Some (planning items)), items)).
  { intros s.
    rewrite (detectStepFromLine_call H line parsed toolName input s Hp Hc).
    unfold tryCatchS, bindS.
    rewrite (todoWrite_array H toolName input ts s Hn Ht), Hm.
    reflexivity. }
  split; [apply Hrun |]. split; [now apply mapTodos_mapped |].
  now rewrite !Hrun.
Qed.

(** Two entries, the first without a status and the second without an
    id or a content, replace a tracked item. *)
Lemma todo_write_replaces_list_witness :
  let line :=
    Reference.json
      "{'type':'tool_call','part':{'name':'todowrite','input':{'todos':[{'id':7,'content':'plan'},{'status':'completed'}]}}}" in
  let tracked :=
    [{| Types.id := "0"; Types.content := "old";
        Types.status := VStr "completed" |}] in
  let items :=
    [{| Types.id := "7"; Types.content := "plan";
        Types.status := VStr "pending" |};
     {| Types.id := ""; Types.content := "";
        Types.status := VStr "completed" |}] in
  OpenCode.detectStepFromLine Reference.host line tracked
  = (Normal (Some (planning items)), items).
Proof.
  intros line tracked items.
  eapply (todo_write_replaces_list Reference.host line _ "todowrite" _ _
            items tracked).
  - split; vm_compute; reflexivity.
  - vm_compute; reflexivity.
  - left; reflexivity.
  - vm_compute; reflexivity.
  - vm_compute; reflexivity.
Defined.

(** C5 as stated fails on a list-shaped [todos] with a [null] entry:
    reading [id] from it throws inside the mapping, the exception is
    swallowed, no Planning event is returned and the list tracked
    before stays. *)
Lemma todo_write_null_entry_keeps_list :
  let line :=
    Reference.json
      "{'type':'tool_call','part':{'name':'todowrite','input':{'todos':[null]}}}" in
  let tracked :=
    [{| Types.id := "0"; Types.content := "old";
        Types.status := VStr "completed" |}] in
  (exists parsed input,
      parsesTo Reference.host line parsed
      /\ OpenCode.toolCall Reference.host parsed
         = Normal (Some ("todowrite", input))
      /\ get input "todos" = Normal (VArr [VNull]))
  /\ OpenCode.detectStepFromLine Reference.host line tracked
     = (Normal None, tracked).
Proof.
  intros line tracked. split.
  - eexists _, _. split; [split |]; [| | split]; vm_compute; reflexivity.
  - vm_compute; reflexivity.
Qed.

(* ================================================================= *)
(** ** Events of the streaming classifier *)

(** C10. A line that parses as JSON with type ["step_start"] (an
    object text, so one that begins with an opening brace) makes
    [detectStepFromLine] return a Thinking event, with the tracked todo
    list when it is not empty; no tool name and no command is looked
    for, and the tracked list stays. *)
Theorem step_start_is_thinking (H : Host) (line : string)
    (parsed : value (number H)) (tracked : list (Types.TodoItem (number H))) :
  parsesTo H line parsed ->
  get parsed "type" = Normal (VStr "step_start") ->
  OpenCode.detectStepFromLine H line tracked
  = (Normal (Some {| Types.step := "Thinking";
                     Types.toolOutput := None;
                     Types.diff := None;
                     Types.todos := carried tracked |}),
     tracked).
Proof.
  intros Hp Ht.
  assert (Hc : OpenCode.toolCall H parsed = Normal None).
  { unfold OpenCode.toolCall, bind. now rewrite Ht. }
  rewrite (detectStepFromLine_other H line parsed tracked Hp Hc).
  unfold tryCatchS. rewrite stepStart_eq, Ht, event_eq. reflexivity.
Qed.

(** A step start with nothing but its type, once with an item tracked. *)
Lemma step_start_is_thinking_witness :
  let line := Reference.json "  {'type':'step_start'}" in
  let tracked :=
    [{| Types.id := "1"; Types.content := "plan";
        Types.status := VStr "in_progress" |}] in
  OpenCode.detectStepFromLine Reference.host line tracked
  = (Normal (Some {| Types.step := "Thinking";
                     Types.toolOutput := None;
                     Types.diff := None;
                     Types.todos := Some tracked |}),
     tracked).
Proof.
  intros line tracked.
  eapply (step_start_is_thinking Reference.host line _ tracked).
  - split; vm_compute; reflexivity.
  - vm_compute; reflexivity.
Defined.

(** C9, as amended.  On a line that parses to the read scenario's tool
    call, [detectStepFromLine] returns the event with step
    ["Reading code"] and tool output ["/a/b/foo.ts"]: the path in lower
    case and in full, since it is no longer than 60 characters (with
    the tracked todo list when it is not empty). *)
Theorem read_scenario_event (H : Host) (line : string)
    (tracked : list (Types.TodoItem (number H))) :
  parsesTo H line readFooCall ->
  OpenCode.detectStepFromLine H line tracked
  = (Normal (Some {| Types.step := "Reading code";
                     Types.toolOutput := Some "/a/b/foo.ts";
                     Types.diff := None;
                     Types.todos := carried tracked |}),
     tracked).
Proof.
  intros Hp.
  rewrite (detectStepFromLine_call H line readFooCall "read"
             (VObj [("file_path", VStr "/a/b/Foo.ts")]) tracked Hp eq_refl).
  reflexivity.
Qed.

Lemma read_scenario_event_witness :
  let line :=
    Reference.json
      "{'type':'tool_call','part':{'name':'read','input':{'file_path':'/a/b/Foo.ts'}}}" in
  OpenCode.detectStepFromLine Reference.host line []
  = (Normal (Some {| Types.step := "Reading code";
                     Types.toolOutput := Some "/a/b/foo.ts";
                     Types.diff := None;
                     Types.todos := None |}),
     []).
Proof.
  intros line.
  apply (read_scenario_event Reference.host line []).
  split; vm_compute; reflexivity.
Defined.

(** C9 as stated fails: the event returned for the scenario's line has
    the tool output ["/a/b/foo.ts"], not [".../Foo.ts"]. *)
Lemma read_scenario_output_differs :
  let line :=
    Reference.json
      "{'type':'tool_call','part':{'name':'read','input':{'file_path':'/a/b/Foo.ts'}}}" in
  parsesTo Reference.host line readFooCall
  /\ exists e,
       OpenCode.detectStepFromLine Reference.host line [] = (Normal (Some e), [])
       /\ Types.step e = "Reading code"
       /\ Types.toolOutput e = Some "/a/b/foo.ts"
       /\ Types.toolOutput e <> Some ".../Foo.ts".
Proof.
  intros line. split; [split; vm_compute; reflexivity |].
  eexists. split; [vm_compute; reflexivity |].
  split; [reflexivity |]. split; [reflexivity | discriminate].
Qed.

(* ================================================================= *)
(** ** Classification of commands *)

Lemma lowerChar_idempotent (c : ascii) : lowerChar (lowerChar c) = lowerChar c.
Proof. destruct c as [[] [] [] [] [] [] [] []]; reflexivity. Qed.

Lemma toLowerCase_idempotent (s : string) :
  toLowerCase (toLowerCase s) = toLowerCase s.
Proof.
  induction s as [|c s IH]; simpl; [reflexivity |].
  now rewrite lowerChar_idempotent, IH.
Qed.

Lemma toLowerCase_nonEmpty (s : string) :
  nonEmpty (toLowerCase s) = nonEmpty s.
Proof. destruct s; reflexivity. Qed.

Lemma includes_nonEmpty (m s : string) :
  nonEmpty m = true -> includes m s = true -> nonEmpty s = true.
Proof.
  intros Hm [a [b ->]]%includes_iff.
  destruct a; [destruct m; [discriminate | reflexivity] | reflexivity].
Qed.

Lemma containsAny_nonEmpty (markers : list string) (s : string) :
  forallb nonEmpty markers = true -> containsAny markers s = true ->
  nonEmpty s = true.
Proof.
  unfold containsAny. intros Hall [m [Hin Hm]]%existsb_exists.
  rewrite forallb_forall in Hall. eapply includes_nonEmpty; eauto.
Qed.

Lemma containsAny_lint (c : string) :
  includes "lint" c || includes "eslint" c || includes "biome" c
  || includes "prettier" c = containsAny lintMarkers c.
Proof. cbn. now rewrite orb_false_r, !orb_assoc. Qed.

Lemma containsAny_test (c : string) :
  includes "vitest" c || includes "jest" c || includes "bun test" c
  || includes "npm test" c || includes "pytest" c || includes "go test" c
  = containsAny testMarkers c.
Proof. cbn. now rewrite orb_false_r, !orb_assoc. Qed.

(** Every test marker but [jest] contains [test]. *)
Lemma testMarkers_openCode (c : string) :
  containsAny testMarkers c = true ->
  includes "test" c || includes "vitest" c || includes "jest" c = true.
Proof.
  rewrite <- containsAny_test, !orb_true_iff.
  intros [[[[[Hv | Hj] | Hb] | Hn] | Hp] | Hg]; auto;
    left; left; eapply includes_trans; try eassumption; reflexivity.
Qed.

Lemma lintMarkers_openCode (c : string) :
  containsAny lintMarkers c = false ->
  includes "lint" c || includes "eslint" c || includes "biome" c = false.
Proof.
  rewrite <- containsAny_lint. rewrite orb_false_iff. tauto.
Qed.

Section Commands.

Variable H : Host.
Local Abbreviation val := (value (number H)).
Local Abbreviation StepInfo := (Types.StepInfo (number H)).
Local Abbreviation TodoItem := (Types.TodoItem (number H)).

Lemma detectStepFromOutput_classify (line : string) (parsed : val)
    (t : Base.ToolCall (number H)) :
  parsesTo H line parsed ->
  Base.normalize H parsed = Normal t ->
  Base.detectStepFromOutput H line = tryCatch (Base.classify H t) (Normal None).
Proof.
  intros [Hs Hp] Hn. unfold Base.detectStepFromOutput, Base.parse, bind.
  now rewrite Hs, Hp, Hn.
Qed.

Lemma lowerOpt_string (v : val) (s : string) :
  lowerOpt v = Normal (VStr s) ->
  exists raw, v = VStr raw /\ toLowerCase raw = s.
Proof.
  destruct v; cbn; try discriminate. intros [= <-]. eauto.
Qed.

Lemma lowerOr_nonEmpty (v : val) (s : string) :
  Base.lowerOr H v (Normal "") = Normal s -> nonEmpty s = true ->
  exists raw, v = VStr raw /\ toLowerCase raw = s.
Proof.
  unfold Base.lowerOr, bind. intros Hl Hs.
  destruct (lowerOpt v) as [l|] eqn:El; [| discriminate].
  destruct l as [| | | |l| |]; try (injection Hl as <-; discriminate).
  destruct (nonEmpty l) eqn:En; [| injection Hl as <-; discriminate].
  injection Hl as <-. now apply lowerOpt_string.
Qed.

Lemma lowerOf_lower (v : val) (s : string) :
  lowerOf v = Normal s -> toLowerCase s = s.
Proof.
  destruct v; cbn; try discriminate. intros [= <-].
  apply toLowerCase_idempotent.
Qed.

Lemma findToolUse_lower (items : list val) (ct : Base.ClaudeTool) :
  Base.findToolUse H items = Normal (Some ct) ->
  toLowerCase (Base.ct_command ct) = Base.ct_command ct.
Proof.
  induction items as [|item items IH]; cbn [Base.findToolUse];
    [discriminate |].
  unfold bind. intros Hf.
  destruct (get item "type") as [ty|]; [| discriminate].
  destruct (if isStr ty "tool_use" then get item "name" else Normal VUndefined)
    as [name|]; [| discriminate].
  destruct (isStr ty "tool_use" && truthy name); [| now apply IH].
  destruct (lowerOf name); [| discriminate].
  destruct (get item "input") as [i|]; [| discriminate].
  destruct (orElse i (Normal (VObj []))) as [input|]; [| discriminate].
  destruct (get input "file_path") as [fp1|]; [| discriminate].
  destruct (orElse fp1 _) as [fp|]; [| discriminate].
  destruct (lowerOf fp); [| discriminate].
  destruct (get input "command") as [c1|]; [| discriminate].
  destruct (orElse c1 _) as [c|]; [| discriminate].
  destruct (lowerOf c) as [command|] eqn:Ec; [| discriminate].
  injection Hf as <-. cbn. now apply lowerOf_lower in Ec.
Qed.

Lemma extractToolFromClaudeFormat_lower (parsed : val) (ct : Base.ClaudeTool) :
  Base.extractToolFromClaudeFormat H parsed = Normal (Some ct) ->
  toLowerCase (Base.ct_command ct) = Base.ct_command ct.
Proof.
  unfold Base.extractToolFromClaudeFormat, bind. intros He.
  repeat (break_hyp_match; try discriminate).
  now apply findToolUse_lower in He.
Qed.

(** Where the command is not empty, the raw command echoed by
    [detectStepFromOutput] is a string, and the command is its lower
    case. *)
Lemma normalize_rawCommand (parsed : val) (t : Base.ToolCall (number H)) :
  Base.normalize H parsed = Normal t ->
  nonEmpty (Base.command t) = true ->
  exists raw, Base.rawCommand t = VStr raw
              /\ toLowerCase raw = Base.command t
              /\ nonEmpty raw = true.
Proof.
  unfold Base.normalize, bind. intros Hn Hc.
  destruct (Base.extractToolFromClaudeFormat H parsed) as [claudeTool|] eqn:Ee;
    [| discriminate].
  destruct (get parsed "command") as [pc|]; [| discriminate].
  destruct (orElse pc (Normal (VStr ""))) as [flatRaw|] eqn:Ef; [| discriminate].
  destruct claudeTool as [ct|].
  - injection Hn as <-. cbn in *. rewrite Hc.
    exists (Base.ct_command ct). split; [reflexivity |]. split; [| exact Hc].
    now apply extractToolFromClaudeFormat_lower in Ee.
  - destruct (get parsed "tool") as [tl|]; [| discriminate].
    destruct (Base.lowerOr H tl _) as [toolName|]; [| discriminate].
    destruct (Base.lowerOr H pc (Normal "")) as [command|] eqn:El; [| discriminate].
    destruct (get parsed "file_path") as [f1|]; [| discriminate].
    destruct (orElse f1 _) as [f|]; [| discriminate].
    destruct (lowerOf f); [| discriminate].
    destruct (get parsed "description") as [d1|]; [| discriminate].
    destruct (orElse d1 _) as [d|]; [| discriminate].
    destruct (lowerOf d); [| discriminate].
    injection Hn as <-. cbn in *.
    destruct (lowerOr_nonEmpty pc command El Hc) as [raw [-> Hraw]].
    assert (Hr : nonEmpty raw = true)
      by now rewrite <- toLowerCase_nonEmpty, Hraw.
    unfold orElse in Ef. cbn in Ef. rewrite Hr in Ef. injection Ef as <-.
    exists raw. auto.
Qed.

Lemma echo_string (raw : string) :
  nonEmpty raw = true ->
  Base.echo H (VStr raw) = Normal (Some (Base.formatCommand raw)).
Proof. intros Hr. cbn. now rewrite Hr. Qed.

(** The decision of [detectStepFromOutput] on a bash-like invocation
    without git marker. *)
Lemma classify_bashLike (parsed : val) (t : Base.ToolCall (number H)) :
  Base.normalize H parsed = Normal t ->
  bashLike t ->
  containsAny gitMarkers (Base.command t) = false ->
  containsAny gitMarkers (Base.description t) = false ->
  exists raw,
    (nonEmpty (Base.command t) = true ->
     Base.rawCommand t = VStr raw /\ toLowerCase raw = Base.command t)
    /\ Base.classify H t
       = if containsAny lintMarkers (Base.command t) then
           Normal (Some (Base.info H "Linting" (Some (Base.formatCommand raw))))
         else if containsAny testMarkers (Base.command t) then
           Normal (Some (Base.info H "Testing" (Some (Base.formatCommand raw))))
         else if String.eqb (Base.toolName t) "bash"
                 && nonEmpty (Base.command t) then
           Normal (Some (Base.info H "Running command"
                                   (Some (Base.formatCommand raw))))
         else if (String.eqb (Base.toolName t) "write"
                  || String.eqb (Base.toolName t) "edit")
                 && Base.isTestFile (Base.filePath t) then
           Normal (Some (Base.info H "Writing tests"
                                   (Base.pathOutput (Base.filePath t))))
         else if String.eqb (Base.toolName t) "write"
                 || String.eqb (Base.toolName t) "edit" then
           Normal (Some (Base.info H "Implementing"
                                   (Base.pathOutput (Base.filePath t))))
         else Normal None.
Proof.
  intros Hn [Hread Hbash] Hgc Hgd.
  assert (Hlike : String.eqb (Base.toolName t) "bash"
                  || nonEmpty (Base.command t) = true).
  { destruct Hbash as [-> | Hc]; [reflexivity |].
    apply nonEmpty_true in Hc. rewrite Hc. apply orb_true_r. }
  assert (Hfirst : negb (nonEmpty (Base.toolName t))
                   && negb (nonEmpty (Base.command t)) = false).
  { destruct Hbash as [-> | Hc]; [reflexivity |].
    apply nonEmpty_true in Hc. rewrite Hc. apply andb_false_r. }
  cbn in Hgc, Hgd. rewrite orb_false_r in Hgc, Hgd.
  apply orb_false_iff in Hgc as [Hc1 Hc2], Hgd as [Hd1 Hd2].
  unfold readFamily in Hread.
  unfold Base.classify.
  rewrite Hfirst, Hread, Hlike, Hc1, Hc2, Hd1, Hd2,
    containsAny_lint, containsAny_test.
  cbn [orb]. clear Hfirst Hlike.
  destruct (nonEmpty (Base.command t)) eqn:Ec.
  - destruct (normalize_rawCommand parsed t Hn Ec) as [raw [Hraw [Hlow Hne]]].
    exists raw. split; [auto |].
    rewrite Hraw, (echo_string raw Hne). cbn [bind].
    rewrite andb_true_r. reflexivity.
  - exists "". split; [discriminate |].
    rewrite andb_false_r.
    destruct (containsAny lintMarkers (Base.command t)) eqn:El.
    { apply containsAny_nonEmpty in El; [congruence | reflexivity]. }
    destruct (containsAny testMarkers (Base.command t)) eqn:Et.
    { apply containsAny_nonEmpty in Et; [congruence | reflexivity]. }
    reflexivity.
Qed.

(** A bash invocation whose command contains [lint]: the git markers
    come first, then the lint markers; the test markers are not
    reached. *)
Lemma classify_bash_lint (parsed : val) (t : Base.ToolCall (number H)) :
  Base.normalize H parsed = Normal t ->
  Base.toolName t = "bash" ->
  includes "lint" (Base.command t) = true ->
  exists e, Base.classify H t = Normal (Some e)
    /\ Types.step e
       = if containsAny gitMarkers (Base.command t)
            || containsAny gitMarkers (Base.description t)
         then (if includes "git commit" (Base.command t)
                  || includes "git commit" (Base.description t)
               then "Committing" else "Staging")
         else "Linting".
Proof.
  intros Hn Hb Hl.
  assert (Hc : nonEmpty (Base.command t) = true)
    by (eapply includes_nonEmpty; [| exact Hl]; reflexivity).
  destruct (normalize_rawCommand parsed t Hn Hc) as [raw [Hraw [_ Hne]]].
  unfold Base.classify. rewrite Hb, Hc, Hl, Hraw, (echo_string raw Hne).
  cbn [String.eqb Ascii.eqb Bool.eqb nonEmpty negb andb orb bind containsAny
       existsb gitMarkers].
  rewrite !orb_false_r.
  destruct (includes "git commit" (Base.command t)),
    (includes "git commit" (Base.description t)),
    (includes "git add" (Base.command t)),
    (includes "git add" (Base.description t));
    cbn; eexists; split; reflexivity.
Qed.

Lemma todoWrite_bash (input : val) (s : list TodoItem) :
  OpenCode.todoWrite H "bash" input s = (Normal None, s).
Proof. reflexivity. Qed.

(** The decision of [detectStepFromLine] on a bash invocation. *)
Lemma detectStepFromLine_bash (line : string) (parsed input : val)
    (f : OpenCode.Fields (number H)) (s : list TodoItem) :
  parsesTo H line parsed ->
  OpenCode.toolCall H parsed = Normal (Some ("bash", input)) ->
  OpenCode.fields H input = Normal f ->
  let c := OpenCode.command f in
  OpenCode.detectStepFromLine H line s
  = OpenCode.event H
      (if includes "git commit" c then "Committing"
       else if includes "git add" c then "Staging"
       else if includes "lint" c || includes "eslint" c || includes "biome" c
            then "Linting"
       else if includes "test" c || includes "vitest" c || includes "jest" c
            then "Testing"
       else "Running command")
      (if includes "git commit" c || includes "git add" c then None
       else OpenCode.echo c)
      None s.
Proof.
  intros Hp Hc Hf c.
  rewrite (detectStepFromLine_call H line parsed "bash" input s Hp Hc).
  unfold tryCatchS, bindS at 1. rewrite todoWrite_bash.
  unfold OpenCode.toolStep, bindS, lift. rewrite Hf.
  cbn [String.eqb Ascii.eqb Bool.eqb orb]. fold c.
  rewrite !event_eq.
  destruct (includes "git commit" c); [reflexivity |].
  destruct (includes "git add" c); [reflexivity |].
  destruct (includes "lint" c || includes "eslint" c || includes "biome" c);
    [reflexivity |].
  destruct (includes "test" c || includes "vitest" c || includes "jest" c);
    reflexivity.
Qed.

End Commands.

(** When reading the fields raises, the classifiers return [null]. *)
Lemma detectStepFromOutput_raises (H : Host) (line : string)
    (parsed : value (number H)) (x : exn) :
  parsesTo H line parsed ->
  Base.normalize H parsed = Throw x ->
  Base.detectStepFromOutput H line = Normal None.
Proof.
  intros [Hs Hp] Hn. unfold Base.detectStepFromOutput, Base.parse, bind.
  now rewrite Hs, Hp, Hn.
Qed.

Lemma detectStepFromLine_raises (H : Host) (line : string)
    (parsed input : value (number H)) (x : exn)
    (tracked : list (Types.TodoItem (number H))) :
  parsesTo H line parsed ->
  OpenCode.toolCall H parsed = Normal (Some ("bash", input)) ->
  OpenCode.fields H input = Throw x ->
  OpenCode.detectStepFromLine H line tracked = (Normal None, tracked).
Proof.
  intros Hp Hc Hf.
  rewrite (detectStepFromLine_call H line parsed "bash" input tracked Hp Hc).
  unfold tryCatchS, bindS at 1. rewrite todoWrite_bash.
  unfold OpenCode.toolStep, bindS, lift. now rewrite Hf.
Qed.

(** C2, as amended.  A bash invocation whose command contains both
    [lint] and [test] is never classified as Testing, by either
    classifier.  When its fields are read without error, an event is
    returned, and its step is Linting whenever no [git commit] and no
    [git add] marker is present (in the command, and for
    [detectStepFromOutput] in the description), the git markers being
    checked before the lint markers and the lint markers before the
    test markers.  When reading a field raises (as on a description,
    a path or a command that is a number), the classifier returns
    [null], whatever the command holds, and [detectStepFromLine]
    leaves the tracked list as it was. *)
Theorem lint_precedes_test (H : Host) :
  (forall (line : string) (parsed : value (number H))
          (t : Base.ToolCall (number H)),
      parsesTo H line parsed ->
      Base.normalize H parsed = Normal t ->
      Base.toolName t = "bash" ->
      includes "lint" (Base.command t) = true ->
      includes "test" (Base.command t) = true ->
      exists e,
        Base.detectStepFromOutput H line = Normal (Some e)
        /\ Types.step e <> "Testing"
        /\ (containsAny gitMarkers (Base.command t) = false ->
            containsAny gitMarkers (Base.description t) = false ->
            Types.step e = "Linting"))
  /\ (forall (line : string) (parsed : value (number H)) (x : exn),
        parsesTo H line parsed ->
        Base.normalize H parsed = Throw x ->
        Base.detectStepFromOutput H line = Normal None)
  /\ (forall (line : string) (parsed input : value (number H))
             (f : OpenCode.Fields (number H))
             (tracked : list (Types.TodoItem (number H))),
        parsesTo H line parsed ->
        OpenCode.toolCall H parsed = Normal (Some ("bash", input)) ->
        OpenCode.fields H input = Normal f ->
        includes "lint" (OpenCode.command f) = true ->
        includes "test" (OpenCode.command f) = true ->
        exists e,
          OpenCode.detectStepFromLine H line tracked = (Normal (Some e), tracked)
          /\ Types.step e <> "Testing"
          /\ (containsAny gitMarkers (OpenCode.command f) = false ->
              Types.step e = "Linting"))
  /\ (forall (line : string) (parsed input : value (number H)) (x : exn)
             (tracked : list (Types.TodoItem (number H))),
        parsesTo H line parsed ->
        OpenCode.toolCall H parsed = Normal (Some ("bash", input)) ->
        OpenCode.fields H input = Throw x ->
        OpenCode.detectStepFromLine H line tracked = (Normal None, tracked)).
Proof.
  split; [| split; [apply detectStepFromOutput_raises |
                    split; [| apply detectStepFromLine_raises]]].
  - intros line parsed t Hp Hn Hb Hl _.
    destruct (classify_bash_lint H parsed t Hn Hb Hl) as [e [He Hstep]].
    exists e. rewrite (detectStepFromOutput_classify H line parsed t Hp Hn), He.
    split; [reflexivity |]. rewrite Hstep. split.
    + repeat break_goal_match; discriminate.
    + intros -> ->. reflexivity.
  - intros line parsed input f tracked Hp Hc Hf Hl _.
    rewrite (detectStepFromLine_bash H line parsed input f tracked Hp Hc Hf).
    rewrite event_eq, Hl. cbn [orb]. eexists. split; [reflexivity |].
    cbn [Types.step containsAny existsb gitMarkers]. split.
    + repeat break_goal_match; discriminate.
    + rewrite orb_false_r. intros [-> ->]%orb_false_iff. reflexivity.
Qed.

(** Both classifiers on [npm run lint && npm test], with fields that
    are read without error and with a field that is a number. *)
Lemma lint_precedes_test_witness :
  let flat :=
    Reference.json "{'tool':'bash','command':'npm run lint && npm test'}" in
  let call :=
    Reference.json
      "{'type':'tool_call','part':{'name':'bash','input':{'command':'npm run lint && npm test'}}}" in
  let flat5 :=
    Reference.json
      "{'tool':'bash','command':'npm run lint && npm test','description':5}" in
  let call5 :=
    Reference.json
      "{'type':'tool_call','part':{'name':'bash','input':{'command':'npm run lint && npm test','path':5}}}" in
  (exists e,
      Base.detectStepFromOutput Reference.host flat = Normal (Some e)
      /\ Types.step e <> "Testing"
      /\ (containsAny gitMarkers "npm run lint && npm test" = false ->
          containsAny gitMarkers "" = false ->
          Types.step e = "Linting"))
  /\ Base.detectStepFromOutput Reference.host flat5 = Normal None
  /\ (exists e,
        OpenCode.detectStepFromLine Reference.host call [] = (Normal (Some e), [])
        /\ Types.step e <> "Testing"
        /\ (containsAny gitMarkers "npm run lint && npm test" = false ->
            Types.step e = "Linting"))
  /\ OpenCode.detectStepFromLine Reference.host call5 [] = (Normal None, []).
Proof.
  intros flat call flat5 call5.
  destruct (lint_precedes_test Reference.host) as [Ha [Hb [Hc Hd]]].
  split; [| split; [| split]].
  - eapply (Ha flat _
              {| Base.toolName := "bash";
                 Base.filePath := "";
                 Base.command := "npm run lint && npm test";
                 Base.description := "";
                 Base.rawCommand := VStr "npm run lint && npm test" |}).
    + split; vm_compute; reflexivity.
    + vm_compute; reflexivity.
    + reflexivity.
    + vm_compute; reflexivity.
    + vm_compute; reflexivity.
  - eapply (Hb flat5 _ TypeError).
    + split; vm_compute; reflexivity.
    + vm_compute; reflexivity.
  - eapply (Hc call _ _
              {| OpenCode.rawFilePath := "";
                 OpenCode.filePath := "";
                 OpenCode.command := "npm run lint && npm test";
                 OpenCode.oldContent := VStr "";
                 OpenCode.newContent := VStr "" |} []).
    + split; vm_compute; reflexivity.
    + vm_compute; reflexivity.
    + vm_compute; reflexivity.
    + vm_compute; reflexivity.
    + vm_compute; reflexivity.
  - eapply (Hd call5 _ _ TypeError []).
    + split; vm_compute; reflexivity.
    + vm_compute; reflexivity.
    + vm_compute; reflexivity.
Defined.

(** C2 as stated fails: a bash command with [lint] and [test] in it
    that is a [git commit] is classified as Committing, not Linting,
    by both classifiers; and with a description that is a number,
    [detectStepFromOutput] returns [null] for the bash command
    [npm run lint && npm test]. *)
Lemma lint_and_test_in_git_commit :
  let command := "git commit -m lint-and-test" in
  includes "lint" command = true
  /\ includes "test" command = true
  /\ (exists e,
        Base.detectStepFromOutput Reference.host
          (Reference.json "{'tool':'bash','command':'git commit -m lint-and-test'}")
        = Normal (Some e)
        /\ Types.step e = "Committing" /\ Types.step e <> "Linting")
  /\ (exists e,
        OpenCode.detectStepFromLine Reference.host
          (Reference.json
             "{'type':'tool_call','part':{'name':'bash','input':{'command':'git commit -m lint-and-test'}}}")
          []
        = (Normal (Some e), [])
        /\ Types.step e = "Committing" /\ Types.step e <> "Linting")
  /\ includes "lint" "npm run lint && npm test" = true
  /\ includes "test" "npm run lint && npm test" = true
  /\ Base.detectStepFromOutput Reference.host
       (Reference.json
          "{'tool':'bash','command':'npm run lint && npm test','description':5}")
     = Normal None.
Proof.
  intros command. split; [reflexivity |]. split; [reflexivity |].
  split; [| split; [| repeat split; vm_compute; reflexivity]];
    eexists; (split; [vm_compute; reflexivity |]);
    (split; [reflexivity | discriminate]).
Qed.

(** The command markers of both classifiers.  For a bash-like
    invocation without [git commit] and [git add] marker (and whose
    fields are read without error): [detectStepFromOutput] returns
    Linting exactly when the command contains one of [lint],
    [eslint], [biome], [prettier]; it returns Testing exactly when the
    command contains none of those and one of [vitest], [jest],
    [bun test], [npm test], [pytest], [go test]; in both cases the tool
    output is the echo of the command as [rawCommand] holds it (as the
    line has it in the flat shape, in lower case in the nested shape),
    cut to 50 characters; and a bash invocation with a non-empty
    command and none of these markers returns Running command with
    the same echo.  [detectStepFromLine] agrees with that on a bash
    command that contains [lint], [eslint] or [biome], on one with
    none of the four lint markers and one of the six test markers,
    and on one with none of the four lint markers and neither [test]
    nor [jest] in it, each with the echo of the lower-cased command. *)
Theorem command_markers_classified (H : Host) :
  (forall (line : string) (parsed : value (number H))
          (t : Base.ToolCall (number H)),
      parsesTo H line parsed ->
      Base.normalize H parsed = Normal t ->
      bashLike t ->
      containsAny gitMarkers (Base.command t) = false ->
      containsAny gitMarkers (Base.description t) = false ->
      exists r raw,
        Base.detectStepFromOutput H line = Normal r
        /\ (stepOf r = Some "Linting"
            <-> containsAny lintMarkers (Base.command t) = true)
        /\ (stepOf r = Some "Testing"
            <-> containsAny lintMarkers (Base.command t) = false
                /\ containsAny testMarkers (Base.command t) = true)
        /\ (stepOf r = Some "Linting" \/ stepOf r = Some "Testing" ->
            Base.rawCommand t = VStr raw
            /\ toLowerCase raw = Base.command t
            /\ outputOf r = Some ("Running: " ++ Base.truncate raw 50))
        /\ (Base.toolName t = "bash" ->
            Base.command t <> "" ->
            containsAny lintMarkers (Base.command t) = false ->
            containsAny testMarkers (Base.command t) = false ->
            Base.rawCommand t = VStr raw
            /\ toLowerCase raw = Base.command t
            /\ stepOf r = Some "Running command"
            /\ outputOf r = Some ("Running: " ++ Base.truncate raw 50)))
  /\ (forall (line : string) (parsed input : value (number H))
             (f : OpenCode.Fields (number H))
             (tracked : list (Types.TodoItem (number H))),
        parsesTo H line parsed ->
        OpenCode.toolCall H parsed = Normal (Some ("bash", input)) ->
        OpenCode.fields H input = Normal f ->
        containsAny gitMarkers (OpenCode.command f) = false ->
        exists e,
          OpenCode.detectStepFromLine H line tracked = (Normal (Some e), tracked)
          /\ Types.toolOutput e = OpenCode.echo (OpenCode.command f)
          /\ (containsAny ["lint"; "eslint"; "biome"] (OpenCode.command f) = true ->
              Types.step e = "Linting"
              /\ Types.toolOutput e
                 = Some ("Running: "
                         ++ OpenCode.truncate (OpenCode.command f) 50))
          /\ (containsAny lintMarkers (OpenCode.command f) = false ->
              containsAny testMarkers (OpenCode.command f) = true ->
              Types.step e = "Testing"
              /\ Types.toolOutput e
                 = Some ("Running: "
                         ++ OpenCode.truncate (OpenCode.command f) 50))
          /\ (containsAny lintMarkers (OpenCode.command f) = false ->
              includes "test" (OpenCode.command f) = false ->
              includes "jest" (OpenCode.command f) = false ->
              Types.step e = "Running command")).
Proof.
  split.
  - intros line parsed t Hp Hn Hlike Hgc Hgd.
    destruct (classify_bashLike H parsed t Hn Hlike Hgc Hgd) as [raw [Hraw Hc]].
    rewrite (detectStepFromOutput_classify H line parsed t Hp Hn), Hc.
    unfold Base.formatCommand in *.
    destruct (containsAny lintMarkers (Base.command t)) eqn:El.
    { eexists _, raw. split; [reflexivity |].
      assert (Hne : nonEmpty (Base.command t) = true)
        by (eapply containsAny_nonEmpty; [| exact El]; reflexivity).
      destruct (Hraw Hne) as [Hr Hl].
      cbn [stepOf option_map Types.step Base.info outputOf Types.toolOutput].
      split; [split; reflexivity |].
      split; [split; [discriminate | intros [Hf _]; discriminate] |].
      split; [intros _; auto |].
      intros _ _ Hf; discriminate. }
    destruct (containsAny testMarkers (Base.command t)) eqn:Et.
    { eexists _, raw. split; [reflexivity |].
      assert (Hne : nonEmpty (Base.command t) = true)
        by (eapply containsAny_nonEmpty; [| exact Et]; reflexivity).
      destruct (Hraw Hne) as [Hr Hl].
      cbn [stepOf option_map Types.step Base.info outputOf Types.toolOutput].
      split; [split; discriminate |].
      split; [split; auto |].
      split; [intros _; auto |].
      intros _ _ _ Hf; discriminate. }
    destruct (String.eqb (Base.toolName t) "bash" && nonEmpty (Base.command t))
      eqn:Eb.
    { eexists _, raw. split; [reflexivity |].
      apply andb_true_iff in Eb as [_ Hne].
      destruct (Hraw Hne) as [Hr Hl].
      cbn [stepOf option_map Types.step Base.info outputOf Types.toolOutput].
      split; [split; discriminate |].
      split; [split; [discriminate | intros [_ Hf]; discriminate] |].
      split; [intros [Hf | Hf]; discriminate |].
      intros _ _ _ _; auto. }
    assert (Hnb : Base.toolName t = "bash" -> Base.command t <> "" -> False).
    { intros Hb Hne%nonEmpty_true. rewrite Hb, Hne in Eb. discriminate. }
    exists
      (if (String.eqb (Base.toolName t) "write"
           || String.eqb (Base.toolName t) "edit")
          && Base.isTestFile (Base.filePath t)
       then Some (Base.info H "Writing tests" (Base.pathOutput (Base.filePath t)))
       else if String.eqb (Base.toolName t) "write"
               || String.eqb (Base.toolName t) "edit"
       then Some (Base.info H "Implementing" (Base.pathOutput (Base.filePath t)))
       else None), raw.
    split; [repeat break_goal_match; reflexivity |].
    assert (Hno : forall r : option (Types.StepInfo (number H)),
               r = Some (Base.info H "Writing tests"
                                   (Base.pathOutput (Base.filePath t)))
               \/ r = Some (Base.info H "Implementing"
                                      (Base.pathOutput (Base.filePath t)))
               \/ r = None ->
               stepOf r <> Some "Linting" /\ stepOf r <> Some "Testing").
    { intros r [-> | [-> | ->]]; split; discriminate. }
    match goal with
    | |- context [stepOf ?r] =>
        destruct (Hno r) as [HnL HnT];
        [repeat break_goal_match; auto |]
    end.
    split; [split; [intros Hf; now apply HnL in Hf | discriminate] |].
    split; [split; [intros Hf; now apply HnT in Hf
                   | intros [_ Hf]; discriminate] |].
    split; [intros [Hf | Hf]; [now apply HnL in Hf | now apply HnT in Hf] |].
    intros Hb Hne _ _. exfalso. now apply Hnb.
  - intros line parsed input f tracked Hp Hc Hf Hg.
    rewrite (detectStepFromLine_bash H line parsed input f tracked Hp Hc Hf).
    rewrite event_eq. cbn in Hg. rewrite orb_false_r in Hg.
    apply orb_false_iff in Hg as [Hg1 Hg2]. rewrite Hg1, Hg2. cbn [orb].
    eexists. split; [reflexivity |]. cbn [Types.step Types.toolOutput].
    split; [reflexivity |]. split; [| split].
    + intros Hl. cbn in Hl. rewrite orb_false_r, orb_assoc in Hl. rewrite Hl.
      split; [reflexivity |]. unfold OpenCode.echo.
      replace (nonEmpty (OpenCode.command f)) with true; [reflexivity |].
      symmetry. eapply (containsAny_nonEmpty ["lint"; "eslint"; "biome"]);
        [reflexivity |]. cbn. now rewrite orb_false_r, orb_assoc.
    + intros Hl Ht. rewrite (lintMarkers_openCode _ Hl), (testMarkers_openCode _ Ht).
      split; [reflexivity |]. unfold OpenCode.echo.
      replace (nonEmpty (OpenCode.command f)) with true; [reflexivity |].
      symmetry. eapply containsAny_nonEmpty; [| exact Ht]. reflexivity.
    + intros Hl Ht Hj. rewrite (lintMarkers_openCode _ Hl), Ht, Hj.
      cbn [orb].
      destruct (includes "vitest" (OpenCode.command f)) eqn:Ev; [| reflexivity].
      assert (includes "test" (OpenCode.command f) = true)
        by (eapply includes_trans; [| exact Ev]; reflexivity).
      congruence.
Qed.

(** [npm test] through both classifiers. *)
Lemma command_markers_classified_witness :
  let flat := Reference.json "{'tool':'bash','command':'npm test'}" in
  let call :=
    Reference.json
      "{'type':'tool_call','part':{'name':'bash','input':{'command':'npm test'}}}" in
  (exists r,
      Base.detectStepFromOutput Reference.host flat = Normal r
      /\ stepOf r = Some "Testing"
      /\ outputOf r = Some "Running: npm test")
  /\ (exists e,
        OpenCode.detectStepFromLine Reference.host call [] = (Normal (Some e), [])
        /\ Types.step e = "Testing"
        /\ Types.toolOutput e = Some "Running: npm test").
Proof.
  intros flat call. split.
  - pose (parsed := VObj [("tool", VStr "bash"); ("command", VStr "npm test")]
                    : value (number Reference.host)).
    pose (t := {| Base.toolName := "bash"; Base.filePath := "";
                  Base.command := "npm test"; Base.description := "";
                  Base.rawCommand := VStr "npm test" |}
               : Base.ToolCall (number Reference.host)).
    assert (Hp : parsesTo Reference.host flat parsed)
      by (split; vm_compute; reflexivity).
    assert (Hn : Base.normalize Reference.host parsed = Normal t)
      by (vm_compute; reflexivity).
    assert (Hl : bashLike t) by (split; [reflexivity | left; reflexivity]).
    destruct (proj1 (command_markers_classified Reference.host)
                flat parsed t Hp Hn Hl eq_refl eq_refl)
      as [r [raw [Hr [_ [Ht [Hout _]]]]]].
    exists r. split; [exact Hr |].
    assert (Hs : stepOf r = Some "Testing") by (apply Ht; split; reflexivity).
    split; [exact Hs |].
    destruct (Hout (or_intror Hs)) as [Hraw [_ Ho]].
    injection Hraw as <-. exact Ho.
  - pose (input := VObj [("command", VStr "npm test")]
                   : value (number Reference.host)).
    pose (parsed := VObj [("type", VStr "tool_call");
                          ("part", VObj [("name", VStr "bash");
                                         ("input", input)])]
                    : value (number Reference.host)).
    pose (f := {| OpenCode.rawFilePath := ""; OpenCode.filePath := "";
                  OpenCode.command := "npm test";
                  OpenCode.oldContent := VStr "";
                  OpenCode.newContent := VStr "" |}
               : OpenCode.Fields (number Reference.host)).
    assert (Hp : parsesTo Reference.host call parsed)
      by (split; vm_compute; reflexivity).
    destruct (proj2 (command_markers_classified Reference.host)
                call parsed input f [] Hp eq_refl eq_refl eq_refl)
      as [e [He [_ [_ [Ht _]]]]].
    exists e. split; [exact He |]. apply Ht; reflexivity.
Defined.

(** The lint markers are checked first: a bash command without git
    marker that contains the test marker [vitest] is classified as
    Linting when it contains a lint marker too. *)
Lemma lint_marker_hides_test_marker :
  let command := "eslint . && vitest run" in
  containsAny gitMarkers command = false
  /\ containsAny testMarkers command = true
  /\ exists e,
       Base.detectStepFromOutput Reference.host
         (Reference.json "{'tool':'bash','command':'eslint . && vitest run'}")
       = Normal (Some e)
       /\ Types.step e = "Linting"
       /\ Types.step e <> "Testing".
Proof.
  intros command. split; [reflexivity |]. split; [reflexivity |].
  eexists. split; [vm_compute; reflexivity |].
  split; [reflexivity | discriminate].
Qed.

(** C3.  [detectStepFromOutput] has the marker lists of the claim,
    but the copy in the OpenCode engine has others: it leaves
    [prettier] out of the lint markers and takes any command with
    [test] in it for a test run.  The bash command
    [prettier --check .], without git marker and with a lint marker,
    is Linting for the first and Running command for the second; the
    bash command [make test], without any marker of the claim, is
    Running command for the first and Testing for the second. *)
Theorem opencode_marker_lists_differ :
  let prettier := "prettier --check ." in
  let makeTest := "make test" in
  (containsAny gitMarkers prettier = false
   /\ containsAny lintMarkers prettier = true)
  /\ (exists e,
        OpenCode.detectStepFromLine Reference.host
          (Reference.json
             "{'type':'tool_call','part':{'name':'bash','input':{'command':'prettier --check .'}}}")
          []
        = (Normal (Some e), [])
        /\ Types.step e = "Running command"
        /\ Types.toolOutput e = Some "Running: prettier --check .")
  /\ (exists e,
        Base.detectStepFromOutput Reference.host
          (Reference.json "{'tool':'bash','command':'prettier --check .'}")
        = Normal (Some e)
        /\ Types.step e = "Linting"
        /\ Types.toolOutput e = Some "Running: prettier --check .")
  /\ (containsAny gitMarkers makeTest = false
      /\ containsAny lintMarkers makeTest = false
      /\ containsAny testMarkers makeTest = false)
  /\ (exists e,
        OpenCode.detectStepFromLine Reference.host
          (Reference.json
             "{'type':'tool_call','part':{'name':'bash','input':{'command':'make test'}}}")
          []
        = (Normal (Some e), [])
        /\ Types.step e = "Testing"
        /\ Types.toolOutput e = Some "Running: make test")
  /\ (exists e,
        Base.detectStepFromOutput Reference.host
          (Reference.json "{'tool':'bash','command':'make test'}")
        = Normal (Some e)
        /\ Types.step e = "Running command"
        /\ Types.toolOutput e = Some "Running: make test").
Proof.
  intros prettier makeTest.
  split; [split; reflexivity |].
  split; [eexists; split; [vm_compute; reflexivity | split; reflexivity] |].
  split; [eexists; split; [vm_compute; reflexivity | split; reflexivity] |].
  split; [repeat split; reflexivity |].
  split; eexists; (split; [vm_compute; reflexivity | split; reflexivity]).
Qed.

(* ================================================================= *)
(** ** Test files *)

(** The write branch of [detectStepFromLine] follows the engine's own
    [isTestFile]. *)
Lemma detectStepFromLine_write (H : Host) (line : string)
    (parsed input : value (number H)) (toolName : string)
    (f : OpenCode.Fields (number H)) (d : option Types.DiffInfo)
    (tracked : list (Types.TodoItem (number H))) :
  parsesTo H line parsed ->
  OpenCode.toolCall H parsed = Normal (Some (toolName, input)) ->
  toolName = "write" \/ toolName = "edit" ->
  OpenCode.fields H input = Normal f ->
  OpenCode.callCreateDiff H (OpenCode.rawFilePath f) (OpenCode.oldContent f)
    (OpenCode.newContent f) = Normal d ->
  OpenCode.detectStepFromLine H line tracked
  = OpenCode.event H
      (if OpenCode.isTestFile (OpenCode.filePath f)
       then "Writing tests" else "Implementing")
      None d tracked.
Proof.
  intros Hp Hc Hn Hf Hd.
  rewrite (detectStepFromLine_call H line parsed toolName input tracked Hp Hc).
  unfold tryCatchS, bindS at 1.
  replace (OpenCode.todoWrite H toolName input tracked)
    with (@Normal (option (option (Types.StepInfo (number H)))) None, tracked)
    by (destruct Hn as [-> | ->]; reflexivity).
  unfold OpenCode.toolStep, bindS, lift. rewrite Hf, Hd, !event_eq.
  destruct Hn as [-> | ->]; reflexivity.
Qed.

(** The write rules of [detectStepFromOutput], reached when the
    command is empty, follow the [isTestFile] of [base.ts]. *)
Lemma classify_write (H : Host) (t : Base.ToolCall (number H)) :
  Base.toolName t = "write" \/ Base.toolName t = "edit" ->
  Base.command t = "" ->
  Base.classify H t
  = Normal (Some (Base.info H (if Base.isTestFile (Base.filePath t)
                               then "Writing tests" else "Implementing")
                            (Base.pathOutput (Base.filePath t)))).
Proof.
  intros Hn Hc. unfold Base.classify. rewrite Hc.
  destruct Hn as [-> | ->]; cbn;
    destruct (Base.isTestFile (Base.filePath t)); reflexivity.
Qed.

(** C4.  The claim holds of [isTestFile] in [base.ts], but the copy in
    the OpenCode engine leaves the Go suffix out: a write to
    [pkg/foo_test.go] is a test file for the first and not for the
    second, and [detectStepFromLine] returns Implementing for it. *)
Theorem go_test_file_is_implementing :
  let line :=
    Reference.json
      "{'type':'tool_call','part':{'name':'write','input':{'file_path':'pkg/foo_test.go','content':'package foo'}}}" in
  includes "_test.go" "pkg/foo_test.go" = true
  /\ Base.isTestFile "pkg/foo_test.go" = true
  /\ OpenCode.isTestFile "pkg/foo_test.go" = false
  /\ exists e,
       OpenCode.detectStepFromLine Reference.host line [] = (Normal (Some e), [])
       /\ Types.step e = "Implementing".
Proof.
  intros line. repeat (split; [reflexivity |]).
  eexists. split; [vm_compute; reflexivity | reflexivity].
Qed.

Lemma isTestFile_gap (filePath : string) :
  Base.isTestFile filePath
  = OpenCode.isTestFile filePath || includes "_test.go" (toLowerCase filePath).
Proof. reflexivity. Qed.

(* ================================================================= *)
(** ** The aggregated result *)

Lemma includes_join (sep l : string) (ls : list string) :
  In l ls -> includes l (join sep ls) = true.
Proof.
  induction ls as [|x ls IH]; [contradiction |].
  intros [-> | Hin].
  - destruct ls as [|y ls].
    + cbn. apply includes_iff. exists "", "". cbn. now rewrite append_nil_r.
    + rewrite join_cons2. apply includes_iff. now exists "", (sep ++ join sep (y :: ls)).
  - destruct ls as [|y ls]; [contradiction |].
    rewrite join_cons2. specialize (IH Hin).
    apply includes_iff in IH as [a [b Hab]]. apply includes_iff.
    exists (x ++ sep ++ a), b. rewrite Hab, !append_assoc. reflexivity.
Qed.

Lemma includes_after (sub a s : string) :
  includes sub s = true -> includes sub (a ++ s) = true.
Proof.
  intros [x [y ->]]%includes_iff. apply includes_iff.
  exists (a ++ x), y. now rewrite append_assoc.
Qed.

Lemma lastn_last {A : Type} (n : nat) (xs : list A) (y : A) :
  0 < n -> In y (lastn n (xs ++ [y])).
Proof.
  intros Hn. unfold lastn. rewrite length_app. cbn [List.length].
  rewrite skipn_app. apply in_or_app. right.
  replace (List.length xs + 1 - n - List.length xs) with 0 by lia.
  now left.
Qed.

(** The last line of a text that ends with a word [w] free of line
    feeds ends with [w]. *)
Lemma splitLines_append_last (a w : string) :
  splitLines w = [w] ->
  exists init l, splitLines (a ++ w) = app init [l ++ w].
Proof.
  intros Hw. induction a as [|c a [init [l IH]]].
  - exists [], "". exact Hw.
  - cbn [append splitLines]. rewrite IH.
    destruct init as [|i0 rest]; cbn [app].
    + destruct (Ascii.eqb c "010").
      * now exists [""], l.
      * now exists [], (String c l).
    + destruct (Ascii.eqb c "010").
      * now exists ("" :: i0 :: rest), l.
      * now exists (String c i0 :: rest), l.
Qed.

Section Aggregation.

Variable H : Host.
Local Abbreviation val := (value (number H)).

Lemma errorEvent_caught (line : string) :
  tryCatch (Base.errorEvent H line) (Normal None)
  = if isErrorEvent H line
    then tryCatch (Base.errorEvent H line) (Normal None)
    else Normal None.
Proof.
  unfold isErrorEvent, Base.errorEvent, Base.parse, bind.
  destruct (JSON_parse H line) as [parsed|]; [| reflexivity].
  destruct (get parsed "type") as [ty|]; [| reflexivity].
  destruct (isStr ty "error"); reflexivity.
Qed.

(** An error event makes [checkForErrors] return a truthy message. *)
Lemma errorEvent_found (line : string) :
  isErrorEvent H line = true ->
  exists m, tryCatch (Base.errorEvent H line) (Normal None) = Normal (Some m)
            /\ truthy m = true.
Proof.
  unfold isErrorEvent, Base.errorEvent, Base.parse, bind, orElse.
  destruct (JSON_parse H line) as [parsed|]; [| discriminate].
  destruct parsed as [| | | | | |props]; cbn [get]; try discriminate.
  intros ->.
  destruct (getOpt (lookup "error" props) "message") as [m1|] eqn:E1.
  2:{ destruct (lookup "error" props); discriminate. }
  destruct (truthy m1) eqn:T1; [eexists; split; [reflexivity | exact T1] |].
  destruct (truthy (lookup "message" props)) eqn:T2;
    eexists; (split; [reflexivity |]); [exact T2 | reflexivity].
Qed.

Lemma checkLines_none (lines : list string) :
  Base.checkLines H lines = None
  <-> forall line, In line lines -> isErrorEvent H line = false.
Proof.
  induction lines as [|l lines IH]; cbn [Base.checkLines].
  - split; [intros _ line [] | reflexivity].
  - rewrite errorEvent_caught. destruct (isErrorEvent H l) eqn:El.
    + destruct (errorEvent_found l El) as [m [-> _]]. split; [discriminate |].
      intros Hall. specialize (Hall l (or_introl eq_refl)). congruence.
    + split.
      * intros Hn line [<- | Hin]; [exact El | now apply IH].
      * intros Hall. apply IH. intros line Hin. apply Hall. now right.
Qed.

(** [checkForErrors] returns [null] exactly on an output without error
    event. *)
Lemma checkForErrors_none (output : string) :
  Base.checkForErrors H output = None <-> noErrorEvent H output.
Proof. apply checkLines_none. Qed.

(** The message of a failed command: the exit code, and after it the
    last twelve non-empty lines of the trimmed output. *)
Lemma formatCommandError_lines (exitCode : Z) (output : string) :
  trim output <> "" ->
  Base.formatCommandError exitCode output
  = "Command failed with exit code " ++ showZ exitCode ++ ". Output:"
    ++ newline
    ++ join newline (lastn 12 (filter nonEmpty (splitLines (trim output)))).
Proof.
  intros Ht%nonEmpty_true. unfold Base.formatCommandError. rewrite Ht.
  cbn [negb].
  rewrite <- (sliceList_lastn (filter nonEmpty (splitLines (trim output))) 12)
    by lia.
  reflexivity.
Qed.

Lemma formatCommandError_blank (exitCode : Z) (output : string) :
  trim output = "" ->
  Base.formatCommandError exitCode output
  = "Command failed with exit code " ++ showZ exitCode.
Proof.
  intros Ht. unfold Base.formatCommandError. now rewrite Ht.
Qed.

Lemma formatCommandError_includes_line (exitCode : Z) (output l : string) :
  In l (lastn 12 (filter nonEmpty (splitLines (trim output)))) ->
  includes l (Base.formatCommandError exitCode output) = true.
Proof.
  intros Hin.
  assert (Ht : trim output <> "").
  { intros Ht. rewrite Ht in Hin. exact Hin. }
  rewrite (formatCommandError_lines exitCode output Ht).
  do 4 apply includes_after. now apply includes_join.
Qed.

Lemma formatCommandError_includes_tail (exitCode : Z) (output pre w : string) :
  splitLines w = [w] -> w <> "" ->
  trim output = pre ++ w ->
  includes w (Base.formatCommandError exitCode output) = true.
Proof.
  intros Hw Hne Ht.
  destruct (splitLines_append_last pre w Hw) as [init [l Hs]].
  apply (includes_trans w (l ++ w)); [apply includes_suffix |].
  apply formatCommandError_includes_line. rewrite Ht, Hs, filter_app.
  cbn [filter].
  replace (nonEmpty (l ++ w)) with true.
  - apply lastn_last. lia.
  - symmetry. apply nonEmpty_true. destruct l; [exact Hne | discriminate].
Qed.

End Aggregation.

(** C8, as amended.  When the process exits with a nonzero code, the
    output holds no error event and [parseOutput] returns (every text
    part collected from the output converts to a string, as its
    declared type [string[]] has it), the aggregated result has
    [success] false and for [error] the message of
    [formatCommandError]: the exit code, followed for a non-blank
    output by the last twelve non-empty lines of the trimmed output,
    each of which the message contains.  In particular, an output that
    ends with [build failed] gives an error that contains
    [build failed]. *)
Theorem nonzero_exit_is_failure (H : Host) (output : string) (exitCode : Z)
    (p : OpenCode.ParsedOutput (number H)) :
  exitCode <> 0%Z ->
  noErrorEvent H output ->
  OpenCode.parseOutput H output = Normal p ->
  let message := Base.formatCommandError exitCode output in
  let lines := lastn 12 (filter nonEmpty (splitLines (trim output))) in
  OpenCode.aggregate H output exitCode
  = Normal {| Types.success := false;
              Types.response := OpenCode.p_response p;
              Types.inputTokens := OpenCode.p_inputTokens p;
              Types.outputTokens := OpenCode.p_outputTokens p;
              Types.cost := None;
              Types.error := Some (VStr message) |}
  /\ (List.length lines <= 12)%nat
  /\ (trim output <> "" ->
      message = "Command failed with exit code " ++ showZ exitCode
                ++ ". Output:" ++ newline ++ join newline lines)
  /\ (trim output = "" ->
      message = "Command failed with exit code " ++ showZ exitCode)
  /\ (forall l, In l lines -> includes l message = true)
  /\ (forall pre, trim output = pre ++ "build failed" ->
                  includes "build failed" message = true).
Proof.
  intros Hexit Hno Hp message lines. split; [| split; [| split; [| split; [| split]]]].
  - unfold OpenCode.aggregate.
    rewrite (proj2 (checkForErrors_none H output) Hno), Hp. cbn [bind].
    apply Z.eqb_neq in Hexit. now rewrite Hexit.
  - unfold lines, lastn. rewrite length_skipn. lia.
  - apply formatCommandError_lines.
  - apply formatCommandError_blank.
  - intros l. apply formatCommandError_includes_line.
  - intros pre Hpre.
    apply (formatCommandError_includes_tail exitCode output pre "build failed");
      [reflexivity | discriminate | exact Hpre].
Qed.

(** Exit code 1 after the single output line [build failed]. *)
Lemma nonzero_exit_is_failure_witness :
  exists message,
    OpenCode.aggregate Reference.host "build failed" 1
    = Normal {| Types.success := false;
                Types.response := "Task completed";
                Types.inputTokens := VNum 0%Z;
                Types.outputTokens := VNum 0%Z;
                Types.cost := None;
                Types.error := Some (VStr message) |}
    /\ message = "Command failed with exit code 1. Output:" ++ newline
                 ++ "build failed"
    /\ includes "build failed" message = true.
Proof.
  assert (Hexit : 1%Z <> 0%Z) by discriminate.
  assert (Hno : noErrorEvent Reference.host "build failed").
  { intros line Hin. vm_compute in Hin. destruct Hin as [<- | []].
    vm_compute. reflexivity. }
  destruct (nonzero_exit_is_failure Reference.host "build failed" 1
              {| OpenCode.p_response := "Task completed";
                 OpenCode.p_inputTokens := VNum 0%Z;
                 OpenCode.p_outputTokens := VNum 0%Z;
                 OpenCode.p_cost := None |}
              Hexit Hno eq_refl)
    as [Hagg [_ [_ [_ [_ Htail]]]]].
  eexists. split; [exact Hagg |]. split; [reflexivity |].
  exact (Htail "" eq_refl).
Defined.

(** C8 as stated fails: on an output without error event whose text
    event carries an object with an own [toString] property, the
    final [textParts.join("")] of [parseOutput] throws, outside every
    [try], and the execution gives no result at all. *)
Lemma unconvertible_text_part_raises :
  let output :=
    Reference.json "{'type':'text','part':{'text':{'toString':1}}}" in
  Base.checkForErrors Reference.host output = None
  /\ OpenCode.textParts Reference.host (filter nonEmpty (splitLines output))
     = [VObj [("toString", VNum 1%Z)]]
  /\ OpenCode.aggregate Reference.host output 1 = Throw TypeError
  /\ OpenCode.execute Reference.host output "" 1 = Throw TypeError.
Proof.
  intros output. repeat split; vm_compute; reflexivity.
Qed.

(** The two entry points build their result with [aggregate]. *)
Lemma execute_aggregate (H : Host) (stdout stderr : string) (exitCode : Z) :
  OpenCode.execute H stdout stderr exitCode
  = OpenCode.aggregate H (stdout ++ stderr) exitCode.
Proof. reflexivity. Qed.

Lemma executeStreaming_aggregate (H : Host) (outputLines : list string)
    (exitCode : Z) (tracked : list (Types.TodoItem (number H)))
    (events : list (Types.StepInfo (number H)))
    (result : Types.AIResult (number H))
    (tracked' : list (Types.TodoItem (number H))) :
  OpenCode.executeStreaming H outputLines exitCode tracked
  = (Normal (events, result), tracked') ->
  OpenCode.aggregate H (join newline outputLines) exitCode = Normal result.
Proof.
  unfold OpenCode.executeStreaming, bindS, lift, ret.
  destruct (OpenCode.progress H outputLines tracked) as [[ev|] s]; [| discriminate].
  destruct (OpenCode.aggregate H (join newline outputLines) exitCode);
    [| discriminate].
  now intros [= _ <- _].
Qed.

(** Text parts that are strings, as declared, always join. *)
Lemma joinValues_strings (H : Host) (sep : string)
    (parts : list (value (number H))) :
  Forall (fun v => exists s, v = VStr s) parts ->
  exists joined, joinValues sep parts = Normal joined.
Proof.
  induction 1 as [|v parts [s ->] _ [joined IH]]; cbn [joinValues].
  - now exists "".
  - cbn [toStr bind]. destruct parts; [now exists s |].
    rewrite IH. now eexists.
Qed.

Lemma parseOutput_returns (H : Host) (output : string) :
  Forall (fun v => exists s, v = VStr s)
         (OpenCode.textParts H (filter nonEmpty (splitLines output))) ->
  exists p, OpenCode.parseOutput H output = Normal p.
Proof.
  intros Hs. unfold OpenCode.parseOutput.
  destruct (joinValues_strings H "" _ Hs) as [joined ->]. now eexists.
Qed.

(** Entries that are objects whose [id] and [content] are missing or
    of a primitive type always map. *)
Lemma toStr_primitive (H : Host) (v : value (number H)) :
  primitive v -> exists s, toStr v = Normal s.
Proof.
  destruct v as [| |[]| | | |]; cbn; try contradiction; intros _; now eexists.
Qed.

Lemma toStr_orElse_primitive (H : Host) (v : value (number H)) :
  primitive v ->
  exists s, (v' <- orElse v (Normal (VStr "")) ;; toStr v') = Normal s.
Proof.
  intros Hv. unfold orElse. destruct (truthy v); cbn [bind].
  - now apply toStr_primitive.
  - now exists "".
Qed.

Lemma mapTodo_returns (H : Host) (props : list (string * value (number H))) :
  primitive (lookup "id" props) ->
  primitive (lookup "content" props) ->
  exists item, OpenCode.mapTodo H (VObj props) = Normal item.
Proof.
  intros Hi Hc. unfold OpenCode.mapTodo. cbn [get bind].
  destruct (toStr_orElse_primitive H _ Hi) as [si Hsi].
  destruct (toStr_orElse_primitive H _ Hc) as [sc Hsc].
  unfold bind in *.
  destruct (orElse (lookup "id" props) _); [| discriminate].
  rewrite Hsi.
  destruct (orElse (lookup "content" props) _); [| discriminate].
  rewrite Hsc. unfold orElse.
  destruct (truthy (lookup "status" props)); now eexists.
Qed.

Lemma mapTodos_returns (H : Host) (ts : list (value (number H))) :
  Forall (fun t => exists props,
              t = VObj props
              /\ primitive (lookup "id" props)
              /\ primitive (lookup "content" props)) ts ->
  exists items, OpenCode.mapTodos H ts = Normal items.
Proof.
  induction 1 as [|t ts [props [-> [Hi Hc]]] _ [items IH]];
    cbn [OpenCode.mapTodos].
  - now eexists.
  - destruct (mapTodo_returns H props Hi Hc) as [item ->].
    rewrite IH. now eexists.
Qed.

(* ================================================================= *)
(** ** The reference parser on trimmed lines *)

(** The brace test of [parsesTo] excludes no line that a JSON parser
    turns into an object: for the reference parser, a trimmed text that
    parses to an object begins with an opening brace. *)
Lemma jsonSpace_whiteSpace (c : ascii) :
  Reference.isJsonSpace c = true -> isWhiteSpace c = true.
Proof.
  destruct c as [[] [] [] [] [] [] [] []]; vm_compute; congruence.
Qed.

Lemma trimEnd_head (c : ascii) (s : string) :
  isWhiteSpace c = false -> exists r, trimEnd (String c s) = String c r.
Proof.
  intros Hc. cbn [trimEnd]. rewrite Hc.
  destruct (trimEnd s); now eexists.
Qed.

Lemma trim_head (s : string) :
  trim s = "" \/ exists c r, trim s = String c r /\ isWhiteSpace c = false.
Proof.
  unfold trim. induction s as [|c s IH]; [now left |].
  cbn [trimStart]. destruct (isWhiteSpace c) eqn:Hc; [exact IH |].
  right. destruct (trimEnd_head c s Hc) as [r Hr]. now exists c, r.
Qed.

Lemma skipWs_trim (s : string) : Reference.skipWs (trim s) = trim s.
Proof.
  destruct (trim_head s) as [-> | [c [r [-> Hc]]]]; [reflexivity |].
  cbn [Reference.skipWs].
  destruct (Reference.isJsonSpace c) eqn:Hj; [| reflexivity].
  apply jsonSpace_whiteSpace in Hj. congruence.
Qed.

Lemma literal_not_object (word : string) (v : value Z) (s : string)
    (props : list (string * value Z)) (rest : string) :
  (forall p, v <> VObj p) ->
  Reference.literal word v s <> Some (VObj props, rest).
Proof.
  intros Hv. unfold Reference.literal. destruct (prefix word s); [| discriminate].
  intros [= Heq _]. now apply (Hv props).
Qed.

Lemma parseValue_object (fuel : nat) (s : string)
    (props : list (string * value Z)) (rest : string) :
  Reference.parseValue fuel s = Some (VObj props, rest) ->
  startsWith "{" (Reference.skipWs s) = true.
Proof.
  destruct fuel as [|fuel]; [discriminate |]. cbn [Reference.parseValue].
  destruct (Reference.skipWs s) as [|c r]; [discriminate |].
  destruct (Ascii.eqb_spec c "{") as [-> | Hc];
    [intros _; apply prefix_iff; now exists r |].
  intros Hp. exfalso.
  repeat (break_hyp_match; try discriminate);
    try (eapply literal_not_object; [| exact Hp]; discriminate).
Qed.

Lemma reference_parsesTo (line : string) (props : list (string * value Z)) :
  JSON_parse Reference.host (trim line) = Some (VObj props) ->
  parsesTo Reference.host line (VObj props).
Proof.
  intros Hp. split; [| exact Hp].
  cbn [JSON_parse Reference.host] in Hp. unfold Reference.json_parse in Hp.
  destruct (Reference.parseValue _ (trim line)) as [[v rest]|] eqn:Ev;
    [| discriminate].
  destruct (Reference.skipWs rest); [| discriminate].
  injection Hp as ->. apply parseValue_object in Ev.
  now rewrite skipWs_trim in Ev.
Qed.

(* ================================================================= *)
(** ** Reading the output line by line *)

Lemma splitLines_cons (c : ascii) (s : string) :
  exists l ls, splitLines s = l :: ls
    /\ splitLines (String c s)
       = if Ascii.eqb c "010" then "" :: l :: ls else String c l :: ls.
Proof.
  pose proof (splitLines_nonempty s) as Hne. cbn [splitLines].
  destruct (splitLines s) as [|l ls]; [contradiction |]. now exists l, ls.
Qed.

(** The last piece of a split holds no line feed. *)
Lemma splitLines_last_unbroken (s : string) :
  unbroken (last (splitLines s) "").
Proof.
  unfold unbroken. induction s as [|c s IH]; [reflexivity |].
  destruct (splitLines_cons c s) as [l [ls [Hs ->]]]. rewrite Hs in IH.
  destruct (Ascii.eqb c "010") eqn:Hc.
  - exact IH.
  - destruct ls as [|l2 ls]; [| exact IH].
    cbn [last] in *. cbn [splitLines]. now rewrite IH, Hc.
Qed.

(** Splitting a text that goes on: the pieces before the last one stay,
    and the last one is continued. *)
Lemma splitLines_app (a b : string) :
  splitLines (a ++ b)
  = app (removelast (splitLines a))
        (splitLines (last (splitLines a) "" ++ b)).
Proof.
  induction a as [|c a IH]; [reflexivity |].
  destruct (splitLines_cons c a) as [l [ls [Hs Hc]]]. rewrite Hc.
  destruct (splitLines_cons c (a ++ b)) as [x [xs [Hx Hcx]]].
  cbn [append]. rewrite Hcx. rewrite Hs in IH.
  destruct ls as [|l2 ls].
  - cbn [removelast last app] in IH. rewrite IH in Hx.
    destruct (Ascii.eqb c "010") eqn:E.
    + cbn [removelast last app]. now rewrite Hx.
    + cbn [removelast last app append].
      destruct (splitLines_cons c (l ++ b)) as [y [ys [Hy ->]]].
      rewrite E. rewrite Hx in Hy. now injection Hy as <- <-.
  - rewrite IH in Hx. cbn [removelast last app] in Hx.
    injection Hx as <- <-.
    destruct (Ascii.eqb c "010"); reflexivity.
Qed.

Lemma removelast_last_split (s : string) :
  splitLines s = app (removelast (splitLines s)) [last (splitLines s) ""].
Proof. apply app_removelast_last, splitLines_nonempty. Qed.

Lemma readLoop_lines (chunks : list string) (buffer : string) :
  unbroken buffer ->
  Output.readLoop chunks buffer
  = filter Output.nonBlank (splitLines (buffer ++ wholeText chunks)).
Proof.
  revert buffer. induction chunks as [|value rest IH]; intros buffer Hb.
  - cbn [Output.readLoop wholeText fold_right]. rewrite append_nil_r, Hb.
    reflexivity.
  - cbn [Output.readLoop wholeText fold_right].
    rewrite <- append_assoc, (splitLines_app (buffer ++ value)), filter_app.
    f_equal. apply IH, splitLines_last_unbroken.
Qed.

(** X1. [readStream] hands to [onLine] exactly the non-blank lines of
    the whole text read, in order, however the text was cut into
    chunks: a line that spans chunks is delivered once and whole, and
    two ways of chunking the same text deliver the same lines. *)
Theorem readStream_delivers_lines (chunks : list string) :
  Output.readStream chunks
  = filter Output.nonBlank (splitLines (wholeText chunks))
  /\ (forall chunks', wholeText chunks' = wholeText chunks ->
                      Output.readStream chunks' = Output.readStream chunks).
Proof.
  assert (Hr : forall cs, Output.readStream cs
                 = filter Output.nonBlank (splitLines (wholeText cs)))
    by (intros cs; apply (readLoop_lines cs ""); reflexivity).
  split; [apply Hr |]. intros chunks' He. now rewrite !Hr, He.
Qed.

Lemma readStream_delivers_lines_witness :
  Output.readStream ["ab" ++ newline ++ "c"; "d" ++ newline; "e"]
  = Output.readStream ["a"; "b" ++ newline ++ "cd" ++ newline ++ "e"].
Proof.
  apply (proj2 (readStream_delivers_lines
                  ["a"; "b" ++ newline ++ "cd" ++ newline ++ "e"])).
  reflexivity.
Defined.











(* ================================================================= *)
(** ** Parsing the whole output *)

Section OutputParsers.

Variable H : Host.
Local Abbreviation val := (value (number H)).

Lemma getOpt_optField (v : val) (k : string) :
  getOpt v k = Normal (optField v k).
Proof. destruct v; reflexivity. Qed.

Lemma get_object (parsed : val) (k : string) (s : string) :
  get parsed k = Normal (VStr s) -> exists props, parsed = VObj props.
Proof. destruct parsed; cbn; try discriminate. now eexists. Qed.

Lemma orElse_orDefault (v d : val) :
  orElse v (Normal d) = Normal (orDefault v d).
Proof. unfold orElse, orDefault. now destruct (truthy v). Qed.

(** One line of the loop of [parseStreamJsonResult]. *)
Lemma resultEvent_caught (line : string) (st : Output.StreamResult (number H)) :
  tryCatchS (Output.resultEvent H line) (ret tt) st
  = (Normal tt,
     match JSON_parse H line with
     | Some (VObj props) =>
         if isStr (lookup "type" props) "result" then
           {| Output.response :=
                orDefault (lookup "result" props) (VStr "Task completed");
              Output.inputTokens :=
                orDefault (optField (lookup "usage" props) "input_tokens") zero;
              Output.outputTokens :=
                orDefault (optField (lookup "usage" props) "output_tokens") zero |}
         else st
     | _ => st
     end).
Proof.
  unfold tryCatchS, Output.resultEvent, Base.parse, bindS, lift.
  destruct (JSON_parse H line) as [parsed|]; [| reflexivity].
  destruct parsed as [| | | | | |props]; try reflexivity.
  cbn [get]. destruct (isStr (lookup "type" props) "result"); [| reflexivity].
  rewrite !getOpt_optField, !orElse_orDefault. reflexivity.
Qed.

Lemma resultLoop_normal (lines : list string)
    (st : Output.StreamResult (number H)) :
  fst (Output.resultLoop H lines st) = Normal tt.
Proof.
  revert st. induction lines as [|l lines IH]; intros st; [reflexivity |].
  cbn [Output.resultLoop]. unfold bindS at 1. rewrite resultEvent_caught.
  apply IH.
Qed.

Lemma resultLoop_app (l1 l2 : list string)
    (st : Output.StreamResult (number H)) :
  snd (Output.resultLoop H (app l1 l2) st)
  = snd (Output.resultLoop H l2 (snd (Output.resultLoop H l1 st))).
Proof.
  revert st. induction l1 as [|l l1 IH]; intros st; [reflexivity |].
  cbn [app Output.resultLoop]. unfold bindS at 1 2.
  rewrite resultEvent_caught. apply IH.
Qed.

Lemma resultLoop_no_result (lines : list string)
    (st : Output.StreamResult (number H)) :
  (forall line, In line lines -> isEvent H "result" line = false) ->
  snd (Output.resultLoop H lines st) = st.
Proof.
  revert st. induction lines as [|l lines IH]; intros st Hno; [reflexivity |].
  cbn [Output.resultLoop]. unfold bindS at 1. rewrite resultEvent_caught.
  pose proof (Hno l (or_introl eq_refl)) as Hl. unfold isEvent in Hl.
  rewrite IH by (intros line Hin; apply Hno; now right).
  destruct (JSON_parse H l) as [[| | | | | |props]|]; try reflexivity.
  cbn [get] in Hl. now rewrite Hl.
Qed.

End OutputParsers.

(** X3. When no line of the output is a result event, whatever else
    the output holds, [parseStreamJsonResult] returns the placeholder
    response ["Task completed"] and zero for both token counts; and on
    every output the response it returns is truthy, never the empty
    string. *)
Theorem parseStreamJsonResult_default (H : Host) (output : string) :
  truthy (Output.response (Output.parseStreamJsonResult H output)) = true
  /\ ((forall line, In line (outputLines output) ->
                    isEvent H "result" line = false) ->
      Output.parseStreamJsonResult H output
      = {| Output.response := VStr "Task completed";
           Output.inputTokens := zero;
           Output.outputTokens := zero |}).
Proof.
  split.
  - unfold Output.parseStreamJsonResult. cbn [Output.response].
    match goal with
    | |- context [if truthy ?v then _ else _] => destruct (truthy v) eqn:E
    end; [exact E | reflexivity].
  - intros Hno. unfold Output.parseStreamJsonResult.
    fold (outputLines output). now rewrite resultLoop_no_result.
Qed.

Lemma parseStreamJsonResult_default_witness :
  Output.parseStreamJsonResult Reference.host
    (Reference.json "{'type':'assistant'}" ++ newline ++ "not json")
  = {| Output.response := VStr "Task completed";
       Output.inputTokens := VNum 0%Z;
       Output.outputTokens := VNum 0%Z |}.
Proof.
  apply (proj2 (parseStreamJsonResult_default Reference.host _)).
  intros line Hin. vm_compute in Hin.
  destruct Hin as [<- | [<- | []]]; vm_compute; reflexivity.
Defined.

(** X4. The last result event wins, and wins whole: when the last
    non-empty line of the output is a result event,
    [parseStreamJsonResult] returns what that line holds (its [result],
    or the placeholder when it has none; its usage counts, or zero
    when it has none), and nothing of an earlier result event
    remains. *)
Theorem parseStreamJsonResult_last_wins (H : Host) (output : string)
    (earlier : list string) (line : string)
    (props : list (string * value (number H))) :
  outputLines output = app earlier [line] ->
  JSON_parse H line = Some (VObj props) ->
  lookup "type" props = VStr "result" ->
  Output.parseStreamJsonResult H output
  = {| Output.response :=
         orDefault (lookup "result" props) (VStr "Task completed");
       Output.inputTokens :=
         orDefault (optField (lookup "usage" props) "input_tokens") zero;
       Output.outputTokens :=
         orDefault (optField (lookup "usage" props) "output_tokens") zero |}.
Proof.
  intros Hl Hp Ht.
  assert (Hst : forall st,
             snd (Output.resultLoop H (app earlier [line]) st)
             = {| Output.response :=
                    orDefault (lookup "result" props) (VStr "Task completed");
                  Output.inputTokens :=
                    orDefault (optField (lookup "usage" props) "input_tokens")
                              zero;
                  Output.outputTokens :=
                    orDefault (optField (lookup "usage" props) "output_tokens")
                              zero |}).
  { intros st. rewrite resultLoop_app. cbn [Output.resultLoop].
    unfold bindS. rewrite resultEvent_caught, Hp, Ht. reflexivity. }
  unfold Output.parseStreamJsonResult. fold (outputLines output).
  rewrite Hl, Hst. cbn [Output.response Output.inputTokens Output.outputTokens].
  f_equal. unfold orDefault.
  destruct (truthy (lookup "result" props)) eqn:E; [now rewrite E | reflexivity].
Qed.

Lemma parseStreamJsonResult_last_wins_witness :
  Output.parseStreamJsonResult Reference.host
    (Reference.json "{'type':'result','result':'first','usage':{'input_tokens':5,'output_tokens':6}}"
     ++ newline
     ++ Reference.json "{'type':'result','usage':{'output_tokens':7}}"
     ++ newline)
  = {| Output.response := VStr "Task completed";
       Output.inputTokens := VNum 0%Z;
       Output.outputTokens := VNum 7%Z |}.
Proof.
  eapply (parseStreamJsonResult_last_wins Reference.host _
            [Reference.json "{'type':'result','result':'first','usage':{'input_tokens':5,'output_tokens':6}}"]
            (Reference.json "{'type':'result','usage':{'output_tokens':7}}")
            [("type", VStr "result");
             ("usage", VObj [("output_tokens", VNum 7%Z)])]).
  - vm_compute; reflexivity.
  - vm_compute; reflexivity.
  - reflexivity.
Defined.

Section Aggregated.

Variable H : Host.
Local Abbreviation val := (value (number H)).

Lemma errorEvent_message (line : string) (props : list (string * val)) :
  JSON_parse H line = Some (VObj props) ->
  lookup "type" props = VStr "error" ->
  tryCatch (Base.errorEvent H line) (Normal None)
  = Normal (Some (orDefault (optField (lookup "error" props) "message")
                            (orDefault (lookup "message" props)
                                       (VStr "Unknown error")))).
Proof.
  intros Hp Ht. unfold Base.errorEvent, Base.parse, bind.
  rewrite Hp. cbn [get]. rewrite Ht. cbn [isStr String.eqb Ascii.eqb Bool.eqb].
  rewrite getOpt_optField. unfold orElse, orDefault.
  destruct (truthy (optField (lookup "error" props) "message")); [reflexivity |].
  destruct (truthy (lookup "message" props)); reflexivity.
Qed.

Lemma checkLines_skip (before rest : list string) :
  (forall l, In l before -> isErrorEvent H l = false) ->
  Base.checkLines H (app before rest) = Base.checkLines H rest.
Proof.
  induction before as [|l before IH]; intros Hno; [reflexivity |].
  cbn [app Base.checkLines]. rewrite errorEvent_caught.
  rewrite (Hno l (or_introl eq_refl)). apply IH.
  intros l' Hin. apply Hno. now right.
Qed.

Lemma checkLines_truthy (lines : list string) (m : val) :
  Base.checkLines H lines = Some m -> truthy m = true.
Proof.
  induction lines as [|l lines IH]; [discriminate |].
  cbn [Base.checkLines]. rewrite errorEvent_caught.
  destruct (isErrorEvent H l) eqn:El; [| exact IH].
  destruct (errorEvent_found H l El) as [m' [-> Hm]]. now intros [= <-].
Qed.

Lemma orDefault_truthy (v d : val) :
  truthy d = true -> truthy (orDefault v d) = true.
Proof. unfold orDefault. intros Hd. now destruct (truthy v) eqn:E. Qed.

Lemma formatCommandError_nonEmpty (exitCode : Z) (output : string) :
  nonEmpty (Base.formatCommandError exitCode output) = true.
Proof.
  unfold Base.formatCommandError. now destruct (negb (nonEmpty (trim output))).
Qed.

End Aggregated.

(** X5. [checkForErrors] reports the first error event of the output:
    when the non-empty lines before a line are no error events and the
    line is one, the result is that line's message ([error.message],
    else [message], else ["Unknown error"]), whatever follows, and the
    message is truthy. *)
Theorem checkForErrors_first_error (H : Host) (output : string)
    (before after : list string) (line : string)
    (props : list (string * value (number H))) :
  outputLines output = app before (line :: after) ->
  (forall l, In l before -> isErrorEvent H l = false) ->
  JSON_parse H line = Some (VObj props) ->
  lookup "type" props = VStr "error" ->
  let message :=
    orDefault (optField (lookup "error" props) "message")
              (orDefault (lookup "message" props) (VStr "Unknown error")) in
  Base.checkForErrors H output = Some message /\ truthy message = true.
Proof.
  intros Hl Hno Hp Ht message. split.
  - unfold Base.checkForErrors. fold (outputLines output).
    rewrite Hl, (checkLines_skip H before _ Hno). cbn [Base.checkLines].
    now rewrite (errorEvent_message H line props Hp Ht).
  - unfold message. now repeat apply orDefault_truthy.
Qed.

Lemma checkForErrors_first_error_witness :
  Base.checkForErrors Reference.host
    ("starting" ++ newline
     ++ Reference.json "{'type':'error','error':{'message':'rate limited'}}"
     ++ newline
     ++ Reference.json "{'type':'error','message':'second'}")
  = Some (VStr "rate limited").
Proof.
  eapply (proj1 (checkForErrors_first_error Reference.host _
            ["starting"]
            [Reference.json "{'type':'error','message':'second'}"]
            (Reference.json "{'type':'error','error':{'message':'rate limited'}}")
            [("type", VStr "error");
             ("error", VObj [("message", VStr "rate limited")])]
            _ _ _ _)).
  Unshelve.
  - vm_compute; reflexivity.
  - intros l [<- | []]. vm_compute; reflexivity.
  - vm_compute; reflexivity.
  - reflexivity.
Defined.

(** X6. An error event anywhere in the output short-circuits the
    aggregation: whatever the exit code, and whatever the rest of the
    output holds, the result is returned (nothing is raised) with
    [success] false, an empty response, zero token counts, no cost, and
    for [error] the truthy message of [checkForErrors]. *)
Theorem error_event_short_circuits (H : Host) (output line : string) :
  In line (outputLines output) ->
  isErrorEvent H line = true ->
  exists message,
    Base.checkForErrors H output = Some message
    /\ truthy message = true
    /\ forall exitCode,
         OpenCode.aggregate H output exitCode
         = Normal {| Types.success := false;
                     Types.response := "";
                     Types.inputTokens := zero;
                     Types.outputTokens := zero;
                     Types.cost := None;
                     Types.error := Some message |}.
Proof.
  intros Hin Hl.
  destruct (Base.checkForErrors H output) as [message|] eqn:Ec.
  - pose proof (checkLines_truthy H _ _ Ec) as Hm.
    exists message. split; [reflexivity |]. split; [exact Hm |].
    intros exitCode. unfold OpenCode.aggregate. now rewrite Ec, Hm.
  - apply checkForErrors_none in Ec. rewrite (Ec line Hin) in Hl. discriminate.
Qed.

Lemma error_event_short_circuits_witness :
  exists message,
    Base.checkForErrors Reference.host
      (Reference.json "{'type':'error','message':'boom'}") = Some message
    /\ truthy message = true
    /\ forall exitCode,
         OpenCode.aggregate Reference.host
           (Reference.json "{'type':'error','message':'boom'}") exitCode
         = Normal {| Types.success := false;
                     Types.response := "";
                     Types.inputTokens := zero;
                     Types.outputTokens := zero;
                     Types.cost := None;
                     Types.error := Some message |}.
Proof.
  apply (error_event_short_circuits Reference.host _
           (Reference.json "{'type':'error','message':'boom'}")).
  - vm_compute. now left.
  - vm_compute; reflexivity.
Defined.

(** X7. Whenever the aggregation returns a result, [success] is true
    exactly when the exit code is zero and the output holds no error
    event; a successful result has no [error], and a failed one has a
    truthy [error] and no [cost]. *)
Theorem aggregate_success_iff (H : Host) (output : string) (exitCode : Z)
    (result : Types.AIResult (number H)) :
  OpenCode.aggregate H output exitCode = Normal result ->
  (Types.success result = true
   <-> exitCode = 0%Z /\ noErrorEvent H output)
  /\ (Types.success result = true -> Types.error result = None)
  /\ (Types.success result = false ->
      Types.cost result = None
      /\ exists message, Types.error result = Some message
                         /\ truthy message = true).
Proof.
  unfold OpenCode.aggregate. intros Ha.
  destruct (Base.checkForErrors H output) as [message|] eqn:Ec.
  - pose proof (checkLines_truthy H _ _ Ec) as Hm. rewrite Hm in Ha.
    injection Ha as <-. cbn. split; [| split].
    + split; [discriminate |]. intros [_ Hno].
      apply checkForErrors_none in Hno. congruence.
    + discriminate.
    + intros _. split; [reflexivity |]. now exists message.
  - pose proof (proj1 (checkForErrors_none H output) Ec) as Hno.
    unfold bind in Ha.
    destruct (OpenCode.parseOutput H output) as [p|]; [| discriminate].
    destruct (Z.eqb_spec exitCode 0) as [-> | Hne]; cbn [negb] in Ha;
      injection Ha as <-; cbn.
    + split; [tauto |]. split; [reflexivity | discriminate].
    + split; [split; [discriminate | tauto] |].
      split; [discriminate |]. intros _. split; [reflexivity |].
      eexists. split; [reflexivity |]. apply formatCommandError_nonEmpty.
Qed.

Lemma aggregate_success_iff_witness :
  exists result,
    OpenCode.aggregate Reference.host
      (Reference.json "{'type':'text','part':{'text':'done'}}") 0
    = Normal result
    /\ Types.success result = true
    /\ Types.error result = None.
Proof.
  eexists. split; [vm_compute; reflexivity |].
  pose proof (aggregate_success_iff Reference.host
                (Reference.json "{'type':'text','part':{'text':'done'}}") 0 _
                eq_refl) as [_ [Herr _]].
  split; [reflexivity | exact (Herr eq_refl)].
Defined.

Section Usage.

Variable H : Host.
Local Abbreviation val := (value (number H)).

(** One line of the first loop of [parseOutput]. *)
Lemma stepFinish_caught (line : string) (u : OpenCode.Usage (number H)) :
  tryCatchS (OpenCode.stepFinish H line) (ret tt) u
  = (Normal tt,
     match JSON_parse H line with
     | Some (VObj props) =>
         if isStr (lookup "type" props) "step_finish" then
           let part := lookup "part" props in
           {| OpenCode.usedInput :=
                orDefault (optField (optField part "tokens") "input") zero;
              OpenCode.usedOutput :=
                orDefault (optField (optField part "tokens") "output") zero;
              OpenCode.usedCost :=
                if truthy (optField part "cost") then
                  match toStr (optField part "cost") with
                  | Normal c => Some c
                  | Throw _ => OpenCode.usedCost u
                  end
                else OpenCode.usedCost u |}
         else u
     | _ => u
     end).
Proof.
  unfold tryCatchS, OpenCode.stepFinish, Base.parse, bindS, lift.
  destruct (JSON_parse H line) as [parsed|]; [| reflexivity].
  destruct parsed as [| | | | | |props]; try reflexivity.
  cbn [get]. destruct (isStr (lookup "type" props) "step_finish");
    [| reflexivity].
  rewrite !getOpt_optField, !orElse_orDefault. cbn.
  destruct (truthy (optField (lookup "part" props) "cost")); [| reflexivity].
  destruct (toStr (optField (lookup "part" props) "cost")); reflexivity.
Qed.

Lemma usageLoop_app (l1 l2 : list string) (u : OpenCode.Usage (number H)) :
  snd (OpenCode.usageLoop H (app l1 l2) u)
  = snd (OpenCode.usageLoop H l2 (snd (OpenCode.usageLoop H l1 u))).
Proof.
  revert u. induction l1 as [|l l1 IH]; intros u; [reflexivity |].
  cbn [app OpenCode.usageLoop]. unfold bindS at 1 2.
  rewrite stepFinish_caught. apply IH.
Qed.

Lemma textParts_app (l1 l2 : list string) :
  OpenCode.textParts H (app l1 l2)
  = app (OpenCode.textParts H l1) (OpenCode.textParts H l2).
Proof.
  induction l1 as [|l l1 IH]; [reflexivity |].
  cbn [app OpenCode.textParts].
  destruct (tryCatch (OpenCode.textPart H l) (Normal None)) as [[t|]|];
    cbn [app]; now rewrite IH.
Qed.

Lemma textPart_other (line : string) (props : list (string * val)) :
  JSON_parse H line = Some (VObj props) ->
  isStr (lookup "type" props) "text" = false ->
  OpenCode.textParts H [line] = [].
Proof.
  intros Hp Ht. cbn [OpenCode.textParts].
  unfold OpenCode.textPart, Base.parse, bind. rewrite Hp. cbn [get].
  now rewrite Ht.
Qed.

End Usage.

(** X8. A step-finish event at the end of the output sets the token
    counts of [parseOutput] anew, to the event's counts or to zero
    where it has none, and leaves the response as it was; the cost is
    replaced only when the event carries a truthy cost that converts
    to a string, and otherwise the cost of an earlier step-finish event
    stays. *)
Theorem parseOutput_last_step_finish (H : Host) (before output : string)
    (line : string) (props : list (string * value (number H)))
    (p : OpenCode.ParsedOutput (number H)) :
  outputLines output = app (outputLines before) [line] ->
  JSON_parse H line = Some (VObj props) ->
  lookup "type" props = VStr "step_finish" ->
  OpenCode.parseOutput H before = Normal p ->
  let part := lookup "part" props in
  OpenCode.parseOutput H output
  = Normal
      {| OpenCode.p_response := OpenCode.p_response p;
         OpenCode.p_inputTokens :=
           orDefault (optField (optField part "tokens") "input") zero;
         OpenCode.p_outputTokens :=
           orDefault (optField (optField part "tokens") "output") zero;
         OpenCode.p_cost :=
           if truthy (optField part "cost") then
             match toStr (optField part "cost") with
             | Normal c => Some c
             | Throw _ => OpenCode.p_cost p
             end
           else OpenCode.p_cost p |}.
Proof.
  intros Hl Hp Ht Hb part. unfold OpenCode.parseOutput in *.
  fold (outputLines output). fold (outputLines before) in Hb.
  rewrite Hl, textParts_app, (textPart_other H line props Hp), app_nil_r
    by (now rewrite Ht).
  unfold bind in *.
  destruct (joinValues "" (OpenCode.textParts H (outputLines before)))
    as [joined|]; [| discriminate].
  injection Hb as <-. cbn [OpenCode.p_response OpenCode.p_cost].
  assert (Hu : forall u,
             snd (OpenCode.usageLoop H (app (outputLines before) [line]) u)
             = snd (tryCatchS (OpenCode.stepFinish H line) (ret tt)
                      (snd (OpenCode.usageLoop H (outputLines before) u)))).
  { intros u. rewrite usageLoop_app. cbn [OpenCode.usageLoop].
    unfold bindS. now rewrite stepFinish_caught. }
  rewrite Hu, stepFinish_caught, Hp, Ht. reflexivity.
Qed.

Lemma parseOutput_last_step_finish_witness :
  OpenCode.parseOutput Reference.host
    (Reference.json "{'type':'text','part':{'text':'hi'}}" ++ newline
     ++ Reference.json "{'type':'step_finish','part':{'cost':3,'tokens':{'input':10,'output':20}}}"
     ++ newline
     ++ Reference.json "{'type':'step_finish','part':{'tokens':{'input':11}}}")
  = Normal {| OpenCode.p_response := "hi";
              OpenCode.p_inputTokens := VNum 11%Z;
              OpenCode.p_outputTokens := VNum 0%Z;
              OpenCode.p_cost := Some "3" |}.
Proof.
  eapply (parseOutput_last_step_finish Reference.host
            (Reference.json "{'type':'text','part':{'text':'hi'}}" ++ newline
             ++ Reference.json "{'type':'step_finish','part':{'cost':3,'tokens':{'input':10,'output':20}}}")
            _
            (Reference.json "{'type':'step_finish','part':{'tokens':{'input':11}}}")
            [("type", VStr "step_finish");
             ("part", VObj [("tokens", VObj [("input", VNum 11%Z)])])]
            {| OpenCode.p_response := "hi";
               OpenCode.p_inputTokens := VNum 10%Z;
               OpenCode.p_outputTokens := VNum 20%Z;
               OpenCode.p_cost := Some "3" |}).
  - vm_compute; reflexivity.
  - vm_compute; reflexivity.
  - reflexivity.
  - vm_compute; reflexivity.
Defined.

(* ================================================================= *)
(** ** The extraction of the tool invocation *)

Section Extraction.

Variable H : Host.
Local Abbreviation val := (value (number H)).

Lemma get_optField (v : val) (k : string) (x : val) :
  get v k = Normal x -> x = optField v k.
Proof. destruct v; cbn; intros [= <-]; reflexivity. Qed.

Lemma findToolUse_passedOver (item : val) (rest : list val) :
  passedOver item ->
  Base.findToolUse H (item :: rest) = Base.findToolUse H rest.
Proof.
  intros [ty [Hty Hno]]. cbn [Base.findToolUse]. unfold bind. rewrite Hty.
  destruct (isStr ty "tool_use") eqn:Et; [| reflexivity].
  destruct Hno as [Hno | Hno]; [discriminate |].
  destruct (get item "name") as [name|] eqn:En.
  - apply get_optField in En. subst name. now rewrite Hno.
  - destruct item; discriminate.
Qed.

Lemma findToolUse_head (item : val) (after : list val) (ct : Base.ClaudeTool) :
  Base.findToolUse H [item] = Normal (Some ct) ->
  Base.findToolUse H (item :: after) = Normal (Some ct).
Proof.
  cbn [Base.findToolUse]. unfold bind.
  destruct (get item "type") as [ty|]; [| discriminate].
  destruct (if isStr ty "tool_use" then get item "name" else Normal VUndefined)
    as [name|]; [| discriminate].
  destruct (isStr ty "tool_use" && truthy name); [easy | discriminate].
Qed.

Lemma findToolUse_first (before after : list val) (item : val)
    (ct : Base.ClaudeTool) :
  Forall passedOver before ->
  Base.findToolUse H [item] = Normal (Some ct) ->
  Base.findToolUse H (app before (item :: after)) = Normal (Some ct).
Proof.
  induction 1 as [|x before Hx _ IH]; intros Hi; cbn [app].
  - now apply findToolUse_head.
  - rewrite (findToolUse_passedOver x _ Hx). now apply IH.
Qed.

Lemma strOf_lowerOf (v : val) (s : string) :
  lowerOf v = Normal s -> lowerCase s.
Proof. apply lowerOf_lower. Qed.

Lemma findToolUse_lowerCase (items : list val) (ct : Base.ClaudeTool) :
  Base.findToolUse H items = Normal (Some ct) ->
  lowerCase (Base.ct_toolName ct) /\ lowerCase (Base.ct_filePath ct)
  /\ lowerCase (Base.ct_command ct).
Proof.
  induction items as [|item items IH]; cbn [Base.findToolUse];
    [discriminate |].
  unfold bind. intros Hf.
  destruct (get item "type") as [ty|]; [| discriminate].
  destruct (if isStr ty "tool_use" then get item "name" else Normal VUndefined)
    as [name|]; [| discriminate].
  destruct (isStr ty "tool_use" && truthy name); [| now apply IH].
  destruct (lowerOf name) as [toolName|] eqn:En; [| discriminate].
  destruct (get item "input") as [i|]; [| discriminate].
  destruct (orElse i (Normal (VObj []))) as [input|]; [| discriminate].
  destruct (get input "file_path") as [fp1|]; [| discriminate].
  destruct (orElse fp1 _) as [fp|]; [| discriminate].
  destruct (lowerOf fp) as [filePath|] eqn:Ef; [| discriminate].
  destruct (get input "command") as [c1|]; [| discriminate].
  destruct (orElse c1 _) as [c|]; [| discriminate].
  destruct (lowerOf c) as [command|] eqn:Ec; [| discriminate].
  injection Hf as <-. cbn.
  repeat split; eapply strOf_lowerOf; eassumption.
Qed.

Lemma lowerOr_lowerCase (v : val) (rest : completion string) (s : string) :
  (forall r, rest = Normal r -> lowerCase r) ->
  Base.lowerOr H v rest = Normal s -> lowerCase s.
Proof.
  intros Hrest. unfold Base.lowerOr, bind.
  destruct (lowerOpt v) as [l|] eqn:El; [| discriminate].
  destruct l as [| | | |l| |]; try (now apply Hrest).
  destruct (nonEmpty l); [| now apply Hrest].
  intros [= <-]. destruct (lowerOpt_string H v l El) as [raw [_ <-]].
  apply toLowerCase_idempotent.
Qed.

Lemma normalize_lowerCase (parsed : val) (t : Base.ToolCall (number H)) :
  Base.normalize H parsed = Normal t ->
  lowerCase (Base.toolName t) /\ lowerCase (Base.filePath t)
  /\ lowerCase (Base.command t) /\ lowerCase (Base.description t).
Proof.
  unfold Base.normalize, bind. intros Hn.
  destruct (Base.extractToolFromClaudeFormat H parsed) as [claudeTool|] eqn:Ee;
    [| discriminate].
  destruct (get parsed "command") as [pc|]; [| discriminate].
  destruct (orElse pc (Normal (VStr ""))) as [flatRaw|]; [| discriminate].
  destruct claudeTool as [ct|].
  - injection Hn as <-. cbn.
    assert (Hct : lowerCase (Base.ct_toolName ct)
                  /\ lowerCase (Base.ct_filePath ct)
                  /\ lowerCase (Base.ct_command ct)).
    { unfold Base.extractToolFromClaudeFormat, bind in Ee.
      repeat (break_hyp_match; try discriminate).
      now apply findToolUse_lowerCase in Ee. }
    destruct Hct as [? [? ?]]. repeat split; auto.
  - destruct (get parsed "tool") as [tl|]; [| discriminate].
    destruct (Base.lowerOr H tl _) as [toolName|] eqn:Et; [| discriminate].
    destruct (Base.lowerOr H pc (Normal "")) as [command|] eqn:Ec;
      [| discriminate].
    destruct (get parsed "file_path") as [f1|]; [| discriminate].
    destruct (orElse f1 _) as [f|]; [| discriminate].
    destruct (lowerOf f) as [filePath|] eqn:Ef; [| discriminate].
    destruct (get parsed "description") as [d1|]; [| discriminate].
    destruct (orElse d1 _) as [d|]; [| discriminate].
    destruct (lowerOf d) as [description|] eqn:Ed; [| discriminate].
    injection Hn as <-. cbn.
    assert (Hempty : forall r, Normal "" = Normal r -> lowerCase r)
      by (now intros r [= <-]).
    split; [| split; [| split]];
      try (eapply strOf_lowerOf; eassumption);
      [| revert Ec; now apply lowerOr_lowerCase].
    revert Et. apply lowerOr_lowerCase. intros r. unfold bind.
    destruct (get parsed "name") as [n|]; [| discriminate].
    apply lowerOr_lowerCase. intros r'.
    destruct (get parsed "tool_name") as [tn|]; [| discriminate].
    now apply lowerOr_lowerCase.
Qed.

Lemma get_any (v : val) (k : string) (x : val) :
  get v k = Normal x -> forall k', get v k' = Normal (optField v k').
Proof. destruct v; cbn; try discriminate; reflexivity. Qed.

Lemma lowerOf_isLowerOf (v : val) (s : string) :
  lowerOf v = Normal s -> isLowerOf v s.
Proof. destruct v; cbn; try discriminate. intros [= <-]. now eexists. Qed.

Lemma lowerOr_cases (v : val) (rest : completion string) (s : string) :
  Base.lowerOr H v rest = Normal s ->
  (truthy v = true /\ isLowerOf v s) \/ (truthy v = false /\ rest = Normal s).
Proof.
  unfold Base.lowerOr, bind.
  destruct v as [| | | |raw| |]; cbn; try discriminate; auto.
  rewrite toLowerCase_nonEmpty. destruct (nonEmpty raw); [| auto].
  intros [= <-]. left. split; [reflexivity | now eexists].
Qed.

Lemma lowerOr_orDefault (v d : val) (rest : completion string) (s : string) :
  (forall r, rest = Normal r -> isLowerOf d r) ->
  Base.lowerOr H v rest = Normal s -> isLowerOf (orDefault v d) s.
Proof.
  intros Hrest [[Hv Hs] | [Hv Hs]]%lowerOr_cases; unfold orDefault; rewrite Hv;
    auto.
Qed.

Lemma isLowerOf_empty : isLowerOf (H := H) (VStr "") "".
Proof. now exists "". Qed.

(** The fields read from the flat shape. *)
Lemma normalize_flat (parsed : val) (t : Base.ToolCall (number H)) :
  Base.extractToolFromClaudeFormat H parsed = Normal None ->
  Base.normalize H parsed = Normal t ->
  isLowerOf (orDefaults [optField parsed "tool"; optField parsed "name";
                         optField parsed "tool_name"] (VStr ""))
            (Base.toolName t)
  /\ isLowerOf (orDefaults [optField parsed "file_path";
                            optField parsed "filePath";
                            optField parsed "path"] (VStr ""))
               (Base.filePath t)
  /\ isLowerOf (orDefault (optField parsed "command") (VStr ""))
               (Base.command t)
  /\ isLowerOf (orDefault (optField parsed "description") (VStr ""))
               (Base.description t)
  /\ Base.rawCommand t = orDefault (optField parsed "command") (VStr "").
Proof.
  intros He. unfold Base.normalize, bind. rewrite He.
  destruct (get parsed "command") as [pc|] eqn:Ec; [| discriminate].
  pose proof (get_any parsed "command" pc Ec) as Hg.
  rewrite Hg in Ec. injection Ec as <-.
  rewrite !Hg. cbn [bind]. rewrite !orElse_orDefault. cbn [bind].
  destruct (Base.lowerOr H (optField parsed "tool") _) as [toolName|] eqn:Et;
    [| discriminate].
  destruct (Base.lowerOr H (optField parsed "command") _) as [command|] eqn:El;
    [| discriminate].
  change (orDefault (optField parsed "file_path") _)
    with (orDefaults [optField parsed "file_path"; optField parsed "filePath";
                      optField parsed "path"] (VStr "")).
  destruct (lowerOf (orDefaults _ _)) as [filePath|] eqn:Ef; [| discriminate].
  destruct (lowerOf (orDefault (optField parsed "description") _))
    as [description|] eqn:Ed; [| discriminate].
  intros [= <-]. cbn.
  split; [| split; [now apply lowerOf_isLowerOf |
                    split; [| split; [now apply lowerOf_isLowerOf | reflexivity]]]].
  - revert Et. cbn [orDefaults fold_right]. apply lowerOr_orDefault.
    intros r. apply lowerOr_orDefault. intros r'. apply lowerOr_orDefault.
    intros r'' [= <-]. apply isLowerOf_empty.
  - revert El. apply lowerOr_orDefault. intros r [= <-]. apply isLowerOf_empty.
Qed.

(** The tool use that [findToolUse] returns the fields of. *)
Lemma findToolUse_found (items : list val) (ct : Base.ClaudeTool) :
  Base.findToolUse H items = Normal (Some ct) ->
  exists before item after,
    items = app before (item :: after)
    /\ Forall passedOver before
    /\ optField item "type" = VStr "tool_use"
    /\ isLowerOf (optField item "name") (Base.ct_toolName ct)
    /\ let input := orDefault (optField item "input") (VObj []) in
       isLowerOf (orDefaults [optField input "file_path";
                              optField input "path"] (VStr ""))
                 (Base.ct_filePath ct)
       /\ isLowerOf (orDefault (optField input "command") (VStr ""))
                    (Base.ct_command ct).
Proof.
  induction items as [|item items IH]; cbn [Base.findToolUse];
    [discriminate |].
  unfold bind at 1.
  destruct (get item "type") as [ty|] eqn:Ety; [| discriminate].
  pose proof (get_any item "type" ty Ety) as Hg.
  rewrite Hg in Ety. injection Ety as <-.
  unfold bind at 1. rewrite Hg.
  destruct (isStr (optField item "type") "tool_use") eqn:Et.
  - destruct (truthy (optField item "name")) eqn:En; cbn [andb].
    + intros Hf. exists [], item, items.
      split; [reflexivity |]. split; [constructor |].
      split.
      { destruct (optField item "type"); try discriminate.
        cbn in Et. now apply String.eqb_eq in Et as ->. }
      unfold bind in Hf.
      destruct (lowerOf (optField item "name")) as [toolName|] eqn:El;
        [| discriminate].
      rewrite Hg, orElse_orDefault in Hf.
      set (input := orDefault (optField item "input") (VObj [])) in *.
      destruct (get input "file_path") as [fp1|] eqn:Ef1; [| discriminate].
      pose proof (get_any input "file_path" fp1 Ef1) as Hi.
      rewrite Hi in Ef1. injection Ef1 as <-.
      rewrite !Hi in Hf. rewrite !orElse_orDefault in Hf.
      change (orDefault (optField input "file_path") _)
        with (orDefaults [optField input "file_path"; optField input "path"]
                         (VStr "")) in Hf.
      destruct (lowerOf (orDefaults _ _)) as [filePath|] eqn:Ef; [| discriminate].
      destruct (lowerOf (orDefault (optField input "command") _))
        as [command|] eqn:Ec; [| discriminate].
      injection Hf as <-. cbn.
      repeat split; now apply lowerOf_isLowerOf.
    + intros [before [x [after [-> [Hb Hx]]]]]%IH.
      exists (item :: before), x, after. split; [reflexivity |].
      split; [| exact Hx]. constructor; [| exact Hb].
      exists (optField item "type"). split; [apply Hg | now right].
  - cbn [andb]. intros [before [x [after [-> [Hb Hx]]]]]%IH.
    exists (item :: before), x, after. split; [reflexivity |].
    split; [| exact Hx]. constructor; [| exact Hb].
    exists (optField item "type"). split; [apply Hg | now left].
Qed.

(** The fields read from the nested shape. *)
Lemma normalize_nested (parsed : val) (ct : Base.ClaudeTool)
    (t : Base.ToolCall (number H)) :
  Base.extractToolFromClaudeFormat H parsed = Normal (Some ct) ->
  Base.normalize H parsed = Normal t ->
  optField parsed "type" = VStr "assistant"
  /\ Base.toolName t = Base.ct_toolName ct
  /\ Base.filePath t = Base.ct_filePath ct
  /\ Base.command t = Base.ct_command ct
  /\ Base.description t = ""
  /\ exists items,
       optField (optField parsed "message") "content" = VArr items
       /\ Base.findToolUse H items = Normal (Some ct).
Proof.
  intros He. unfold Base.normalize, bind. rewrite He.
  destruct (get parsed "command") as [pc|] eqn:Ec; [| discriminate].
  pose proof (get_any parsed "command" pc Ec) as Hg.
  destruct (orElse pc _); [| discriminate].
  intros [= <-]. cbn.
  unfold Base.extractToolFromClaudeFormat, bind in He.
  rewrite !Hg, getOpt_optField in He.
  destruct (isStr (optField parsed "type") "assistant") eqn:Et;
    [| discriminate].
  cbn [negb] in He.
  destruct (truthy (optField (optField parsed "message") "content"));
    [| discriminate].
  cbn [negb] in He.
  split.
  { destruct (optField parsed "type"); try discriminate.
    cbn in Et. now apply String.eqb_eq in Et as ->. }
  repeat (split; [reflexivity |]).
  destruct (optField (optField parsed "message") "content") as [| | | | |items|];
    try discriminate.
  now exists items.
Qed.

Lemma toolCall_found (parsed : val) (toolName : string) (input : val) :
  OpenCode.toolCall H parsed = Normal (Some (toolName, input)) ->
  optField parsed "type" = VStr "tool_call"
  /\ isLowerOf (optField (optField parsed "part") "name") toolName
  /\ input = orDefault (optField (optField parsed "part") "input") (VObj []).
Proof.
  unfold OpenCode.toolCall, bind.
  destruct (get parsed "type") as [ty|] eqn:Ety; [| discriminate].
  pose proof (get_any parsed "type" ty Ety) as Hg.
  rewrite Hg in Ety. injection Ety as <-. rewrite Hg, getOpt_optField.
  destruct (isStr (optField parsed "type") "tool_call") eqn:Et;
    [| discriminate].
  destruct (truthy (optField (optField parsed "part") "name")) eqn:En;
    [| discriminate].
  destruct (lowerOf _) as [name|] eqn:El; [| discriminate].
  destruct (get (optField parsed "part") "input") as [i|] eqn:Ei;
    [| discriminate].
  rewrite (get_any _ _ _ Ei) in Ei. injection Ei as <-.
  rewrite orElse_orDefault. intros [= <- <-].
  split.
  { destruct (optField parsed "type"); try discriminate.
    cbn in Et. now apply String.eqb_eq in Et as ->. }
  split; [now apply lowerOf_isLowerOf | reflexivity].
Qed.

Lemma fields_found (input : val) (f : OpenCode.Fields (number H)) :
  OpenCode.fields H input = Normal f ->
  orDefaults [optField input "file_path"; optField input "path"] (VStr "")
  = VStr (OpenCode.rawFilePath f)
  /\ OpenCode.filePath f = toLowerCase (OpenCode.rawFilePath f)
  /\ isLowerOf (orDefault (optField input "command") (VStr ""))
               (OpenCode.command f).
Proof.
  unfold OpenCode.fields, bind.
  destruct (get input "file_path") as [f1|] eqn:Ef1; [| discriminate].
  pose proof (get_any input "file_path" f1 Ef1) as Hg.
  rewrite Hg in Ef1. injection Ef1 as <-.
  rewrite !Hg, !orElse_orDefault.
  change (orDefault (optField input "file_path") _)
    with (orDefaults [optField input "file_path"; optField input "path"]
                     (VStr "")).
  destruct (strOf (orDefaults _ _)) as [rawFilePath|] eqn:Er; [| discriminate].
  assert (Hraw : orDefaults [optField input "file_path"; optField input "path"]
                            (VStr "") = VStr rawFilePath).
  { destruct (orDefaults _ _); try discriminate. now injection Er as ->. }
  destruct (lowerOf (orDefault (optField input "command") _))
    as [command|] eqn:Ec; [| discriminate].
  apply lowerOf_isLowerOf in Ec.
  unfold orElse. repeat destruct (truthy _); intros [= <-]; cbn; auto.
Qed.

End Extraction.

(** X9. In the nested shape only the first tool use of
    [message.content] counts: when an assistant message's content has
    a tool use with a name whose fields are read without error, after
    items that are no tool uses, [extractToolFromClaudeFormat] returns
    the fields of that tool use, whatever comes after it in the
    content. *)
Theorem first_tool_use_wins (H : Host) (parsed message : value (number H))
    (before after : list (value (number H))) (item : value (number H))
    (ct : Base.ClaudeTool) :
  get parsed "type" = Normal (VStr "assistant") ->
  get parsed "message" = Normal message ->
  optField message "content" = VArr (app before (item :: after)) ->
  Forall passedOver before ->
  Base.findToolUse H [item] = Normal (Some ct) ->
  Base.extractToolFromClaudeFormat H parsed = Normal (Some ct).
Proof.
  intros Ht Hm Hc Hb Hi. unfold Base.extractToolFromClaudeFormat, bind.
  rewrite Ht, Hm, getOpt_optField, Hc. cbn.
  now apply findToolUse_first.
Qed.

Lemma first_tool_use_wins_witness :
  Base.extractToolFromClaudeFormat Reference.host
    (VObj [("type", VStr "assistant");
           ("message",
            VObj [("content",
                   VArr [VObj [("type", VStr "text")];
                         VObj [("type", VStr "tool_use");
                               ("name", VStr "Read");
                               ("input", VObj [("file_path", VStr "A.ts")])];
                         VObj [("type", VStr "tool_use");
                               ("name", VStr "Bash")];
                         VNull])])])
  = Normal (Some {| Base.ct_toolName := "read";
                    Base.ct_filePath := "a.ts";
                    Base.ct_command := "" |}).
Proof.
  eapply (first_tool_use_wins Reference.host _ _
            [VObj [("type", VStr "text")]]
            [VObj [("type", VStr "tool_use"); ("name", VStr "Bash")]; VNull]
            (VObj [("type", VStr "tool_use"); ("name", VStr "Read");
                   ("input", VObj [("file_path", VStr "A.ts")])])).
  - reflexivity.
  - reflexivity.
  - reflexivity.
  - constructor; [| constructor]. exists (VStr "text"). split; [reflexivity |].
    now left.
  - reflexivity.
Defined.

(** X10. The fields on which the classifiers decide are the fields of
    the line in lower case.  In the flat shape of
    [detectStepFromOutput] the tool name is the lower case of
    [tool || name || tool_name || ""], the file path that of
    [file_path || filePath || path || ""], the command and the
    description those of [command || ""] and [description || ""], and
    the command echoed is [command || ""] as the line has it.  In the
    nested shape they are the lower case of the name, the path and the
    command of the first tool use with a name in [message.content],
    and the description is empty.  In [detectStepFromLine] the tool
    name is the lower case of [part.name], the file path the lower
    case of the raw path [file_path || path || ""] kept for the diff,
    and the command the lower case of [command || ""].  Each of these
    fields is therefore left as it is by lower-casing. *)
Theorem extracted_fields_lower_case (H : Host) :
  (forall (parsed : value (number H)) (t : Base.ToolCall (number H)),
      Base.extractToolFromClaudeFormat H parsed = Normal None ->
      Base.normalize H parsed = Normal t ->
      isLowerOf (orDefaults [optField parsed "tool"; optField parsed "name";
                             optField parsed "tool_name"] (VStr ""))
                (Base.toolName t)
      /\ isLowerOf (orDefaults [optField parsed "file_path";
                                optField parsed "filePath";
                                optField parsed "path"] (VStr ""))
                   (Base.filePath t)
      /\ isLowerOf (orDefault (optField parsed "command") (VStr ""))
                   (Base.command t)
      /\ isLowerOf (orDefault (optField parsed "description") (VStr ""))
                   (Base.description t)
      /\ Base.rawCommand t = orDefault (optField parsed "command") (VStr ""))
  /\ (forall (parsed : value (number H)) (ct : Base.ClaudeTool)
             (t : Base.ToolCall (number H)),
        Base.extractToolFromClaudeFormat H parsed = Normal (Some ct) ->
        Base.normalize H parsed = Normal t ->
        exists before item after,
          optField (optField parsed "message") "content"
          = VArr (app before (item :: after))
          /\ Forall passedOver before
          /\ optField item "type" = VStr "tool_use"
          /\ isLowerOf (optField item "name") (Base.toolName t)
          /\ (let input := orDefault (optField item "input") (VObj []) in
              isLowerOf (orDefaults [optField input "file_path";
                                     optField input "path"] (VStr ""))
                        (Base.filePath t)
              /\ isLowerOf (orDefault (optField input "command") (VStr ""))
                           (Base.command t))
          /\ Base.description t = "")
  /\ (forall (parsed : value (number H)) (toolName : string)
             (input : value (number H)),
        OpenCode.toolCall H parsed = Normal (Some (toolName, input)) ->
        isLowerOf (optField (optField parsed "part") "name") toolName
        /\ input = orDefault (optField (optField parsed "part") "input")
                             (VObj [])
        /\ lowerCase toolName)
  /\ (forall (input : value (number H)) (f : OpenCode.Fields (number H)),
        OpenCode.fields H input = Normal f ->
        orDefaults [optField input "file_path"; optField input "path"]
                   (VStr "")
        = VStr (OpenCode.rawFilePath f)
        /\ OpenCode.filePath f = toLowerCase (OpenCode.rawFilePath f)
        /\ isLowerOf (orDefault (optField input "command") (VStr ""))
                     (OpenCode.command f)
        /\ lowerCase (OpenCode.command f))
  /\ (forall (parsed : value (number H)) (t : Base.ToolCall (number H)),
        Base.normalize H parsed = Normal t ->
        lowerCase (Base.toolName t) /\ lowerCase (Base.filePath t)
        /\ lowerCase (Base.command t) /\ lowerCase (Base.description t)).
Proof.
  split; [apply normalize_flat |]. split; [| split; [| split]].
  - intros parsed ct t He Hn.
    destruct (normalize_nested H parsed ct t He Hn)
      as [_ [-> [-> [-> [-> [items [Hc Hf]]]]]]].
    destruct (findToolUse_found H items ct Hf)
      as [before [item [after [-> [Hb [Ht [Hname Hin]]]]]]].
    exists before, item, after.
    repeat (split; [assumption |]). reflexivity.
  - intros parsed toolName input Hc.
    destruct (toolCall_found H parsed toolName input Hc) as [_ [Hn Hi]].
    split; [exact Hn |]. split; [exact Hi |].
    destruct Hn as [raw [_ ->]]. apply toLowerCase_idempotent.
  - intros input f Hf.
    destruct (fields_found H input f Hf) as [Hr [Hp Hc]].
    repeat (split; [assumption |]).
    destruct Hc as [raw [_ ->]]. apply toLowerCase_idempotent.
  - apply normalize_lowerCase.
Qed.

(** A flat line in mixed case: the fields are lower-cased, the echo is
    not, and the line is classified as a test run. *)
Lemma extracted_fields_lower_case_witness :
  let parsed : value (number Reference.host) :=
    VObj [("name", VStr "Bash"); ("command", VStr "NPM Test");
          ("filePath", VStr "SRC/A.ts"); ("description", VStr "Run Tests")] in
  let t : Base.ToolCall (number Reference.host) :=
    {| Base.toolName := "bash"; Base.filePath := "src/a.ts";
       Base.command := "npm test"; Base.description := "run tests";
       Base.rawCommand := VStr "NPM Test" |} in
  Base.normalize Reference.host parsed = Normal t
  /\ isLowerOf (H := Reference.host) (VStr "Bash") (Base.toolName t)
  /\ isLowerOf (H := Reference.host) (VStr "SRC/A.ts") (Base.filePath t)
  /\ isLowerOf (H := Reference.host) (VStr "NPM Test") (Base.command t)
  /\ isLowerOf (H := Reference.host) (VStr "Run Tests") (Base.description t)
  /\ exists e,
       Base.classify Reference.host t = Normal (Some e)
       /\ Types.step e = "Testing"
       /\ Types.toolOutput e = Some "Running: NPM Test".
Proof.
  intros parsed t.
  assert (He : Base.extractToolFromClaudeFormat Reference.host parsed
               = Normal None) by reflexivity.
  assert (Hn : Base.normalize Reference.host parsed = Normal t) by reflexivity.
  split; [exact Hn |].
  destruct (proj1 (extracted_fields_lower_case Reference.host) parsed t He Hn)
    as [Ht [Hp [Hc [Hd _]]]].
  split; [exact Ht |]. split; [exact Hp |]. split; [exact Hc |].
  split; [exact Hd |].
  eexists. split; [reflexivity |]. split; reflexivity.
Defined.

(* ================================================================= *)
(** ** Reading the fields without error *)

Section Returns.

Variable H : Host.
Local Abbreviation val := (value (number H)).

Lemma lowerOf_text (v d : val) :
  textOrAbsent v -> (exists s, d = VStr s) ->
  exists s, lowerOf (orDefault v d) = Normal s.
Proof.
  intros Hv [s ->]. unfold orDefault.
  destruct v as [| | | |raw| |]; try contradiction; cbn; try (now eexists).
  destruct (nonEmpty raw); now eexists.
Qed.

Lemma orDefault_text (v d : val) :
  textOrAbsent v -> (exists s, d = VStr s) -> exists s, orDefault v d = VStr s.
Proof.
  intros Hv [s ->]. unfold orDefault.
  destruct v as [| | | |raw| |]; try contradiction; cbn; try (now eexists).
  destruct (nonEmpty raw); now eexists.
Qed.

Lemma lowerOr_text (v : val) (rest : completion string) :
  textOrAbsent v -> (exists s, rest = Normal s) ->
  exists s, Base.lowerOr H v rest = Normal s.
Proof.
  intros Hv [s ->]. unfold Base.lowerOr, bind.
  destruct v as [| | | |raw| |]; try contradiction; cbn; try (now eexists).
  destruct (nonEmpty (toLowerCase raw)); now eexists.
Qed.

(** In the flat shape the fields are read without error when each of
    them holds a string or is missing. *)
Lemma normalize_flat_returns (parsed : val) :
  Base.extractToolFromClaudeFormat H parsed = Normal None ->
  Forall (fun k => textOrAbsent (optField parsed k))
         ["tool"; "name"; "tool_name"; "command";
          "file_path"; "filePath"; "path"; "description"] ->
  exists t, Base.normalize H parsed = Normal t.
Proof.
  intros He Hall.
  assert (Hk : forall k, In k ["tool"; "name"; "tool_name"; "command";
                                "file_path"; "filePath"; "path"; "description"] ->
                         textOrAbsent (optField parsed k))
    by (now apply Forall_forall).
  assert (Hg : forall k, get parsed k = Normal (optField parsed k)).
  { unfold Base.extractToolFromClaudeFormat, bind in He.
    destruct (get parsed "type") as [ty|] eqn:Ety; [| discriminate].
    exact (get_any H parsed "type" ty Ety). }
  unfold Base.normalize, bind. rewrite He, !Hg. cbn [bind].
  rewrite !orElse_orDefault. cbn [bind].
  destruct (lowerOr_text (optField parsed "tool")
              (Base.lowerOr H (optField parsed "name")
                 (Base.lowerOr H (optField parsed "tool_name") (Normal ""))))
    as [toolName ->].
  { apply Hk; cbn; tauto. }
  { apply lowerOr_text; [apply Hk; cbn; tauto |].
    apply lowerOr_text; [apply Hk; cbn; tauto | now eexists]. }
  destruct (lowerOr_text (optField parsed "command") (Normal ""))
    as [command ->]; [apply Hk; cbn; tauto | now eexists |].
  destruct (lowerOf_text (optField parsed "file_path")
              (orDefault (optField parsed "filePath")
                 (orDefault (optField parsed "path") (VStr ""))))
    as [filePath ->].
  { apply Hk; cbn; tauto. }
  { apply orDefault_text; [apply Hk; cbn; tauto |].
    apply orDefault_text; [apply Hk; cbn; tauto | now eexists]. }
  destruct (lowerOf_text (optField parsed "description") (VStr ""))
    as [description ->]; [apply Hk; cbn; tauto | now eexists |].
  now eexists.
Qed.

(** The fields of a tool call of the OpenCode stream are read without
    error when the path fields and the command hold a string or are
    missing. *)
Lemma fields_returns (parsed : val) (toolName : string) (input : val) :
  OpenCode.toolCall H parsed = Normal (Some (toolName, input)) ->
  Forall (fun k => textOrAbsent (optField input k))
         ["file_path"; "path"; "command"] ->
  exists f, OpenCode.fields H input = Normal f.
Proof.
  intros Hc Hall.
  assert (Hk : forall k, In k ["file_path"; "path"; "command"] ->
                         textOrAbsent (optField input k))
    by (now apply Forall_forall).
  assert (Hg : forall k, get input k = Normal (optField input k)).
  { destruct (toolCall_found H parsed toolName input Hc) as [_ [_ ->]].
    unfold orDefault.
    destruct (optField (optField parsed "part") "input") as [| | | | | |props];
      cbn; try reflexivity; intros k;
      repeat match goal with
             | |- context [if ?b then _ else _] => destruct b
             end; reflexivity. }
  unfold OpenCode.fields, bind. rewrite !Hg. cbn [bind].
  rewrite !orElse_orDefault. cbn [bind].
  destruct (orDefault_text (optField input "file_path")
              (orDefault (optField input "path") (VStr "")))
    as [raw ->].
  { apply Hk; cbn; tauto. }
  { apply orDefault_text; [apply Hk; cbn; tauto | now eexists]. }
  cbn [strOf].
  destruct (lowerOf_text (optField input "command") (VStr ""))
    as [command ->]; [apply Hk; cbn; tauto | now eexists |].
  unfold orElse. repeat destruct (truthy _); now eexists.
Qed.

End Returns.

(* ================================================================= *)
(** ** The tracked list along a stream *)

Section Tracking.

Variable H : Host.
Local Abbreviation val := (value (number H)).
Local Abbreviation StepInfo := (Types.StepInfo (number H)).
Local Abbreviation TodoItem := (Types.TodoItem (number H)).

Lemma event_tracks (step : string) (toolOutput : option string)
    (diff : option Types.DiffInfo) (s s' : list TodoItem)
    (r : option StepInfo) :
  step <> "Planning" ->
  OpenCode.event H step toolOutput diff s = (Normal r, s') ->
  tracks H s r s'.
Proof.
  intros Hs. rewrite event_eq. intros [= <- <-]. right. cbn. auto.
Qed.

Lemma stepStart_tracks (parsed : val) (s s' : list TodoItem)
    (r : option StepInfo) :
  OpenCode.stepStart H parsed s = (Normal r, s') -> tracks H s r s'.
Proof.
  rewrite stepStart_eq. intros Hr.
  destruct (get parsed "type") as [ty|]; [| discriminate].
  destruct (isStr ty "step_start").
  - revert Hr. apply event_tracks. discriminate.
  - now injection Hr as <- <-.
Qed.

Lemma toolStep_tracks (parsed : val) (toolName : string) (input : val)
    (s s' : list TodoItem) (r : option StepInfo) :
  OpenCode.toolStep H parsed toolName input s = (Normal r, s') ->
  tracks H s r s'.
Proof.
  unfold OpenCode.toolStep, bindS, lift. intros Hr.
  destruct (OpenCode.fields H input); [| discriminate].
  repeat (break_hyp_match; try discriminate);
    try (now apply stepStart_tracks in Hr);
    (revert Hr; apply event_tracks; discriminate).
Qed.

Lemma detectBody_tracks (trimmed : string) (s s' : list TodoItem)
    (r : option StepInfo) :
  OpenCode.detectBody H trimmed s = (Normal r, s') -> tracks H s r s'.
Proof.
  unfold OpenCode.detectBody, bindS, lift, ret. intros Hr.
  destruct (Base.parse H trimmed) as [parsed|]; [| discriminate].
  destruct (OpenCode.toolCall H parsed) as [[[toolName input]|]|];
    [| now apply stepStart_tracks in Hr | discriminate].
  unfold OpenCode.todoWrite, bindS, lift, assign, read, ret in Hr.
  destruct (String.eqb toolName "todowrite" || String.eqb toolName "mcp_todowrite").
  - destruct (get input "todos") as [todos|]; [| discriminate].
    destruct todos as [| | | | |ts|]; try (now apply toolStep_tracks in Hr).
    destruct (OpenCode.mapTodos H ts) as [items|]; [| discriminate].
    injection Hr as <- <-. now left.
  - now apply toolStep_tracks in Hr.
Qed.

Lemma detectBody_throw_state (trimmed : string) (s s' : list TodoItem)
    (e : exn) :
  OpenCode.detectBody H trimmed s = (Throw e, s') -> s' = s.
Proof.
  unfold OpenCode.detectBody, bindS, lift, ret. intros Hr.
  destruct (Base.parse H trimmed) as [parsed|]; [| now injection Hr].
  destruct (OpenCode.toolCall H parsed) as [[[toolName input]|]|];
    [| | now injection Hr].
  - unfold OpenCode.todoWrite, bindS, lift, assign, read, ret in Hr.
    pose proof (toolStep_state H parsed toolName input s) as Hst.
    destruct (String.eqb toolName "todowrite"
              || String.eqb toolName "mcp_todowrite").
    + destruct (get input "todos") as [todos|]; [| now injection Hr].
      destruct todos as [| | | | |ts|];
        try (rewrite Hr in Hst; now cbn in Hst).
      destruct (OpenCode.mapTodos H ts); [discriminate | now injection Hr].
    + rewrite Hr in Hst. now cbn in Hst.
  - rewrite stepStart_eq in Hr.
    destruct (get parsed "type") as [ty|]; [| now injection Hr].
    destruct (isStr ty "step_start"); [rewrite event_eq in Hr |]; discriminate.
Qed.

Lemma detectStepFromLine_tracks_state (line : string) (s : list TodoItem) :
  exists r s', OpenCode.detectStepFromLine H line s = (Normal r, s')
               /\ tracks H s r s'.
Proof.
  unfold OpenCode.detectStepFromLine.
  destruct (negb (startsWith "{" (trim line)));
    [exists None, s; now split |].
  unfold tryCatchS.
  destruct (OpenCode.detectBody H (trim line) s) as [[r|e] s'] eqn:Hb.
  - exists r, s'. split; [reflexivity | now apply detectBody_tracks in Hb].
  - apply detectBody_throw_state in Hb. subst s'. exists None, s. now split.
Qed.

Lemma progress_normal (lines : list string) (s : list TodoItem) :
  exists events s',
    OpenCode.progress H lines s = (Normal events, s')
    /\ List.length events <= List.length lines.
Proof.
  revert s. induction lines as [|line lines IH]; intros s.
  - exists [], s. now split.
  - destruct (detectStepFromLine_tracks_state line s) as [r [s1 [Hr _]]].
    destruct (IH s1) as [events [s' [He Hlen]]].
    cbn [OpenCode.progress]. unfold bindS at 1. rewrite Hr.
    unfold bindS. rewrite He. unfold ret.
    destruct r as [e|]; eexists _, _; (split; [reflexivity |]); cbn; lia.
Qed.

Lemma progress_app (l1 l2 : list string) (s s1 s2 : list TodoItem)
    (ev1 ev2 : list StepInfo) :
  OpenCode.progress H l1 s = (Normal ev1, s1) ->
  OpenCode.progress H l2 s1 = (Normal ev2, s2) ->
  OpenCode.progress H (app l1 l2) s = (Normal (app ev1 ev2), s2).
Proof.
  revert s ev1. induction l1 as [|line l1 IH]; intros s ev1 H1 H2.
  - injection H1 as <- <-. exact H2.
  - cbn [app OpenCode.progress] in *. unfold bindS at 1 in H1.
    unfold bindS at 1.
    destruct (OpenCode.detectStepFromLine H line s) as [[r|] sa];
      [| discriminate].
    unfold bindS in H1 |- *.
    destruct (OpenCode.progress H l1 sa) as [[evs|] sb] eqn:Hp;
      [| discriminate].
    unfold ret in H1. injection H1 as <- <-.
    rewrite (IH sa evs Hp H2). unfold ret. now destruct r.
Qed.

End Tracking.

(** X11. A call of [detectStepFromLine] never raises, and it touches
    the tracked todo list only when it returns a Planning event: then
    the list tracked afterwards is the one the event carries.  In
    every other case, whether an event is returned or not, the list
    stays as it was, and a returned event carries that list when it is
    not empty and no [todos] when it is. *)
Theorem detectStepFromLine_tracks (H : Host) (line : string)
    (tracked : list (Types.TodoItem (number H))) :
  exists r tracked',
    OpenCode.detectStepFromLine H line tracked = (Normal r, tracked')
    /\ match r with
       | None => tracked' = tracked
       | Some e =>
           e = planning tracked'
           \/ (Types.step e <> "Planning" /\ tracked' = tracked
               /\ Types.todos e = carried tracked)
       end.
Proof. apply detectStepFromLine_tracks_state. Qed.

(** X12. The line callback of [executeStreaming] never raises and
    hands to [onProgress] at most one event per line; a stream
    processed in two parts gives the events of the first part followed
    by the events of the second part run from the list the first part
    left tracked. *)
Theorem progress_composes (H : Host) (lines1 lines2 : list string)
    (tracked : list (Types.TodoItem (number H))) :
  exists events1 tracked1 events2 tracked2,
    OpenCode.progress H lines1 tracked = (Normal events1, tracked1)
    /\ OpenCode.progress H lines2 tracked1 = (Normal events2, tracked2)
    /\ OpenCode.progress H (app lines1 lines2) tracked
       = (Normal (app events1 events2), tracked2)
    /\ List.length events1 <= List.length lines1
    /\ List.length events2 <= List.length lines2.
Proof.
  destruct (progress_normal H lines1 tracked) as [ev1 [s1 [H1 L1]]].
  destruct (progress_normal H lines2 s1) as [ev2 [s2 [H2 L2]]].
  exists ev1, s1, ev2, s2. repeat (split; [assumption |]).
  split; [now apply (progress_app H lines1 lines2 tracked s1 s2) |].
  now split.
Qed.

(* ================================================================= *)
(** ** Truncation and display *)

Lemma truncate_same (str : string) (maxLen : Z) :
  Base.truncate str maxLen = OpenCode.truncate str maxLen.
Proof. reflexivity. Qed.

Lemma truncate_long (str : string) (maxLen : Z) :
  (3 <= maxLen)%Z -> (maxLen < Z.of_nat (String.length str))%Z ->
  exists p r, str = p ++ r
              /\ Z.of_nat (String.length p) = (maxLen - 3)%Z
              /\ Base.truncate str maxLen = p ++ "...".
Proof.
  intros Hm Hl. unfold Base.truncate.
  destruct (Z.leb_spec (Z.of_nat (String.length str)) maxLen) as [Hle | _];
    [lia |].
  unfold slice.
  rewrite (clampIndex_nonneg _ 0), (clampIndex_nonneg _ (maxLen - 3)) by lia.
  cbn [Z.to_nat Nat.min]. rewrite Nat.sub_0_r.
  set (n := Nat.min (Z.to_nat (maxLen - 3)) (String.length str)).
  destruct (substring0_prefix n str) as [r Hr].
  exists (substring 0 n str), r. split; [exact Hr |]. split; [| reflexivity].
  rewrite length_substring0. unfold n. lia.
Qed.

Lemma truncate_nonEmpty (str : string) (maxLen : Z) :
  (3 <= maxLen)%Z -> nonEmpty str = true ->
  nonEmpty (OpenCode.truncate str maxLen) = true.
Proof.
  intros Hm Hs. destruct (truncate_shape str maxLen Hm) as [-> | [p [r [_ ->]]]];
    [exact Hs |]. now destruct p.
Qed.

Lemma in_firstn {A : Type} (n : nat) (l : list A) (x : A) :
  In x (firstn n l) -> In x l.
Proof.
  revert l. induction n as [|n IH]; intros [|y l]; cbn; try contradiction.
  intros [-> | Hin]; [now left | right; now apply IH].
Qed.

(** X13. [extractCodeSnippet] returns nothing for an empty code and
    otherwise at most [maxLines] entries (3 by default), none of them
    empty and none longer than 60 characters; there are no more
    entries than the code has non-blank lines. *)
Theorem extractCodeSnippet_bounds (code : string) (maxLines : Z) :
  (0 <= maxLines)%Z ->
  let snippet := OpenCode.extractCodeSnippet code maxLines in
  (code = "" -> snippet = [])
  /\ (Z.of_nat (List.length snippet) <= maxLines)%Z
  /\ List.length snippet
     <= List.length (filter Output.nonBlank (splitLines code))
  /\ Forall (fun l => l <> "" /\ String.length l <= 60) snippet.
Proof.
  intros Hm snippet. unfold snippet, OpenCode.extractCodeSnippet.
  split; [now intros -> |].
  destruct (negb (nonEmpty code)).
  { cbn. split; [lia |]. split; [lia | constructor]. }
  rewrite sliceList_firstn by exact Hm.
  fold Output.nonBlank.
  change (fun l => nonEmpty (trim l)) with Output.nonBlank.
  rewrite length_map, length_firstn. split; [lia |]. split; [lia |].
  apply Forall_forall. intros l [x [<- Hx]]%in_map_iff.
  apply in_firstn, filter_In in Hx as [_ Hx]. split.
  - apply nonEmpty_true, truncate_nonEmpty; [lia | exact Hx].
  - pose proof (truncate_length (trim x) 60). lia.
Qed.

Lemma extractCodeSnippet_bounds_witness :
  (0 <= 3)%Z
  /\ OpenCode.extractCodeSnippet
       ("  const a = 1;" ++ newline ++ newline ++ "return a;  " ++ newline
        ++ "x" ++ newline ++ "y") 3
     = ["const a = 1;"; "return a;"; "x"]
  /\ Forall (fun l => l <> "" /\ String.length l <= 60)
            (OpenCode.extractCodeSnippet
               ("  const a = 1;" ++ newline ++ newline ++ "return a;  "
                ++ newline ++ "x" ++ newline ++ "y") 3).
Proof.
  assert (Hm : (0 <= 3)%Z) by lia. split; [exact Hm |].
  split; [vm_compute; reflexivity |].
  apply (extractCodeSnippet_bounds _ 3 Hm).
Defined.

(** X14. What is shown beside a step is bounded: a formatted file path
    has at most 60 characters, and the echo of a command, in both
    classifiers, begins with ["Running: "] and has at most 59. *)
Theorem display_widths (filePath command : string) :
  String.length (Base.formatFilePath filePath) <= 60
  /\ String.length (OpenCode.truncatePath filePath) <= 60
  /\ String.length (Base.formatCommand command) <= 59
  /\ startsWith "Running: " (Base.formatCommand command) = true
  /\ (forall out, OpenCode.echo command = Some out ->
                  String.length out <= 59
                  /\ startsWith "Running: " out = true).
Proof.
  pose proof (truncate_length filePath 60) as Hf.
  pose proof (truncate_length command 50) as Hc.
  unfold Base.formatFilePath, OpenCode.truncatePath, Base.formatCommand,
    OpenCode.echo.
  change Base.truncate with OpenCode.truncate.
  rewrite length_append. cbn [String.length].
  split; [lia |]. split; [lia |]. split; [lia |].
  split; [apply prefix_iff; now eexists |].
  intros out. destruct (nonEmpty command); [| discriminate].
  intros [= <-]. cbn [String.length].
  split; [lia | apply prefix_iff; now eexists].
Qed.

Lemma display_widths_witness :
  OpenCode.echo "npm test" = Some "Running: npm test"
  /\ String.length "Running: npm test" <= 59
  /\ startsWith "Running: " "Running: npm test" = true.
Proof.
  split; [reflexivity |].
  apply (proj2 (proj2 (proj2 (proj2 (display_widths "" "npm test"))))).
  reflexivity.
Defined.

Lemma truncate_facts (str : string) (maxLen : Z) :
  (3 <= maxLen)%Z ->
  ((Z.of_nat (String.length str) <= maxLen)%Z ->
   Base.truncate str maxLen = str)
  /\ ((maxLen < Z.of_nat (String.length str))%Z ->
      Z.of_nat (String.length (Base.truncate str maxLen)) = maxLen
      /\ exists p r, str = p ++ r
                     /\ Z.of_nat (String.length p) = (maxLen - 3)%Z
                     /\ Base.truncate str maxLen = p ++ "...")
  /\ Base.truncate (Base.truncate str maxLen) maxLen
     = Base.truncate str maxLen.
Proof.
  intros Hm. split; [| split].
  - intros Hl%Z.leb_le. unfold Base.truncate. now rewrite Hl.
  - intros Hl. destruct (truncate_long str maxLen Hm Hl) as [p [r [Hs [Hp Ht]]]].
    split; [| now exists p, r]. rewrite Ht, length_append. cbn. lia.
  - pose proof (truncate_length str maxLen Hm) as Hl.
    rewrite <- truncate_same in Hl. apply Z.leb_le in Hl.
    unfold Base.truncate at 1. now rewrite Hl.
Qed.

(** X15. For a bound of at least 3, [truncate] leaves a string within
    the bound as it is and cuts a longer one to exactly the bound: its
    first [maxLen - 3] characters followed by three dots.  Truncating
    twice is truncating once. *)
Theorem truncate_exact (str : string) (maxLen : Z) :
  (3 <= maxLen)%Z ->
  ((Z.of_nat (String.length str) <= maxLen)%Z ->
   Base.truncate str maxLen = str)
  /\ ((maxLen < Z.of_nat (String.length str))%Z ->
      Z.of_nat (String.length (Base.truncate str maxLen)) = maxLen
      /\ exists p r, str = p ++ r
                     /\ Z.of_nat (String.length p) = (maxLen - 3)%Z
                     /\ Base.truncate str maxLen = p ++ "...")
  /\ Base.truncate (Base.truncate str maxLen) maxLen
     = Base.truncate str maxLen.
Proof. apply truncate_facts. Qed.

Lemma truncate_exact_witness :
  (3 <= 10)%Z
  /\ Base.truncate "short" 10 = "short"
  /\ Base.truncate "a rather long text" 10 = "a rathe..."
  /\ Base.truncate (Base.truncate "a rather long text" 10) 10
     = Base.truncate "a rather long text" 10.
Proof.
  assert (Hm : (3 <= 10)%Z) by lia. split; [exact Hm |].
  destruct (truncate_exact "a rather long text" 10 Hm) as [_ [_ Hi]].
  destruct (truncate_exact "short" 10 Hm) as [Hs _].
  split; [apply Hs; cbn; lia |]. split; [reflexivity | exact Hi].
Defined.

(* ================================================================= *)
(** ** Test files, again *)

Lemma includes_context (m a s b : string) :
  includes m s = true -> includes m (a ++ s ++ b) = true.
Proof.
  intros [x [y ->]]%includes_iff. apply includes_iff.
  exists (a ++ x), (y ++ b). now rewrite !append_assoc.
Qed.

Lemma orb_mono (a b a' b' : bool) :
  (a = true -> a' = true) -> (b = true -> b' = true) ->
  a || b = true -> a' || b' = true.
Proof. destruct a, b, a', b'; intuition congruence. Qed.

(** X16. Both test-file heuristics look at the lower-cased path only
    and anywhere in it: a path recognised as a test file stays one
    with any directory put before it and any suffix after it; and
    whatever the OpenCode engine takes for a test file, [base.ts]
    does too. *)
Theorem isTestFile_anywhere (path before after : string) :
  (Base.isTestFile path = true ->
   Base.isTestFile (before ++ path ++ after) = true)
  /\ (OpenCode.isTestFile path = true ->
      OpenCode.isTestFile (before ++ path ++ after) = true)
  /\ (OpenCode.isTestFile path = true -> Base.isTestFile path = true)
  /\ Base.isTestFile (toLowerCase path) = Base.isTestFile path
  /\ OpenCode.isTestFile (toLowerCase path) = OpenCode.isTestFile path.
Proof.
  unfold Base.isTestFile, OpenCode.isTestFile.
  rewrite !toLowerCase_append, toLowerCase_idempotent.
  repeat split; try reflexivity.
  - repeat (apply orb_mono; [| apply includes_context]).
    apply includes_context.
  - repeat (apply orb_mono; [| apply includes_context]).
    apply includes_context.
  - intros ->. reflexivity.
Qed.

Lemma isTestFile_anywhere_witness :
  Base.isTestFile "__tests__" = true
  /\ Base.isTestFile ("src/" ++ "__tests__" ++ "/Foo.ts") = true
  /\ OpenCode.isTestFile ("src/" ++ "__tests__" ++ "/Foo.ts") = true.
Proof.
  destruct (isTestFile_anywhere "__tests__" "src/" "/Foo.ts")
    as [Hb [Ho _]].
  split; [reflexivity |]. split; [apply Hb | apply Ho]; reflexivity.
Defined.

(* ================================================================= *)
(** ** The timing of steps *)

Section Timing.

Variable number : Type.
Local Abbreviation ProgressSpinner := (Spinner.ProgressSpinner number).

Lemma closeLast_snoc (history : list Spinner.OperationTiming.t)
    (lastStep : Spinner.OperationTiming.t) (now : Z) :
  Spinner.closeLast (app history [lastStep]) now
  = app history
        [if Spinner.unset (Spinner.OperationTiming.endTime lastStep)
         then {| Spinner.OperationTiming.name :=
                   Spinner.OperationTiming.name lastStep;
                 Spinner.OperationTiming.startTime :=
                   Spinner.OperationTiming.startTime lastStep;
                 Spinner.OperationTiming.endTime := Some now |}
         else lastStep].
Proof.
  induction history as [|x history IH]; [reflexivity |].
  cbn [app Spinner.closeLast]. rewrite IH.
  destruct (app history [lastStep]) eqn:E; [| reflexivity].
  now destruct history.
Qed.

Lemma updateSteps_history (updates : list (string * Z)) (p : ProgressSpinner)
    (before : list Spinner.OperationTiming.t) (name : string) (start : Z) :
  Spinner.stepHistory p
  = app before [{| Spinner.OperationTiming.name := name;
                   Spinner.OperationTiming.startTime := start;
                   Spinner.OperationTiming.endTime := None |}] ->
  Spinner.stepHistory (updateSteps p updates)
  = app before (stepChain name start updates).
Proof.
  revert p before name start.
  induction updates as [|[step now] updates IH]; intros p before name start Hp.
  - exact Hp.
  - cbn [updateSteps fold_left fst snd stepChain].
    change (fold_left _ updates ?q) with (updateSteps q updates).
    rewrite (IH _ (app before
                     [{| Spinner.OperationTiming.name := name;
                         Spinner.OperationTiming.startTime := start;
                         Spinner.OperationTiming.endTime := Some now |}])
                step now).
    + now rewrite <- app_assoc.
    + cbn [Spinner.updateStep Spinner.stepHistory]. rewrite Hp, closeLast_snoc.
      reflexivity.
Qed.

Lemma stepChain_total (updates : list (string * Z)) (name : string)
    (start now : Z) :
  Forall (fun u => snd u <> 0%Z) updates ->
  totalMs (map (fun step =>
                  (Spinner.OperationTiming.name step,
                   (Spinner.endOr (Spinner.OperationTiming.endTime step) now
                    - Spinner.OperationTiming.startTime step)%Z))
               (stepChain name start updates))
  = (now - start)%Z.
Proof.
  intros Hu. revert name start.
  induction Hu as [|[step t] updates Ht _ IH]; intros name start.
  - cbn. lia.
  - cbn [stepChain map totalMs fold_right snd Spinner.endOr
         Spinner.OperationTiming.endTime Spinner.OperationTiming.startTime].
    fold (totalMs (map (fun step0 =>
                  (Spinner.OperationTiming.name step0,
                   (Spinner.endOr (Spinner.OperationTiming.endTime step0) now
                    - Spinner.OperationTiming.startTime step0)%Z))
               (stepChain step t updates))).
    rewrite IH. cbn [snd] in Ht. apply Z.eqb_neq in Ht. rewrite Ht. lia.
Qed.

Lemma updateSteps_startTime (updates : list (string * Z)) (p : ProgressSpinner) :
  Spinner.startTime (updateSteps p updates) = Spinner.startTime p.
Proof.
  revert p. induction updates as [|u updates IH]; intros p; [reflexivity |].
  cbn [updateSteps fold_left].
  change (fold_left _ updates ?q) with (updateSteps q updates).
  now rewrite IH.
Qed.

Lemma stepChain_names (updates : list (string * Z)) (name : string)
    (start : Z) :
  map Spinner.OperationTiming.name (stepChain name start updates)
  = name :: map fst updates.
Proof.
  revert name start. induction updates as [|[step t] updates IH];
    intros name start; [reflexivity |].
  cbn [stepChain map fst]. now rewrite IH.
Qed.

End Timing.

(** X17. After any run of [updateStep] calls on a new spinner, the
    history holds the initial step Thinking and then one entry per
    call, in order, each closed at the clock reading at which the next
    one started and the last one open.  When no call was made at clock
    reading zero, the durations that [getStepTimings] reports add up
    to the time since the constructor took the start of the first
    step: the breakdown accounts for the whole elapsed time, without
    gap or overlap. *)
Theorem step_timings_account_for_time (number : Type) (task : string)
    (settings : option (list string)) (now1 now2 : Z)
    (updates : list (string * Z)) (now : Z) :
  let p := updateSteps (Spinner.create number task settings now1 now2) updates in
  Spinner.stepHistory p = stepChain "Thinking" now2 updates
  /\ map fst (Spinner.getStepTimings number p now)
     = "Thinking" :: map fst updates
  /\ (Forall (fun u => snd u <> 0%Z) updates ->
      totalMs (Spinner.getStepTimings number p now) = (now - now2)%Z
      /\ totalMs (Spinner.getStepTimings number p now)
         = (Spinner.getElapsedMs number p now - (now2 - now1))%Z).
Proof.
  intros p.
  assert (Hh : Spinner.stepHistory p = stepChain "Thinking" now2 updates)
    by (apply (updateSteps_history number updates _ [] "Thinking" now2);
        reflexivity).
  assert (Hs : Spinner.startTime p = now1)
    by (unfold p; now rewrite updateSteps_startTime).
  split; [exact Hh |]. unfold Spinner.getStepTimings. rewrite Hh. split.
  - rewrite map_map. cbn [fst]. apply stepChain_names.
  - intros Hu. rewrite (stepChain_total updates "Thinking" now2 now Hu).
    split; [reflexivity |]. unfold Spinner.getElapsedMs. rewrite Hs. lia.
Qed.

Lemma step_timings_account_for_time_witness :
  let p :=
    updateSteps (Spinner.create Z "task" None 1000 1002)
                [("Reading code", 1500%Z); ("Testing", 4000%Z)] in
  Forall (fun u : string * Z => snd u <> 0%Z)
         [("Reading code", 1500%Z); ("Testing", 4000%Z)]
  /\ Spinner.getStepTimings Z p 9000
     = [("Thinking", 498%Z); ("Reading code", 2500%Z); ("Testing", 5000%Z)]
  /\ totalMs (Spinner.getStepTimings Z p 9000) = (9000 - 1002)%Z.
Proof.
  intros p.
  assert (Hu : Forall (fun u : string * Z => snd u <> 0%Z)
                      [("Reading code", 1500%Z); ("Testing", 4000%Z)])
    by (repeat constructor; discriminate).
  split; [exact Hu |]. split; [reflexivity |].
  apply (step_timings_account_for_time Z "task" None 1000 1002
           [("Reading code", 1500%Z); ("Testing", 4000%Z)] 9000).
  exact Hu.
Defined.

(** X18. The task label of a spinner is the task truncated as
    [truncate] does with bound 40: the task itself when it has at most
    40 characters, and otherwise its first 37 characters followed by
    three dots, 40 characters in all. *)
Theorem task_label_bounded (task : string) :
  Spinner.taskLabel task = Base.truncate task 40
  /\ String.length (Spinner.taskLabel task) <= 40
  /\ (String.length task <= 40 -> Spinner.taskLabel task = task)
  /\ (40 < String.length task -> String.length (Spinner.taskLabel task) = 40).
Proof.
  assert (He : Spinner.taskLabel task = Base.truncate task 40).
  { unfold Spinner.taskLabel, Base.truncate.
    destruct (Z.ltb_spec 40 (Z.of_nat (String.length task)));
      destruct (Z.leb_spec (Z.of_nat (String.length task)) 40);
      try reflexivity; lia. }
  rewrite He. assert (Hm : (3 <= 40)%Z) by lia.
  destruct (truncate_facts task 40 Hm) as [Hshort [Hlong _]].
  pose proof (truncate_length task 40 Hm) as Hlen.
  change OpenCode.truncate with Base.truncate in Hlen.
  split; [reflexivity |]. split; [lia |]. split.
  - intros Hl. apply Hshort. lia.
  - intros Hl. destruct Hlong as [Hx _]; lia.
Qed.

Lemma task_label_bounded_witness :
  40 < String.length "refactor the streaming progress classifier module"
  /\ Spinner.taskLabel "refactor the streaming progress classifier module"
     = "refactor the streaming progress class..."
  /\ String.length
       (Spinner.taskLabel "refactor the streaming progress classifier module")
     = 40.
Proof.
  assert (Hl : 40 < String.length
                      "refactor the streaming progress classifier module")
    by (cbn; lia).
  split; [exact Hl |]. split; [reflexivity |].
  apply (proj2 (proj2 (proj2 (task_label_bounded _)))). exact Hl.
Defined.
